(** * virt-platform-autopilot: root exclusion, override guards, asset
      conditions, YAML loading and tombstone reconciliation

    A shallow embedding of the Go sources

      - pkg/engine/exclusion.go        (ParseDisabledResources, IsResourceExcluded)
      - pkg/overrides                  (ValidatePatchSecurity, IsAutopilotEnabled)
      - pkg/render/output.go           (CheckConditions)
      - pkg/assets loader, tombstones  (ParseYAML, ParseMultiYAML, LoadTombstones)
      - pkg/engine/tombstone.go        (reconcileTombstone, ReconcileTombstones)

    Go strings are byte sequences, so [string] (a list of 8-bit [ascii]) is
    their model; [[]byte] is modelled the same way.  Go maps with string keys
    are [gmap string _]; a nil map is [None] where the code tells nil from
    empty.  Go's [int] is [Z]. *)

From Stdlib Require Import ZArith Ascii String List Lia.
From stdpp Require Import base option list strings pretty gmap fin_maps.

Local Open Scope Z_scope.

(** ** The Go standard library functions the sources call *)

Module strings.

(** [strings.HasPrefix]. *)
Fixpoint HasPrefix (s prefix : string) : bool :=
  match prefix with
  | "" => true
  | String p prefix' =>
      match s with
      | "" => false
      | String c s' => Ascii.eqb c p && HasPrefix s' prefix'
      end
  end.

(** [strings.HasSuffix]. *)
Definition HasSuffix (s suffix : string) : bool :=
  HasPrefix (String.rev s) (String.rev suffix).

(** [strings.Contains]: [substr] occurs somewhere in [s]. *)
Fixpoint Contains (s substr : string) : bool :=
  HasPrefix s substr ||
  match s with
  | "" => false
  | String _ s' => Contains s' substr
  end.

Fixpoint trimLeft (s : string) : string :=
  match s with
  | "" => ""
  | String c s' => if Ascii.is_space c then trimLeft s' else s
  end.

(** [strings.TrimSpace] on the ASCII white space Go recognises (tab,
    newline, vertical tab, form feed, carriage return, space); Go also
    trims the multi-byte Unicode spaces, which are left in place here.  No
    property below depends on which bytes are trimmed. *)
Definition TrimSpace (s : string) : string :=
  String.rev (trimLeft (String.rev (trimLeft s))).

(** [strings.Split s sep] for a non-empty separator, scanning left to
    right for non-overlapping occurrences.  [skip] counts the bytes of a
    separator still to be dropped, [cur] is the current piece, reversed. *)
Fixpoint splitGo (sep s : string) (skip : nat) (cur : string) : list string :=
  match s with
  | "" => [String.rev cur]
  | String c s' =>
      match skip with
      | S k => splitGo sep s' k cur
      | O =>
          if HasPrefix s sep
          then String.rev cur :: splitGo sep s' (String.length sep - 1) ""
          else splitGo sep s' O (String c cur)
      end
  end.

Definition Split (s sep : string) : list string := splitGo sep s O "".

End strings.

(** ** Unstructured objects (k8s.io/apimachinery) *)

(** The dynamic values of a decoded document: Go's [interface{}] holding
    nil, a bool, an integer, a float (kept as its bit pattern), a string,
    a [map[string]interface{}] or a [[]interface{}].  A map is kept as its
    list of entries. *)
#[warnings="-register-all"]
Inductive Any : Type :=
| VNil
| VBool (b : bool)
| VInt (n : Z)
| VFloat (bits : Z)
| VString (s : string)
| VMap (entries : list (string * Any))
| VSlice (items : list Any).

(** [unstructured.Unstructured]: a struct around the decoded map. *)
Record Unstructured : Type := mkUnstructured { Object : list (string * Any) }.

Module unstructured.

(** [m[k]] on a decoded map. *)
Fixpoint field (m : list (string * Any)) (k : string) : option Any :=
  match m with
  | [] => None
  | (k', v) :: m' => if String.eqb k' k then Some v else field m' k
  end.

(** [NestedFieldNoCopy]: follow a path of keys through nested maps. *)
Fixpoint NestedFieldNoCopy (m : list (string * Any)) (fields : list string)
  : option Any :=
  match fields with
  | [] => Some (VMap m)
  | [k] => field m k
  | k :: rest =>
      match field m k with
      | Some (VMap m') => NestedFieldNoCopy m' rest
      | _ => None
      end
  end.

(** [getNestedString]: the string at the path, [""] when absent or not a
    string. *)
Definition getNestedString (m : list (string * Any)) (fields : list string)
  : string :=
  match NestedFieldNoCopy m fields with
  | Some (VString s) => s
  | _ => ""
  end.

(** The loop of [NestedStringMap]: every value must be a string. *)
Fixpoint stringMap (m : list (string * Any)) : option (gmap string string) :=
  match m with
  | [] => Some ∅
  | (k, VString s) :: m' =>
      match stringMap m' with
      | Some acc => Some (<[k := s]> acc)
      | None => None
      end
  | _ :: _ => None
  end.

(** [NestedStringMap] as its callers use it: nil ([None]) when the path is
    absent, is not a map, or holds a non-string value. *)
Definition NestedStringMap (m : list (string * Any)) (fields : list string)
  : option (gmap string string) :=
  match NestedFieldNoCopy m fields with
  | Some (VMap m') => stringMap m'
  | _ => None
  end.

Definition GetKind (u : Unstructured) : string :=
  getNestedString (Object u) ["kind"].
Definition GetAPIVersion (u : Unstructured) : string :=
  getNestedString (Object u) ["apiVersion"].
Definition GetName (u : Unstructured) : string :=
  getNestedString (Object u) ["metadata"; "name"].
Definition GetNamespace (u : Unstructured) : string :=
  getNestedString (Object u) ["metadata"; "namespace"].
Definition GetLabels (u : Unstructured) : option (gmap string string) :=
  NestedStringMap (Object u) ["metadata"; "labels"].
Definition GetAnnotations (u : Unstructured) : option (gmap string string) :=
  NestedStringMap (Object u) ["metadata"; "annotations"].

End unstructured.

(** Reading a Go [map[string]string] that may be nil: the zero value [""]
    for a nil map and for a missing key. *)
Definition index (m : option (gmap string string)) (k : string) : string :=
  match m with
  | Some m' => default "" (m' !! k)
  | None => ""
  end.

(** The comma-ok form [v, ok := m[k]]. *)
Definition index_ok (m : option (gmap string string)) (k : string) : string * bool :=
  match m with
  | Some m' =>
      match m' !! k with
      | Some v => (v, true)
      | None => ("", false)
      end
  | None => ("", false)
  end.

(** ** pkg/engine/exclusion.go *)

Module exclusion.

(** The annotation key for root exclusion. *)
Definition DisabledResourcesAnnotation : string :=
  "platform.kubevirt.io/disabled-resources".

(** The body of the [for _, pair := range pairs] loop, on the map built so
    far. *)
Definition addPair (disabled : gmap string bool) (pair : string)
  : gmap string bool :=
  let trimmed := strings.TrimSpace pair in
  if negb (String.eqb trimmed "") then <[trimmed := true]> disabled
  else disabled.

(** [ParseDisabledResources]: format ["Kind/Name, Kind/Name, ..."]. *)
Definition ParseDisabledResources (annotation : string) : gmap string bool :=
  let disabled : gmap string bool := ∅ in
  if String.eqb annotation "" then disabled
  else
    let pairs := strings.Split annotation "," in
    fold_left addPair pairs disabled.

(** [fmt.Sprintf("%s/%s", kind, name)]. *)
Definition resourceKey (kind name : string) : string :=
  kind +:+ "/" +:+ name.

(** [disabledMap[key]] on a [map[string]bool]: [false] for a missing key. *)
Definition lookupBool (m : gmap string bool) (key : string) : bool :=
  default false (m !! key).

(** [IsResourceExcluded]; a nil map has length 0 like the empty one. *)
Definition IsResourceExcluded (kind name : string)
    (disabledMap : gmap string bool) : bool :=
  if (Z.of_nat (size disabledMap) =? 0) then false
  else
    let key := resourceKey kind name in
    lookupBool disabledMap key.

(** [FilterExcludedAssets]. *)
Definition FilterExcludedAssets (assets : list Unstructured)
    (disabledMap : gmap string bool) : list Unstructured :=
  if (Z.of_nat (size disabledMap) =? 0) then assets
  else
    filter (λ asset,
              lookupBool disabledMap
                (resourceKey (unstructured.GetKind asset)
                             (unstructured.GetName asset)) = false)
           assets.

End exclusion.


(** ** Go errors and [fmt] *)

(** [metav1.StatusReason] of an API error, as far as the sources ask. *)
Inductive StatusReason : Type :=
| StatusReasonNotFound
| StatusReasonForbidden
| StatusReasonConflict
| StatusReasonInternalError.

(** Go [error] values: [errors.New] and [fmt.Errorf] without [%w] give an
    [errorString]; [fmt.Errorf] with [%w] gives a [wrapError] holding the
    message and the wrapped error; the API machinery returns
    [StatusError]s. *)
Inductive error : Type :=
| errorString (msg : string)
| wrapError (msg : string) (err : error)
| StatusError (reason : StatusReason) (message : string).

(** [err.Error()]. *)
Definition Error (e : error) : string :=
  match e with
  | errorString msg => msg
  | wrapError msg _ => msg
  | StatusError _ message => message
  end.

(** [errors.IsNotFound]: the reason of the first API status in the chain. *)
Fixpoint IsNotFound (e : error) : bool :=
  match e with
  | errorString _ => false
  | wrapError _ err => IsNotFound err
  | StatusError StatusReasonNotFound _ => true
  | StatusError _ _ => false
  end.

(** Operands of a format: a string ([%s]), an int ([%d]), an error printed
    with [%v], an error wrapped with [%w]. *)
Inductive Arg : Type :=
| ArgS (s : string)
| ArgD (n : Z)
| ArgV (e : error)
| ArgW (e : error).

Module fmt.

Definition showArg (a : Arg) : string :=
  match a with
  | ArgS s => s
  | ArgD n => pretty n
  | ArgV e => Error e
  | ArgW e => Error e
  end.

(** [fmt.Sprintf] for the verbs the sources use ([%s], [%d], [%v], [%w]). *)
Fixpoint Sprintf (format : string) (args : list Arg) : string :=
  match format with
  | "" => ""
  | String "%" (String _ rest) =>
      match args with
      | a :: args' => showArg a +:+ Sprintf rest args'
      | [] => "%!v(MISSING)" +:+ Sprintf rest []
      end
  | String c rest => String c (Sprintf rest args)
  end.

Fixpoint wrapped (args : list Arg) : option error :=
  match args with
  | [] => None
  | ArgW e :: _ => Some e
  | _ :: args' => wrapped args'
  end.

(** [fmt.Errorf]. *)
Definition Errorf (format : string) (args : list Arg) : error :=
  match wrapped args with
  | Some e => wrapError (Sprintf format args) e
  | None => errorString (Sprintf format args)
  end.

End fmt.

(** A Go return of a pointer (or slice) together with an error: either
    [(v, nil)] or [(nil, err)]. *)
Inductive result (A : Type) : Type :=
| Ok (v : A)
| Err (err : error).
Arguments Ok {A} v.
Arguments Err {A} err.


(** ** pkg/overrides *)

Module overrides.

(** The opt-in annotation on the HCO CR that activates the autopilot. *)
Definition AnnotationAutopilotEnabled : string := "platform.kubevirt.io/autopilot".
(** The annotation key for the management mode. *)
Definition AnnotationMode : string := "platform.kubevirt.io/mode".
Definition ModeUnmanaged : string := "unmanaged".
(** Set when an edit war is detected. *)
Definition AnnotationReconcilePaused : string := "platform.kubevirt.io/reconcile-paused".

(** Modelled from the spec: the key of the [patch] annotation; the constant is
    declared in a file of pkg/overrides that is not among the sources, and
    the project's documents give the key. *)
Definition PatchAnnotation : string := "platform.kubevirt.io/patch".
(** Modelled from the spec: the key of the [ignore-fields] annotation, declared
    next to [PatchAnnotation]. *)
Definition AnnotationIgnoreFields : string := "platform.kubevirt.io/ignore-fields".

(** Resource kinds where JSON patches are blocked for security. *)
Definition sensitiveKinds : gmap string bool :=
  list_to_map
    [ ("MachineConfig", true);
      ("KubeletConfig", true);
      ("ClusterRole", true);
      ("ClusterRoleBinding", true);
      ("Role", true);
      ("RoleBinding", true);
      ("ServiceAccount", true);
      ("PodSecurityPolicy", true);
      ("SecurityContextConstraints", true);
      ("ValidatingWebhookConfiguration", true);
      ("MutatingWebhookConfiguration", true) ].

(** [ValidatePatchSecurity]; the argument is a pointer, [None] is nil.  The
    result is the returned [error], [None] for nil. *)
Definition ValidatePatchSecurity (obj : option Unstructured) : option error :=
  match obj with
  | None => Some (fmt.Errorf "object is nil" [])
  | Some obj =>
      let kind := unstructured.GetKind obj in
      if default false (sensitiveKinds !! kind) then
        let annotations := unstructured.GetAnnotations obj in
        match annotations with
        | Some _ =>
            let '(_, hasPatch) := index_ok annotations PatchAnnotation in
            if hasPatch
            then Some (fmt.Errorf
                         "JSON patches are not allowed on sensitive resource kind: %s"
                         [ArgS kind])
            else None
        | None => None
        end
      else None
  end.

(** [IsUnmanaged]. *)
Definition IsUnmanaged (obj : option Unstructured) : bool :=
  match obj with
  | None => false
  | Some obj =>
      let annotations := unstructured.GetAnnotations obj in
      match annotations with
      | None => false
      | Some _ =>
          let '(mode, exists_) := index_ok annotations AnnotationMode in
          exists_ && String.eqb mode ModeUnmanaged
      end
  end.

(** [IsPaused]. *)
Definition IsPaused (obj : option Unstructured) : bool :=
  match obj with
  | None => false
  | Some obj =>
      let annotations := unstructured.GetAnnotations obj in
      match annotations with
      | None => false
      | Some _ =>
          let '(val, exists_) := index_ok annotations AnnotationReconcilePaused in
          exists_ && String.eqb val "true"
      end
  end.

(** [IsAutopilotEnabled]: the autopilot is inactive unless the annotation is
    explicitly ["true"]. *)
Definition IsAutopilotEnabled (hco : option Unstructured) : bool :=
  match hco with
  | None => false
  | Some hco =>
      let annotations := unstructured.GetAnnotations hco in
      match annotations with
      | None => false
      | Some _ => String.eqb (index annotations AnnotationAutopilotEnabled) "true"
      end
  end.

End overrides.

(** ** pkg/assets: catalog types *)

(** [AssetCondition]; [ConditionType] is a Go string type. *)
Record AssetCondition : Type := mkAssetCondition {
  CondType : string;
  Key : string;
  Value : string;
  Detector : string
}.

(** Modelled from the spec: the [ConditionType] of annotation conditions; the
    constants are declared in pkg/assets/types.go, which is not among the
    sources, and have the [type:] strings of the catalog schema. *)
Definition ConditionTypeAnnotation : string := "annotation".
(** Modelled from the spec: the [ConditionType] of feature gate conditions. *)
Definition ConditionTypeFeatureGate : string := "feature-gate".
(** Modelled from the spec: the [ConditionType] of hardware detection
    conditions. *)
Definition ConditionTypeHardwareDetection : string := "hardware-detection".

(** [AssetMetadata], the fields the sources read. *)
Record AssetMetadata : Type := mkAssetMetadata {
  AssetName : string;
  AssetPath : string;
  Component : string;
  Conditions : list AssetCondition
}.

(** [pkgcontext.RenderContext], the field the sources read. *)
Record RenderContext : Type := mkRenderContext { HCO : Unstructured }.

(** ** pkg/render/output.go *)

Module render.

(** The [for _, condition := range assetMeta.Conditions] loop of
    [CheckConditions]: each arm of the [switch] either returns [false] or
    falls out of the switch to the next iteration; a type that matches no
    case does nothing. *)
Fixpoint checkLoop (renderCtx : RenderContext) (conditions : list AssetCondition)
  : bool :=
  match conditions with
  | [] => true
  | condition :: rest =>
      if String.eqb (CondType condition) ConditionTypeAnnotation then
        if negb (String.eqb
                   (index (unstructured.GetAnnotations (HCO renderCtx)) (Key condition))
                   (Value condition))
        then false
        else checkLoop renderCtx rest
      else if String.eqb (CondType condition) ConditionTypeFeatureGate then
        let featureGates :=
          index (unstructured.GetAnnotations (HCO renderCtx))
                "platform.kubevirt.io/feature-gates" in
        if negb (strings.Contains featureGates (Value condition))
        then false
        else checkLoop renderCtx rest
      else if String.eqb (CondType condition) ConditionTypeHardwareDetection then
        false
      else checkLoop renderCtx rest
  end.

(** [CheckConditions]: all conditions are evaluated with AND logic; an asset
    with no conditions is always considered satisfied. *)
Definition CheckConditions (assetMeta : AssetMetadata) (renderCtx : RenderContext)
  : bool :=
  if Z.of_nat (length (Conditions assetMeta)) =? 0 then true
  else checkLoop renderCtx (Conditions assetMeta).

End render.

(** ** pkg/assets: loader *)

(** [sigs.k8s.io/yaml]: the decoder is an external library; the sources only
    rely on [Unmarshal] returning either an error or the decoded object. *)
Class YAML : Type := { Unmarshal : string → result Unstructured }.

(** [schema.GroupVersionKind]. *)
Record GroupVersionKind : Type := mkGVK {
  Group : string;
  Version : string;
  Kind : string
}.

(** [obj.GroupVersionKind()]: the apiVersion is ["version"] or
    ["group/version"]; anything else gives the empty group and version. *)
Definition GroupVersionKindOf (obj : Unstructured) : GroupVersionKind :=
  let apiVersion := unstructured.GetAPIVersion obj in
  let kind := unstructured.GetKind obj in
  if String.eqb apiVersion "" then mkGVK "" "" kind
  else
    match strings.Split apiVersion "/" with
    | [v] => mkGVK "" v kind
    | [g; v] => mkGVK g v kind
    | _ => mkGVK "" "" kind
    end.

(** What [fs.WalkDir] passes to its callback at one step of the walk: an
    error for the entry, a directory, or a file. *)
Inductive WalkEntry : Type :=
| WalkErr (path : string) (err : error)
| WalkDirectory (path : string)
| WalkFile (path : string).

(** [embed.FS] as the loader uses it: the sequence of entries a walk from a
    root visits (root first, lexical order), and [ReadFile]. *)
Record FS : Type := mkFS {
  Walk : string → list WalkEntry;
  ReadFile : string → result string
}.

(** [Loader]. *)
Record Loader : Type := mkLoader { fs : FS }.

Module assets.

(** The maximum size of YAML content, 10MB. *)
Definition MaxYAMLSize : Z := 10 * 1024 * 1024.
(** The maximum nesting depth for YAML structures. *)
Definition MaxYAMLDepth : Z := 100.

(** The required label for tombstone deletion safety. *)
Definition TombstoneLabel : string := "platform.kubevirt.io/managed-by".
(** The expected value for the tombstone label. *)
Definition TombstoneLabelValue : string := "virt-platform-autopilot".
(** The directory containing tombstone files. *)
Definition TombstonesDir : string := "tombstones".

(** [TombstoneMetadata]: a tombstoned resource to be deleted. *)
Record TombstoneMetadata : Type := mkTombstone {
  Path : string;
  GVK : GroupVersionKind;
  Namespace : string;
  Name : string;
  TsObject : Unstructured
}.

(** [LoadAsset]. *)
Definition LoadAsset (l : Loader) (path : string) : result string :=
  match ReadFile (fs l) path with
  | Err err => Err (fmt.Errorf "failed to read asset %s: %w" [ArgS path; ArgW err])
  | Ok data => Ok data
  end.

(** [IsTemplate]. *)
Definition IsTemplate (path : string) : bool :=
  strings.HasSuffix path ".tpl" || strings.HasSuffix path ".tmpl".

(** The running maximum of the two [for ... range] loops of
    [calculateDepth]. *)
Definition maxStep (maxDepth depth : Z) : Z :=
  if depth >? maxDepth then depth else maxDepth.

(** [calculateDepth]: the maximum nesting depth of a decoded structure. *)
Fixpoint calculateDepth (obj : Any) : Z :=
  match obj with
  | VMap v =>
      1 + fold_left (λ maxDepth entry, maxStep maxDepth (calculateDepth (snd entry))) v 0
  | VSlice v =>
      1 + fold_left (λ maxDepth item, maxStep maxDepth (calculateDepth item)) v 0
  | _ => 1
  end.

Section WithYAML.
Context `{YAML}.

(** [ParseYAML]: validates size and depth. *)
Definition ParseYAML (data : string) : result Unstructured :=
  if Z.of_nat (String.length data) >? MaxYAMLSize then
    Err (fmt.Errorf "YAML content exceeds maximum size of %d bytes (got %d bytes)"
                    [ArgD MaxYAMLSize; ArgD (Z.of_nat (String.length data))])
  else
    match Unmarshal data with
    | Err err => Err (fmt.Errorf "failed to parse YAML: %w" [ArgW err])
    | Ok obj =>
        let depth := calculateDepth (VMap (Object obj)) in
        if depth >? MaxYAMLDepth then
          Err (fmt.Errorf "YAML structure exceeds maximum nesting depth of %d (got %d)"
                          [ArgD MaxYAMLDepth; ArgD depth])
        else Ok obj
    end.

(** The [for i, doc := range docs] loop of [ParseMultiYAML]. *)
Fixpoint parseDocs (docs : list string) (i : Z) (objects : list Unstructured)
  : result (list Unstructured) :=
  match docs with
  | [] => Ok objects
  | doc :: rest =>
      let doc := strings.TrimSpace doc in
      if String.eqb doc "" then parseDocs rest (i + 1) objects
      else
        match ParseYAML doc with
        | Err err =>
            Err (fmt.Errorf "failed to parse document %d: %w" [ArgD i; ArgW err])
        | Ok obj => parseDocs rest (i + 1) (objects ++ [obj])
        end
  end.

(** [ParseMultiYAML]: content that may contain multiple documents. *)
Definition ParseMultiYAML (data : string) : result (list Unstructured) :=
  if Z.of_nat (String.length data) >? MaxYAMLSize then
    Err (fmt.Errorf "YAML content exceeds maximum size of %d bytes (got %d bytes)"
                    [ArgD MaxYAMLSize; ArgD (Z.of_nat (String.length data))])
  else
    let docs := strings.Split data (String "010" "---" +:+ String "010" "") in
    parseDocs docs 0 [].

(** [validateTombstone]: a tombstone object has all required fields. *)
Definition validateTombstone (obj : Unstructured) (path : string) : option error :=
  if String.eqb (unstructured.GetKind obj) "" then
    Some (fmt.Errorf "tombstone %s missing required field: kind" [ArgS path])
  else if String.eqb (unstructured.GetAPIVersion obj) "" then
    Some (fmt.Errorf "tombstone %s missing required field: apiVersion" [ArgS path])
  else if String.eqb (unstructured.GetName obj) "" then
    Some (fmt.Errorf "tombstone %s missing required field: metadata.name" [ArgS path])
  else
    let labels := unstructured.GetLabels obj in
    match labels with
    | None =>
        Some (fmt.Errorf "tombstone %s missing required label %s=%s (safety check)"
                         [ArgS path; ArgS TombstoneLabel; ArgS TombstoneLabelValue])
    | Some _ =>
        if negb (String.eqb (index labels TombstoneLabel) TombstoneLabelValue) then
          Some (fmt.Errorf
                  "tombstone %s has incorrect label value for %s: expected %s, got %s (safety check)"
                  [ArgS path; ArgS TombstoneLabel; ArgS TombstoneLabelValue;
                   ArgS (index labels TombstoneLabel)])
        else None
    end.

(** The [for _, obj := range objects] loop of the walk callback: validate,
    then append the metadata. *)
Fixpoint processObjects (path : string) (objects : list Unstructured)
    (tombstones : list TombstoneMetadata) : list TombstoneMetadata * option error :=
  match objects with
  | [] => (tombstones, None)
  | obj :: rest =>
      match validateTombstone obj path with
      | Some err => (tombstones, Some err)
      | None =>
          let gvk := GroupVersionKindOf obj in
          let namespace := unstructured.GetNamespace obj in
          let name := unstructured.GetName obj in
          processObjects path rest
            (tombstones ++ [mkTombstone path gvk namespace name obj])
      end
  end.

(** The callback [LoadTombstones] hands to [fs.WalkDir]; [tombstones] is the
    slice the closure appends to. *)
Definition walkFn (l : Loader) (tombstones : list TombstoneMetadata)
    (entry : WalkEntry) : list TombstoneMetadata * option error :=
  match entry with
  | WalkErr path err =>
      if strings.Contains (Error err) "no such file or directory"
         || strings.Contains (Error err) "file does not exist"
      then (tombstones, None)
      else (tombstones, Some err)
  | WalkDirectory path => (tombstones, None)
  | WalkFile path =>
      if negb (strings.HasSuffix path ".yaml") && negb (strings.HasSuffix path ".yaml.tpl")
      then (tombstones, None)
      else
        match ReadFile (fs l) path with
        | Err err =>
            (tombstones,
             Some (fmt.Errorf "failed to read tombstone file %s: %w" [ArgS path; ArgW err]))
        | Ok data =>
            match ParseMultiYAML data with
            | Err err =>
                (tombstones,
                 Some (fmt.Errorf "failed to parse tombstone file %s: %w"
                                  [ArgS path; ArgW err]))
            | Ok objects => processObjects path objects tombstones
            end
        end
  end.

(** [fs.WalkDir] with a callback that never asks to skip: the callback runs
    on each visited entry in turn, and the first error it returns ends the
    walk and is returned. *)
Fixpoint WalkDir {A : Type} (entries : list WalkEntry)
    (fn : A → WalkEntry → A * option error) (acc : A) : A * option error :=
  match entries with
  | [] => (acc, None)
  | entry :: rest =>
      match fn acc entry with
      | (acc', Some err) => (acc', Some err)
      | (acc', None) => WalkDir rest fn acc'
      end
  end.

(** [LoadTombstones]: scans the tombstones directory and loads all tombstone
    definitions. *)
Definition LoadTombstones (l : Loader) : result (list TombstoneMetadata) :=
  match WalkDir (Walk (fs l) TombstonesDir) (walkFn l) [] with
  | (_, Some err) => Err (fmt.Errorf "failed to load tombstones: %w" [ArgW err])
  | (tombstones, None) => Ok tombstones
  end.

End WithYAML.

End assets.

(** ** pkg/engine/tombstone.go *)

(** [client.ObjectKey]. *)
Record ObjectKey : Type := mkObjectKey {
  KeyNamespace : string;
  KeyName : string
}.

(** [client.Client], the two methods the reconciler calls, over the state
    [S] of the API server.  [Get] reads the object of a kind at a key;
    [Delete] answers with the new state and the returned error. *)
Class Client (S : Type) : Type := {
  Get : S → GroupVersionKind → ObjectKey → result Unstructured;
  Delete : S → Unstructured → S * option error
}.

(** Modelled from the spec: the tombstone status values of
    pkg/observability, which is not among the sources. *)
Inductive TombstoneStatus : Type :=
| TombstoneExists
| TombstoneDeleted
| TombstoneError
| TombstoneSkipped.

(** Modelled from the spec: the tombstone events of [util.EventRecorder]
    (pkg/util is not among the sources), each with the arguments the
    reconciler passes after the HCO. *)
Inductive Event : Type :=
| EventTombstoneDeleted (kind namespace name path : string)
| EventTombstoneSkipped (kind namespace name reason : string)
| EventTombstoneFailed (kind namespace name reason : string).

(** A call the reconciler made on the client. *)
Inductive Call : Type :=
| CallGet (gvk : GroupVersionKind) (key : ObjectKey)
| CallDelete (obj : Unstructured).

(** Everything a reconciliation acts on: the API server, the client calls
    made so far, the tombstone status metric writes and the recorded
    events (each oldest first). *)
Record World (S : Type) : Type := mkWorld {
  server : S;
  calls : list Call;
  metrics : list (Unstructured * TombstoneStatus);
  events : list (Unstructured * Event)
}.
Arguments mkWorld {S}.
Arguments server {S}.
Arguments calls {S}.
Arguments metrics {S}.
Arguments events {S}.

(** [TombstoneReconciler]: the client is the [Client] instance;
    [eventRecorder] tells whether the recorder pointer is set. *)
Record TombstoneReconciler : Type := mkReconciler {
  loader : Loader;
  eventRecorder : bool
}.

Module engine.

Import assets.

Section WithClient.
Context {S : Type} `{Client S} `{YAML}.

(** Computations of the reconciler: a state monad over the world. *)
Definition M (A : Type) : Type := World S → A * World S.

Definition ret {A : Type} (a : A) : M A := λ w, (a, w).

Definition bind {A B : Type} (m : M A) (k : A → M B) : M B :=
  λ w, let '(a, w') := m w in k a w'.

Notation "'let*' x ':=' m 'in' k" := (bind m (λ x, k))
  (at level 10, x pattern, k at level 200).

(** [r.client.Get(ctx, objKey, live)], recorded. *)
Definition clientGet (gvk : GroupVersionKind) (key : ObjectKey)
  : M (result Unstructured) :=
  λ w, (Get (server w) gvk key,
        mkWorld (server w) (calls w ++ [CallGet gvk key]) (metrics w) (events w)).

(** [r.client.Delete(ctx, live)], recorded. *)
Definition clientDelete (live : Unstructured) : M (option error) :=
  λ w, let '(s', err) := Delete (server w) live in
       (err, mkWorld s' (calls w ++ [CallDelete live]) (metrics w) (events w)).

(** Modelled from the spec: [observability.SetTombstoneStatus] writes the
    status metric of the tombstone. *)
Definition SetTombstoneStatus (obj : Unstructured) (status : TombstoneStatus)
  : M unit :=
  λ w, (tt, mkWorld (server w) (calls w) (metrics w ++ [(obj, status)]) (events w)).

(** An event method called under [if r.eventRecorder != nil]. *)
Definition record (r : TombstoneReconciler) (hco : Unstructured) (e : Event)
  : M unit :=
  λ w, if eventRecorder r
       then (tt, mkWorld (server w) (calls w) (metrics w) (events w ++ [(hco, e)]))
       else (tt, w).

(** [reconcileTombstone]: processes a single tombstone and attempts
    deletion.  Returns true if the resource was deleted, false if skipped
    (NotFound or label mismatch).  The logger calls have no part in the
    result and are left out. *)
Definition reconcileTombstone (r : TombstoneReconciler) (ts : TombstoneMetadata)
    (hco : Unstructured) : M (bool * option error) :=
  let objKey := mkObjectKey (Namespace ts) (Name ts) in
  let* got := clientGet (GVK ts) objKey in
  match got with
  | Err err =>
      if IsNotFound err then
        let* _ := SetTombstoneStatus (TsObject ts) TombstoneDeleted in
        ret (false, None)
      else
        let* _ := SetTombstoneStatus (TsObject ts) TombstoneError in
        let* _ := record r hco
                    (EventTombstoneFailed (Kind (GVK ts)) (Namespace ts) (Name ts)
                       (fmt.Sprintf "Failed to get resource: %v" [ArgV err])) in
        ret (false, Some (fmt.Errorf "failed to get resource: %w" [ArgW err]))
  | Ok live =>
      let labels := unstructured.GetLabels live in
      if match labels with None => true | Some _ => false end
         || negb (String.eqb (index labels TombstoneLabel) TombstoneLabelValue)
      then
        let* _ := SetTombstoneStatus (TsObject ts) TombstoneSkipped in
        let* _ := record r hco
                    (EventTombstoneSkipped (Kind (GVK ts)) (Namespace ts) (Name ts)
                       "Label mismatch - resource not managed by virt-platform-autopilot") in
        ret (false, None)
      else
        let* err := clientDelete live in
        match err with
        | Some err =>
            let* _ := SetTombstoneStatus (TsObject ts) TombstoneError in
            let* _ := record r hco
                        (EventTombstoneFailed (Kind (GVK ts)) (Namespace ts) (Name ts)
                           (fmt.Sprintf "Failed to delete: %v" [ArgV err])) in
            ret (false, Some (fmt.Errorf "failed to delete resource: %w" [ArgW err]))
        | None =>
            let* _ := SetTombstoneStatus (TsObject ts) TombstoneDeleted in
            let* _ := record r hco
                        (EventTombstoneDeleted (Kind (GVK ts)) (Namespace ts) (Name ts)
                           (Path ts)) in
            ret (true, None)
        end
  end.

(** The [for _, ts := range tombstones] loop of [ReconcileTombstones], on
    the two variables it updates. *)
Fixpoint processTombstones (r : TombstoneReconciler) (hco : Unstructured)
    (tombstones : list TombstoneMetadata)
    (deletedCount : Z) (aggregatedErrors : list error) : M (Z * list error) :=
  match tombstones with
  | [] => ret (deletedCount, aggregatedErrors)
  | ts :: rest =>
      let* (deleted, err) := reconcileTombstone r ts hco in
      match err with
      | Some err =>
          processTombstones r hco rest deletedCount (aggregatedErrors ++ [err])
      | None =>
          if deleted
          then processTombstones r hco rest (deletedCount + 1) aggregatedErrors
          else processTombstones r hco rest deletedCount aggregatedErrors
      end
  end.

(** [ReconcileTombstones]: processes all tombstones and deletes matching
    resources; returns the number of successfully deleted resources and any
    errors encountered. *)
Definition ReconcileTombstones (r : TombstoneReconciler) (hco : Unstructured)
  : M (Z * option error) :=
  match LoadTombstones (loader r) with
  | Err err => ret (0, Some (fmt.Errorf "failed to load tombstones: %w" [ArgW err]))
  | Ok tombstones =>
      if Z.of_nat (length tombstones) =? 0 then ret (0, None)
      else
        let* (deletedCount, aggregatedErrors) :=
          processTombstones r hco tombstones 0 [] in
        if Z.of_nat (length aggregatedErrors) >? 0 then
          ret (deletedCount,
               Some (fmt.Errorf
                       "tombstone processing completed with %d errors (see logs for details)"
                       [ArgD (Z.of_nat (length aggregatedErrors))]))
        else ret (deletedCount, None)
  end.

End WithClient.

End engine.

(** ** Notions the properties are stated with *)

(** ASCII case folding, to say that two keys differ only in letter case. *)
Definition toLower (c : ascii) : ascii :=
  let n := N_of_ascii c in
  if ((65 <=? n) && (n <=? 90))%N then ascii_of_N (n + 32) else c.

Fixpoint foldCase (s : string) : string :=
  match s with
  | "" => ""
  | String c s' => String (toLower c) (foldCase s')
  end.

(** Two strings that differ at most in the case of their ASCII letters. *)
Definition EqualFold (s t : string) : Prop := foldCase s = foldCase t.

(** One condition taken alone is satisfied when [CheckConditions] accepts
    the asset that carries only that condition. *)
Definition conditionSatisfied (renderCtx : RenderContext) (c : AssetCondition) : bool :=
  render.CheckConditions (mkAssetMetadata "" "" "" [c]) renderCtx.

(** Modelled from the spec: the annotation case of
    [DefaultConditionEvaluator.EvaluateCondition] (pkg/assets/registry.go, not
    among the sources; its table test is): true when the HCO annotation
    equals the value, or is present if the value is empty; a condition
    without a key is an error. *)
Definition EvaluateAnnotationCondition (annotations : gmap string string)
    (c : AssetCondition) : result bool :=
  if String.eqb (Key c) "" then Err (errorString "annotation condition requires a key")
  else
    match annotations !! Key c with
    | None => Ok false
    | Some actual =>
        if String.eqb (Value c) "" then Ok true
        else Ok (String.eqb actual (Value c))
    end.

(** A tombstone declaration is well formed when it has a kind, an
    apiVersion, a name and the ownership label with the expected value. *)
Definition wellFormedTombstone (obj : Unstructured) : Prop :=
  unstructured.GetKind obj ≠ "" ∧
  unstructured.GetAPIVersion obj ≠ "" ∧
  unstructured.GetName obj ≠ "" ∧
  ∃ labels, unstructured.GetLabels obj = Some labels ∧
            labels !! assets.TombstoneLabel = Some assets.TombstoneLabelValue.

(** The live object carries the ownership label with the expected value. *)
Definition ownedByAutopilot (live : Unstructured) : Prop :=
  ∃ labels, unstructured.GetLabels live = Some labels ∧
            labels !! assets.TombstoneLabel = Some assets.TombstoneLabelValue.

(** Best effort, as a reference for [ReconcileTombstones]: every tombstone is
    reconciled in turn, whatever happened to the ones before, and the
    outcomes are kept. *)
Fixpoint reconcileEach {S : Type} `{Client S}
    (r : TombstoneReconciler) (hco : Unstructured)
    (tombstones : list assets.TombstoneMetadata)
  : engine.M (list (bool * option error)) :=
  match tombstones with
  | [] => engine.ret []
  | ts :: rest =>
      engine.bind (engine.reconcileTombstone r ts hco) (λ outcome,
      engine.bind (reconcileEach r hco rest) (λ outcomes,
      engine.ret (outcome :: outcomes)))
  end.

(** An outcome [(true, nil)]: the tombstone was deleted. *)
Definition isDeleted (o : bool * option error) : bool :=
  match o with
  | (true, None) => true
  | _ => false
  end.

(** An outcome with an error: processing the tombstone failed. *)
Definition isFailed (o : bool * option error) : bool :=
  match snd o with
  | Some _ => true
  | None => false
  end.

Definition countDeleted (outcomes : list (bool * option error)) : Z :=
  Z.of_nat (length (List.filter isDeleted outcomes)).

Definition countFailed (outcomes : list (bool * option error)) : Z :=
  Z.of_nat (length (List.filter isFailed outcomes)).

(** The one aggregated error for [n] failures, nil for none. *)
Definition aggregated (n : Z) : option error :=
  if n >? 0
  then Some (fmt.Errorf
               "tombstone processing completed with %d errors (see logs for details)"
               [ArgD n])
  else None.

(** Every key of a parsed map is mapped to [true]. *)
Definition allTrue (m : gmap string bool) : Prop :=
  ∀ k b, m !! k = Some b → b = true.

(** An object within the depth bound that was decoded from a document within
    the size bound. *)
Definition withinBounds `{YAML} (obj : Unstructured) : Prop :=
  assets.calculateDepth (VMap (Object obj)) ≤ assets.MaxYAMLDepth ∧
  ∃ doc, Z.of_nat (String.length doc) ≤ assets.MaxYAMLSize ∧ Unmarshal doc = Ok obj.

(** The [Delete] calls among the calls made on the client. *)
Definition isDeleteCall (c : Call) : bool :=
  match c with
  | CallDelete _ => true
  | CallGet _ _ => false
  end.

Definition deleteCalls (made : list Call) : list Call := List.filter isDeleteCall made.

(** The metadata [LoadTombstones] extracts from an accepted declaration. *)
Definition metadataOf (path : string) (obj : Unstructured) : assets.TombstoneMetadata :=
  assets.mkTombstone path (GroupVersionKindOf obj) (unstructured.GetNamespace obj)
    (unstructured.GetName obj) obj.

(** The files the walk callback reads: [.yaml] and [.yaml.tpl]. *)
Definition isTombstoneFile (path : string) : Prop :=
  strings.HasSuffix path ".yaml" = true ∨ strings.HasSuffix path ".yaml.tpl" = true.

(** The key [reconcileTombstone] fetches the live object of a tombstone at. *)
Definition keyOf (ts : assets.TombstoneMetadata) : ObjectKey :=
  mkObjectKey (assets.Namespace ts) (assets.Name ts).

(** The world after a tombstone was skipped for a label mismatch. *)
Definition afterSkip {St : Type} (r : TombstoneReconciler) (ts : assets.TombstoneMetadata)
    (hco : Unstructured) (w : World St) : World St :=
  mkWorld (server w)
    (calls w ++ [CallGet (assets.GVK ts) (keyOf ts)])
    (metrics w ++ [(assets.TsObject ts, TombstoneSkipped)])
    (events w ++
     if eventRecorder r
     then [(hco, EventTombstoneSkipped (Kind (assets.GVK ts)) (assets.Namespace ts)
                   (assets.Name ts)
                   "Label mismatch - resource not managed by virt-platform-autopilot")]
     else []).

(** The world after a tombstone whose live object was already gone. *)
Definition afterNotFound {St : Type} (ts : assets.TombstoneMetadata) (w : World St)
  : World St :=
  mkWorld (server w)
    (calls w ++ [CallGet (assets.GVK ts) (keyOf ts)])
    (metrics w ++ [(assets.TsObject ts, TombstoneDeleted)])
    (events w).

(** The errors among the outcomes, in order. *)
Fixpoint errorsOf (outcomes : list (bool * option error)) : list error :=
  match outcomes with
  | [] => []
  | (_, Some err) :: rest => err :: errorsOf rest
  | (_, None) :: rest => errorsOf rest
  end.

(** The eleven kinds on which a JSON patch is refused. *)
Definition elevenSensitiveKinds : list string :=
  [ "MachineConfig"; "KubeletConfig"; "ClusterRole"; "ClusterRoleBinding"; "Role";
    "RoleBinding"; "ServiceAccount"; "PodSecurityPolicy"; "SecurityContextConstraints";
    "ValidatingWebhookConfiguration"; "MutatingWebhookConfiguration" ].

(** The object carries the annotation [key], with whatever value. *)
Definition hasAnnotation (obj : Unstructured) (key : string) : Prop :=
  ∃ annotations, unstructured.GetAnnotations obj = Some annotations ∧
                 is_Some (annotations !! key).

(** ** Fixtures: the objects and the fake client of the unit tests *)

Module fixtures.

Definition stringEntries (m : list (string * string)) : list (string * Any) :=
  map (λ kv, (fst kv, VString (snd kv))) m.

Definition optionalField (k : string) (v : string) : list (string * Any) :=
  if String.eqb v "" then [] else [(k, VString v)].

Definition optionalMap (k : string) (m : option (list (string * string)))
  : list (string * Any) :=
  match m with
  | None => []
  | Some m' => [(k, VMap (stringEntries m'))]
  end.

(** The object obtained from an empty [Unstructured] by [SetAPIVersion],
    [SetKind], [SetNamespace], [SetName], [SetLabels] and [SetAnnotations];
    an empty string or [None] leaves the field unset. *)
Definition newObject (apiVersion kind namespace name : string)
    (labels annotations : option (list (string * string))) : Unstructured :=
  mkUnstructured
    (optionalField "apiVersion" apiVersion ++
     optionalField "kind" kind ++
     [("metadata",
       VMap (optionalField "name" name ++
             optionalField "namespace" namespace ++
             optionalMap "labels" labels ++
             optionalMap "annotations" annotations))]).

(** A map nested [n] levels below its top level. *)
Fixpoint nested (n : nat) : list (string * Any) :=
  match n with
  | O => []
  | S n' => [("a", VMap (nested n'))]
  end.

(** A document of [n] spaces. *)
Fixpoint padding (n : nat) : string :=
  match n with
  | O => ""
  | S n' => String " " (padding n')
  end.

(** A decoder given by a table from documents to objects; every other
    document is a syntax error. *)
Fixpoint lookupDoc (table : list (string * Unstructured)) (data : string)
  : result Unstructured :=
  match table with
  | [] => Err (errorString "yaml: unmarshal error")
  | (doc, obj) :: table' =>
      if String.eqb doc data then Ok obj else lookupDoc table' data
  end.

Definition tableYAML (table : list (string * Unstructured)) : YAML :=
  {| Unmarshal := lookupDoc table |}.

(** An in-memory API server: the stored objects and the names of the objects
    whose deletion it refuses. *)
Record FakeServer : Type := mkFakeServer {
  stored : list Unstructured;
  denied : list string
}.

Definition sameGVK (a b : GroupVersionKind) : bool :=
  String.eqb (Group a) (Group b) && String.eqb (Version a) (Version b)
  && String.eqb (Kind a) (Kind b).

Definition isObject (gvk : GroupVersionKind) (key : ObjectKey) (obj : Unstructured)
  : bool :=
  sameGVK (GroupVersionKindOf obj) gvk
  && String.eqb (unstructured.GetNamespace obj) (KeyNamespace key)
  && String.eqb (unstructured.GetName obj) (KeyName key).

Definition fakeGet (s : FakeServer) (gvk : GroupVersionKind) (key : ObjectKey)
  : result Unstructured :=
  match List.find (isObject gvk key) (stored s) with
  | Some obj => Ok obj
  | None => Err (StatusError StatusReasonNotFound "not found")
  end.

Definition fakeDelete (s : FakeServer) (live : Unstructured)
  : FakeServer * option error :=
  let gvk := GroupVersionKindOf live in
  let key := mkObjectKey (unstructured.GetNamespace live) (unstructured.GetName live) in
  if existsb (String.eqb (unstructured.GetName live)) (denied s) then
    (s, Some (StatusError StatusReasonForbidden "forbidden"))
  else
    match List.find (isObject gvk key) (stored s) with
    | None => (s, Some (StatusError StatusReasonNotFound "not found"))
    | Some _ =>
        (mkFakeServer (List.filter (λ o, negb (isObject gvk key o)) (stored s)) (denied s),
         None)
    end.

#[global] Instance fakeClient : Client FakeServer :=
  {| Get := fakeGet; Delete := fakeDelete |}.

Definition emptyWorld (s : FakeServer) : World FakeServer := mkWorld s [] [] [].

Definition ownerLabel : option (list (string * string)) :=
  Some [(assets.TombstoneLabel, assets.TombstoneLabelValue)].

(** The HCO of the tests. *)
Definition hco : Unstructured :=
  newObject "hco.kubevirt.io/v1beta1" "HyperConverged" "openshift-cnv"
            "kubevirt-hyperconverged" None None.

(** The tombstone of the tests: [ConfigMap default/test-config]. *)
Definition tombstone : assets.TombstoneMetadata :=
  assets.mkTombstone "test.yaml" (mkGVK "" "v1" "ConfigMap") "default" "test-config"
    (newObject "v1" "ConfigMap" "default" "test-config" ownerLabel None).

Definition reconciler (l : Loader) : TombstoneReconciler := mkReconciler l true.

Definition noFiles : Loader :=
  mkLoader (mkFS (λ _, []) (λ _, Err (errorString "file does not exist"))).

(** The live ConfigMap of the tests, without labels and with a foreign
    value of the ownership label. *)
Definition unlabeled : Unstructured :=
  newObject "v1" "ConfigMap" "default" "test-config" None None.

Definition foreign : Unstructured :=
  newObject "v1" "ConfigMap" "default" "test-config"
            (Some [(assets.TombstoneLabel, "wrong-value")]) None.

Definition owned (name : string) : Unstructured :=
  newObject "v1" "ConfigMap" "default" name ownerLabel None.

(** An embedded file system with the given tombstone files, each holding one
    document. *)
Definition filesFS (files : list (string * string)) : FS :=
  mkFS (λ root, WalkDirectory root :: map (λ f, WalkFile (fst f)) files)
       (λ path,
          match List.find (λ f, String.eqb (fst f) path) files with
          | Some f => Ok (snd f)
          | None => Err (errorString ("open " +:+ path +:+ ": file does not exist"))
          end).

(** Two tombstone files, for the ConfigMaps [first] and [second]. *)
Definition twoFiles : Loader :=
  mkLoader (filesFS [("tombstones/first.yaml", "first");
                     ("tombstones/second.yaml", "second")]).

Definition twoDocs : YAML :=
  tableYAML [("first", owned "first"); ("second", owned "second")].

End fixtures.


(** ** Further code of the same packages *)

(** The syntax checks of the patch and ignore-fields annotations
    ([ValidateJSONPatch], [ValidatePointers]) live in files of pkg/overrides
    that are not among the sources; [ValidateAnnotations] only relies on each
    returning an error or nil. *)
Class AnnotationSyntax : Type := {
  ValidateJSONPatch : string → option error;
  ValidatePointers : string → option error
}.

Module annotations.

Import overrides.

(** The patch step of [ValidateAnnotations]: syntax first, then the security
    restriction. *)
Definition validatePatch `{AnnotationSyntax} (obj : Unstructured)
    (annotations : option (gmap string string)) : option error :=
  let '(patchStr, exists_) := index_ok annotations PatchAnnotation in
  if exists_ then
    match ValidateJSONPatch patchStr with
    | Some err => Some (fmt.Errorf "invalid patch annotation: %w" [ArgW err])
    | None =>
        match ValidatePatchSecurity (Some obj) with
        | Some err => Some err
        | None => None
        end
    end
  else None.

(** The ignore-fields step. *)
Definition validateIgnoreFields `{AnnotationSyntax}
    (annotations : option (gmap string string)) : option error :=
  let '(ignoreFields, exists_) := index_ok annotations AnnotationIgnoreFields in
  if exists_ then
    match ValidatePointers ignoreFields with
    | Some err => Some (fmt.Errorf "invalid ignore-fields annotation: %w" [ArgW err])
    | None => None
    end
  else None.

(** The mode step. *)
Definition validateMode (annotations : option (gmap string string)) : option error :=
  let '(mode, exists_) := index_ok annotations AnnotationMode in
  if exists_ then
    if negb (String.eqb mode ModeUnmanaged) && negb (String.eqb mode "") then
      Some (fmt.Errorf "invalid mode annotation: %s (must be 'unmanaged' or empty)"
                       [ArgS mode])
    else None
  else None.

(** [ValidateAnnotations]: validates all override annotations on an object;
    the three steps run in this order and the first error is returned. *)
Definition ValidateAnnotations `{AnnotationSyntax} (obj : option Unstructured)
  : option error :=
  match obj with
  | None => Some (fmt.Errorf "object is nil" [])
  | Some obj =>
      let annotations := unstructured.GetAnnotations obj in
      match annotations with
      | None => None
      | Some _ =>
          match validatePatch obj annotations with
          | Some err => Some err
          | None =>
              match validateIgnoreFields annotations with
              | Some err => Some err
              | None => validateMode annotations
              end
          end
      end
  end.

End annotations.

(** [engine.Renderer]: the template renderer is not among the sources;
    [RenderAsset] returns an error, nothing (the template rendered empty) or
    the rendered object. *)
Class Renderer : Type := {
  RenderAsset : AssetMetadata → RenderContext → result (option Unstructured)
}.

(** The exclusion rules [BuildOutputs] and the debug handlers call: the
    version of [engine.ParseDisabledResources] that returns rules and an error,
    and the four-argument [engine.IsResourceExcluded], are not among the
    sources. *)
Class ExclusionRules : Type := {
  ExclusionRule : Type;
  ParseRules : string → result (list ExclusionRule);
  RuleExcluded : string → string → string → list ExclusionRule → bool
}.

Module pkgrender.

(** [RenderOutput]: the rendering result for a single asset. *)
Record RenderOutput : Type := mkRenderOutput {
  Asset : string;
  OutPath : string;
  OutComponent : string;
  Status : string;
  Reason : string;
  OutConditions : list AssetCondition;
  OutObject : option Unstructured
}.

Section WithRenderer.
Context `{Renderer} `{ExclusionRules}.

(** The root-exclusion rules [BuildOutputs] parses once before the loop; a
    missing annotation or a parse error leaves them nil (fail-open). *)
Definition parseExclusionRules (renderCtx : RenderContext) : list ExclusionRule :=
  let ann := index (unstructured.GetAnnotations (HCO renderCtx))
                   exclusion.DisabledResourcesAnnotation in
  if negb (String.eqb ann "") then
    match ParseRules ann with
    | Ok rules => rules
    | Err _ => []
    end
  else [].

(** One turn of the loop of [BuildOutputs]: the output for [assetMeta], if
    one is appended. *)
Definition buildOutput (exclusionRules : list ExclusionRule)
    (renderCtx : RenderContext) (showExcluded : bool) (assetMeta : AssetMetadata)
  : option RenderOutput :=
  let output := mkRenderOutput (AssetName assetMeta) (AssetPath assetMeta)
                  (Component assetMeta) "" "" (Conditions assetMeta) None in
  if negb (render.CheckConditions assetMeta renderCtx) then
    let output := mkRenderOutput (Asset output) (OutPath output) (OutComponent output)
                    "EXCLUDED" "Conditions not met" (OutConditions output) None in
    if showExcluded then Some output else None
  else
    match RenderAsset assetMeta renderCtx with
    | Err err =>
        Some (mkRenderOutput (Asset output) (OutPath output) (OutComponent output)
                "ERROR" (Error err) (OutConditions output) None)
    | Ok None =>
        let output := mkRenderOutput (Asset output) (OutPath output) (OutComponent output)
                        "EXCLUDED" "Conditional template rendered empty"
                        (OutConditions output) None in
        if showExcluded then Some output else None
    | Ok (Some rendered) =>
        if RuleExcluded (unstructured.GetKind rendered) (unstructured.GetNamespace rendered)
                        (unstructured.GetName rendered) exclusionRules
        then
          let output := mkRenderOutput (Asset output) (OutPath output)
                          (OutComponent output) "FILTERED"
                          "Root exclusion (disabled-resources annotation)"
                          (OutConditions output) None in
          if showExcluded then Some output else None
        else
          Some (mkRenderOutput (Asset output) (OutPath output) (OutComponent output)
                  "INCLUDED" "" (OutConditions output) (Some rendered))
    end.

(** The [for _, assetMeta := range assetList] loop, on the slice built so
    far. *)
Fixpoint buildLoop (exclusionRules : list ExclusionRule) (renderCtx : RenderContext)
    (showExcluded : bool) (assetList : list AssetMetadata)
    (outputs : list RenderOutput) : list RenderOutput :=
  match assetList with
  | [] => outputs
  | assetMeta :: rest =>
      match buildOutput exclusionRules renderCtx showExcluded assetMeta with
      | Some output =>
          buildLoop exclusionRules renderCtx showExcluded rest (outputs ++ [output])
      | None => buildLoop exclusionRules renderCtx showExcluded rest outputs
      end
  end.

(** [BuildOutputs]: renders each asset and returns one [RenderOutput] per
    asset; excluded or filtered assets are only included when [showExcluded]
    is true. *)
Definition BuildOutputs (assetList : list AssetMetadata) (renderCtx : RenderContext)
    (showExcluded : bool) : list RenderOutput :=
  let exclusionRules := parseExclusionRules renderCtx in
  buildLoop exclusionRules renderCtx showExcluded assetList [].

End WithRenderer.

End pkgrender.

(** ** cmd/render *)

Module cmdrender.

Import pkgrender.

(** [s[:n]] for [0 <= n <= len(s)]. *)
Definition slicePrefix (s : string) (n : Z) : string :=
  String.substring 0 (Z.to_nat n) s.

(** [truncate]: truncates a string to [maxLen] bytes.  [None] stands for the
    run-time panic of [s[:maxLen-3]] with a negative bound. *)
Definition truncate (s : string) (maxLen : Z) : option string :=
  if Z.of_nat (String.length s) <=? maxLen then Some s
  else if maxLen - 3 <? 0 then None
  else Some (slicePrefix s (maxLen - 3) +:+ "...").

(** The four counters of [writeStatusOutput]. *)
Record Summary : Type := mkSummary {
  included : Z;
  excluded : Z;
  filtered : Z;
  errors : Z
}.

(** The [switch output.Status] of the counting loop. *)
Definition countStatus (acc : Summary) (output : RenderOutput) : Summary :=
  if String.eqb (Status output) "INCLUDED" then
    mkSummary (included acc + 1) (excluded acc) (filtered acc) (errors acc)
  else if String.eqb (Status output) "EXCLUDED" then
    mkSummary (included acc) (excluded acc + 1) (filtered acc) (errors acc)
  else if String.eqb (Status output) "FILTERED" then
    mkSummary (included acc) (excluded acc) (filtered acc + 1) (errors acc)
  else if String.eqb (Status output) "ERROR" then
    mkSummary (included acc) (excluded acc) (filtered acc) (errors acc + 1)
  else acc.

(** The counting loop of [writeStatusOutput], whose result the summary line
    prints; the table rows it prints before are left out. *)
Definition summarize (outputs : list RenderOutput) : Summary :=
  fold_left countStatus outputs (mkSummary 0 0 0 0).

End cmdrender.

(** ** pkg/debug *)

(** What a handler needs of an [http.Request]. *)
Record Request : Type := mkRequest {
  Method : string;
  URLPath : string;
  Query : gmap string string
}.

(** [ExclusionInfo]: information about an excluded asset. *)
Record ExclusionInfo : Type := mkExclusionInfo {
  ExAsset : string;
  ExPath : string;
  ExComponent : string;
  ExReason : string;
  Details : option (gmap string string);
  Metadata : AssetMetadata
}.

(** What a handler answers: [http.Error] with a message and a status code,
    or one of the two writers of the server with the data to encode. *)
Inductive Response : Type :=
| HTTPError (message : string) (code : Z)
| RenderResponse (outputs : list pkgrender.RenderOutput) (format : string)
| DataResponse (data : list ExclusionInfo) (format : string).

(** [Server], as far as the render handlers use it: the asset registry
    ([GetAsset], [ListAssetsByReconcileOrder]; pkg/assets/registry.go is not
    among the sources) and the answer of [client.List] for the HCO kind. *)
Record Server : Type := mkServer {
  GetAsset : string → result AssetMetadata;
  ListAssetsByReconcileOrder : list AssetMetadata;
  ListHCO : result (list Unstructured)
}.

Module debug.

Import pkgrender.

(** [s[n:]]. *)
Fixpoint dropBytes (n : nat) (s : string) : string :=
  match n, s with
  | S n', String _ s' => dropBytes n' s'
  | _, _ => s
  end.

(** [strings.TrimPrefix]. *)
Definition TrimPrefix (s prefix : string) : string :=
  if strings.HasPrefix s prefix then dropBytes (String.length prefix) s else s.

(** [r.URL.Query().Get(key)]. *)
Definition QueryGet (r : Request) (key : string) : string :=
  default "" (Query r !! key).

(** [getRenderContext]: a render context from the first HCO of the
    cluster. *)
Definition getRenderContext (s : Server) : result RenderContext :=
  match ListHCO s with
  | Err err => Err (fmt.Errorf "failed to list HCO: %w" [ArgW err])
  | Ok items =>
      match items with
      | [] => Err (fmt.Errorf "no HyperConverged resources found" [])
      | hco :: _ => Ok (mkRenderContext hco)
      end
  end.

Section WithRenderer.
Context `{Renderer} `{ExclusionRules}.

(** The output [handleRenderAsset] computes for the asset it found. *)
Definition renderOne (assetMeta : AssetMetadata) (renderCtx : RenderContext)
  : RenderOutput :=
  let output := mkRenderOutput (AssetName assetMeta) (AssetPath assetMeta)
                  (Component assetMeta) "" "" (Conditions assetMeta) None in
  if negb (render.CheckConditions assetMeta renderCtx) then
    mkRenderOutput (Asset output) (OutPath output) (OutComponent output)
      "EXCLUDED" "Conditions not met" (OutConditions output) None
  else
    match RenderAsset assetMeta renderCtx with
    | Err err =>
        mkRenderOutput (Asset output) (OutPath output) (OutComponent output)
          "ERROR" (Error err) (OutConditions output) None
    | Ok None =>
        mkRenderOutput (Asset output) (OutPath output) (OutComponent output)
          "EXCLUDED" "Conditional template rendered empty" (OutConditions output) None
    | Ok (Some rendered) =>
        let disabledAnnotation :=
          index (unstructured.GetAnnotations (HCO renderCtx))
                exclusion.DisabledResourcesAnnotation in
        if negb (String.eqb disabledAnnotation "")
           && match ParseRules disabledAnnotation with
              | Ok rules =>
                  RuleExcluded (unstructured.GetKind rendered)
                    (unstructured.GetNamespace rendered)
                    (unstructured.GetName rendered) rules
              | Err _ => false
              end
        then
          mkRenderOutput (Asset output) (OutPath output) (OutComponent output)
            "FILTERED" "Root exclusion (disabled-resources annotation)"
            (OutConditions output) None
        else
          mkRenderOutput (Asset output) (OutPath output) (OutComponent output)
            "INCLUDED" "" (OutConditions output) (Some rendered)
    end.

(** [handleRenderAsset]: renders a specific asset by name. *)
Definition handleRenderAsset (s : Server) (r : Request) : Response :=
  if negb (String.eqb (Method r) "GET") then HTTPError "Method not allowed" 405
  else
    let path := TrimPrefix (URLPath r) "/debug/render/" in
    let assetName := strings.TrimSpace path in
    if String.eqb assetName "" then HTTPError "Asset name required" 400
    else
      let format := QueryGet r "format" in
      let format := if String.eqb format "" then "yaml" else format in
      match GetAsset s assetName with
      | Err err => HTTPError (fmt.Sprintf "Asset not found: %v" [ArgV err]) 404
      | Ok assetMeta =>
          match getRenderContext s with
          | Err err =>
              HTTPError (fmt.Sprintf "Failed to get render context: %v" [ArgV err]) 500
          | Ok renderCtx => RenderResponse [renderOne assetMeta renderCtx] format
          end
      end.

(** The [switch] of [getConditionDetails], on the details map filled so
    far. *)
Definition conditionDetail (renderCtx : RenderContext) (details : gmap string string)
    (condition : AssetCondition) : gmap string string :=
  if String.eqb (CondType condition) ConditionTypeAnnotation then
    let actual := index (unstructured.GetAnnotations (HCO renderCtx)) (Key condition) in
    <[Key condition := fmt.Sprintf "expected=%s, actual=%s"
                         [ArgS (Value condition); ArgS actual]]> details
  else if String.eqb (CondType condition) ConditionTypeFeatureGate then
    let featureGates := index (unstructured.GetAnnotations (HCO renderCtx))
                              "platform.kubevirt.io/feature-gates" in
    <["required" := Value condition]> (<["feature-gates" := featureGates]> details)
  else if String.eqb (CondType condition) ConditionTypeHardwareDetection then
    <["status" := "not checked (requires node access)"]>
      (<["detector" := Detector condition]> details)
  else details.

(** [getConditionDetails]: details about why conditions weren't met. *)
Definition getConditionDetails (assetMeta : AssetMetadata) (renderCtx : RenderContext)
  : gmap string string :=
  fold_left (conditionDetail renderCtx) (Conditions assetMeta) ∅.

(** One turn of the loop of [handleExclusions]: the entry appended for
    [assetMeta], if any. *)
Definition exclusionOf (renderCtx : RenderContext) (assetMeta : AssetMetadata)
  : option ExclusionInfo :=
  if negb (render.CheckConditions assetMeta renderCtx) then
    Some (mkExclusionInfo (AssetName assetMeta) (AssetPath assetMeta)
            (Component assetMeta) "Conditions not met"
            (Some (getConditionDetails assetMeta renderCtx)) assetMeta)
  else
    match RenderAsset assetMeta renderCtx with
    | Err err =>
        Some (mkExclusionInfo (AssetName assetMeta) (AssetPath assetMeta)
                (Component assetMeta) (fmt.Sprintf "Render error: %v" [ArgV err])
                None assetMeta)
    | Ok None =>
        Some (mkExclusionInfo (AssetName assetMeta) (AssetPath assetMeta)
                (Component assetMeta) "Template rendered empty" None assetMeta)
    | Ok (Some rendered) =>
        let disabledAnnotation :=
          index (unstructured.GetAnnotations (HCO renderCtx))
                exclusion.DisabledResourcesAnnotation in
        if negb (String.eqb disabledAnnotation "") then
          match ParseRules disabledAnnotation with
          | Err _ => None
          | Ok rules =>
              if RuleExcluded (unstructured.GetKind rendered)
                   (unstructured.GetNamespace rendered)
                   (unstructured.GetName rendered) rules
              then
                Some (mkExclusionInfo (AssetName assetMeta) (AssetPath assetMeta)
                        (Component assetMeta) "Root exclusion"
                        (Some (<["resource" :=
                                   fmt.Sprintf "%s/%s/%s"
                                     [ArgS (unstructured.GetKind rendered);
                                      ArgS (unstructured.GetNamespace rendered);
                                      ArgS (unstructured.GetName rendered)]]>
                                 (<["value" := disabledAnnotation]>
                                    {["annotation" :=
                                        exclusion.DisabledResourcesAnnotation]})))
                        assetMeta)
              else None
          end
        else None
    end.

(** The loop of [handleExclusions], on the slice built so far. *)
Fixpoint exclusionsLoop (renderCtx : RenderContext) (assetList : list AssetMetadata)
    (exclusions : list ExclusionInfo) : list ExclusionInfo :=
  match assetList with
  | [] => exclusions
  | assetMeta :: rest =>
      match exclusionOf renderCtx assetMeta with
      | Some info => exclusionsLoop renderCtx rest (exclusions ++ [info])
      | None => exclusionsLoop renderCtx rest exclusions
      end
  end.

(** [handleExclusions]: shows all excluded/filtered assets. *)
Definition handleExclusions (s : Server) (r : Request) : Response :=
  if negb (String.eqb (Method r) "GET") then HTTPError "Method not allowed" 405
  else
    let format := QueryGet r "format" in
    let format := if String.eqb format "" then "yaml" else format in
    match getRenderContext s with
    | Err err =>
        HTTPError (fmt.Sprintf "Failed to get render context: %v" [ArgV err]) 500
    | Ok renderCtx =>
        DataResponse (exclusionsLoop renderCtx (ListAssetsByReconcileOrder s) []) format
    end.

End WithRenderer.

End debug.

(** ** Further notions *)

(** The documents of a multi-document input that are not blank. *)
Definition nonBlank (docs : list string) : list string :=
  List.filter (λ doc, negb (String.eqb (strings.TrimSpace doc) "")) docs.

(** The separator of [ParseMultiYAML]: a line holding three dashes. *)
Definition documentSeparator : string := String "010" "---" +:+ String "010" "".

(** The entries of a walk that the callback of [LoadTombstones] passes over
    without reading anything: directories, files that are not [.yaml] or
    [.yaml.tpl], and errors that say the path does not exist. *)
Definition passedOver (entry : WalkEntry) : bool :=
  match entry with
  | WalkErr _ err =>
      strings.Contains (Error err) "no such file or directory"
      || strings.Contains (Error err) "file does not exist"
  | WalkDirectory _ => true
  | WalkFile path =>
      negb (strings.HasSuffix path ".yaml") && negb (strings.HasSuffix path ".yaml.tpl")
  end.



(** The [Get] calls among the calls made on the client. *)
Definition getCalls (made : list Call) : list Call :=
  List.filter (λ c, negb (isDeleteCall c)) made.

(** Every [Delete] among the calls is on an object that carries the
    ownership label with the expected value. *)
Definition deletesOnlyOwned (made : list Call) : Prop :=
  ∀ live, CallDelete live ∈ made → ownedByAutopilot live.

(** The event recorded for a tombstone, if the recorder is set. *)
Definition recorded (r : TombstoneReconciler) (hco : Unstructured) (e : Event)
  : list (Unstructured * Event) :=
  if eventRecorder r then [(hco, e)] else [].

(** The same reconciler without an event recorder. *)
Definition withoutRecorder (r : TombstoneReconciler) : TombstoneReconciler :=
  mkReconciler (loader r) false.

(** Two worlds that differ at most in the recorded events. *)
Definition sameCluster {St : Type} (w1 w2 : World St) : Prop :=
  server w1 = server w2 ∧ calls w1 = calls w2 ∧ metrics w1 = metrics w2.

(** The condition types the [switch] of [CheckConditions] has a case for. *)
Definition knownType (c : AssetCondition) : bool :=
  String.eqb (CondType c) ConditionTypeAnnotation
  || String.eqb (CondType c) ConditionTypeFeatureGate
  || String.eqb (CondType c) ConditionTypeHardwareDetection.

(** The outputs that are only shown on request: EXCLUDED and FILTERED. *)
Definition onlyOnRequest (output : pkgrender.RenderOutput) : bool :=
  String.eqb (pkgrender.Status output) "EXCLUDED"
  || String.eqb (pkgrender.Status output) "FILTERED".

(** The output describes the asset: same name, path, component and
    conditions. *)
Definition describes (output : pkgrender.RenderOutput) (assetMeta : AssetMetadata) : Prop :=
  pkgrender.Asset output = AssetName assetMeta ∧
  pkgrender.OutPath output = AssetPath assetMeta ∧
  pkgrender.OutComponent output = Component assetMeta ∧
  pkgrender.OutConditions output = Conditions assetMeta.

(** The sum of the four counters of the status summary. *)
Definition total (s : cmdrender.Summary) : Z :=
  cmdrender.included s + cmdrender.excluded s + cmdrender.filtered s + cmdrender.errors s.

(** ** Further fixtures *)

Module samples.

(** Syntax checks that accept everything but the text ["bad"]. *)
Definition rejectBad (text : string) : option error :=
  if String.eqb text "bad" then Some (errorString "syntax error") else None.

Definition syntax : AnnotationSyntax :=
  {| ValidateJSONPatch := rejectBad; ValidatePointers := rejectBad |}.

(** A ConfigMap with a patch, ignore-fields and the unmanaged mode. *)
Definition customized : Unstructured :=
  fixtures.newObject "v1" "ConfigMap" "default" "cfg" None
    (Some [("platform.kubevirt.io/patch", "[]");
           ("platform.kubevirt.io/ignore-fields", "/data/a");
           ("platform.kubevirt.io/mode", "unmanaged")]).

(** A ConfigMap that only carries an annotation of someone else. *)
Definition plain : Unstructured :=
  fixtures.newObject "v1" "ConfigMap" "default" "cfg" None
    (Some [("example.com/owner", "team-a")]).

(** A MachineConfig with a patch annotation. *)
Definition patchedMachineConfig : Unstructured :=
  fixtures.newObject "machineconfiguration.openshift.io/v1" "MachineConfig" ""
    "50-swap-enable" None (Some [("platform.kubevirt.io/patch", "[]")]).

(** An API server that is down: every call fails with an internal error. *)
Inductive DownServer : Type := Down.

#[global] Instance downClient : Client DownServer :=
  {| Get := λ _ _ _, Err (StatusError StatusReasonInternalError "server is down");
     Delete := λ s _, (s, Some (StatusError StatusReasonInternalError "server is down")) |}.

(** A renderer given by a table from asset names to objects; an asset
    named ["broken"] fails to render and an unknown one renders empty. *)
Definition tableRenderer (table : list (string * Unstructured)) : Renderer :=
  {| RenderAsset := λ assetMeta _,
       if String.eqb (AssetName assetMeta) "broken"
       then Err (errorString "template: parse error")
       else Ok (snd <$> List.find (λ entry, String.eqb (fst entry) (AssetName assetMeta))
                                  table) |}.

(** Exclusion rules given by the [Kind/Name] keys of
    [exclusion.ParseDisabledResources]. *)
Definition keyRules : ExclusionRules :=
  {| ExclusionRule := string;
     ParseRules := λ ann,
       Ok (map fst (map_to_list (exclusion.ParseDisabledResources ann)));
     RuleExcluded := λ kind _ name rules,
       existsb (String.eqb (exclusion.resourceKey kind name)) rules |}.

Definition swapAsset : AssetMetadata :=
  mkAssetMetadata "swap-enable" "machine-config/swap.yaml" "MachineConfig" [].

Definition metallbAsset : AssetMetadata :=
  mkAssetMetadata "metallb" "metallb/operator.yaml" "MetalLB"
    [mkAssetCondition "annotation" "platform.kubevirt.io/enable-metallb" "true" ""].

Definition gpuAsset : AssetMetadata :=
  mkAssetMetadata "gpu" "gpu/operator.yaml.tpl" "GPU"
    [mkAssetCondition "annotation" "platform.kubevirt.io/enable-metallb" "true" "";
     mkAssetCondition "hardware-detection" "" "" "gpuPresent"].

Definition brokenAsset : AssetMetadata :=
  mkAssetMetadata "broken" "broken.yaml.tpl" "Broken" [].

Definition renderer : Renderer :=
  tableRenderer
    [("swap-enable",
      fixtures.newObject "machineconfiguration.openshift.io/v1" "MachineConfig" ""
        "50-swap-enable" None None);
     ("metallb", fixtures.newObject "v1" "Namespace" "" "metallb-system" None None)].

(** An HCO that enables MetalLB and disables the swap MachineConfig. *)
Definition hco : Unstructured :=
  fixtures.newObject "hco.kubevirt.io/v1beta1" "HyperConverged" "openshift-cnv"
    "kubevirt-hyperconverged" None
    (Some [("platform.kubevirt.io/enable-metallb", "true");
           ("platform.kubevirt.io/disabled-resources", "MachineConfig/50-swap-enable")]).

Definition renderCtx : RenderContext := mkRenderContext hco.

Definition catalog : list AssetMetadata := [swapAsset; metallbAsset; gpuAsset; brokenAsset].

Definition server : Server :=
  mkServer
    (λ name,
       match List.find (λ a, String.eqb (AssetName a) name) catalog with
       | Some a => Ok a
       | None => Err (fmt.Errorf "asset %s not found" [ArgS name])
       end)
    catalog
    (Ok [hco]).

End samples.

(** * Properties *)

(** ** Opt-in: [IsAutopilotEnabled] *)

Lemma index_Some (m : gmap string string) (k : string) :
  index (Some m) k = default "" (m !! k).
Proof. reflexivity. Qed.

Lemma eqb_false_of_ne (s t : string) : s ≠ t → String.eqb s t = false.
Proof. intros Hne. by apply String.eqb_neq. Qed.

(** C4. [IsAutopilotEnabled hco] is true exactly when [hco] is non-nil and its
    annotation [platform.kubevirt.io/autopilot] is the string ["true"]; it is
    false for a nil HCO, for a missing annotations map, for an absent
    annotation and for every other value of the annotation. *)
Theorem IsAutopilotEnabled_exactly_true :
  (∀ hco : option Unstructured,
     overrides.IsAutopilotEnabled hco = true ↔
     ∃ h annotations,
       hco = Some h ∧
       unstructured.GetAnnotations h = Some annotations ∧
       annotations !! overrides.AnnotationAutopilotEnabled = Some "true") ∧
  overrides.IsAutopilotEnabled None = false ∧
  (∀ h, unstructured.GetAnnotations h = None →
        overrides.IsAutopilotEnabled (Some h) = false) ∧
  (∀ h annotations,
     unstructured.GetAnnotations h = Some annotations →
     annotations !! overrides.AnnotationAutopilotEnabled = None →
     overrides.IsAutopilotEnabled (Some h) = false) ∧
  (∀ h annotations v,
     unstructured.GetAnnotations h = Some annotations →
     annotations !! overrides.AnnotationAutopilotEnabled = Some v →
     v ≠ "true" →
     overrides.IsAutopilotEnabled (Some h) = false).
Proof.
  repeat split.
  - destruct hco as [h|]; simpl; [|discriminate].
    destruct (unstructured.GetAnnotations h) as [a|] eqn:Ha; [|discriminate].
    rewrite index_Some. intros Heq%String.eqb_eq.
    exists h, a. repeat split; try done.
    destruct (a !! overrides.AnnotationAutopilotEnabled) as [v|]; simpl in Heq.
    + by subst.
    + discriminate.
  - intros (h & a & -> & Ha & Hv). simpl. rewrite Ha, index_Some, Hv. reflexivity.
  - intros h Ha. simpl. by rewrite Ha.
  - intros h a Ha Hv. simpl. by rewrite Ha, index_Some, Hv.
  - intros h a v Ha Hv Hne. simpl. rewrite Ha, index_Some, Hv. simpl.
    by apply eqb_false_of_ne.
Qed.

(** The annotation value is compared as it is: ["True"] and ["false"] leave
    the engine inactive. *)
Example IsAutopilotEnabled_values :
  overrides.IsAutopilotEnabled
    (Some (fixtures.newObject "hco.kubevirt.io/v1beta1" "HyperConverged" "ns" "hco" None
             (Some [("platform.kubevirt.io/autopilot", "true")]))) = true ∧
  overrides.IsAutopilotEnabled
    (Some (fixtures.newObject "hco.kubevirt.io/v1beta1" "HyperConverged" "ns" "hco" None
             (Some [("platform.kubevirt.io/autopilot", "True")]))) = false ∧
  overrides.IsAutopilotEnabled
    (Some (fixtures.newObject "hco.kubevirt.io/v1beta1" "HyperConverged" "ns" "hco" None
             (Some [("platform.kubevirt.io/autopilot", "false")]))) = false ∧
  overrides.IsAutopilotEnabled (Some fixtures.hco) = false.
Proof. vm_compute. repeat split; reflexivity. Qed.

(** ** Patch guard: [ValidatePatchSecurity] *)

Lemma sensitiveKinds_lookup (kind : string) :
  default false (overrides.sensitiveKinds !! kind) = true ↔
  kind ∈ elevenSensitiveKinds.
Proof.
  split.
  - destruct (overrides.sensitiveKinds !! kind) as [b|] eqn:Hk; simpl; [|discriminate].
    intros ->. apply elem_of_list_to_map_2 in Hk.
    unfold elevenSensitiveKinds.
    repeat (apply elem_of_cons in Hk as [Hk|Hk];
            [injection Hk as ->; set_solver|]).
    by apply elem_of_nil in Hk.
  - unfold elevenSensitiveKinds. intros Hin.
    repeat (apply elem_of_cons in Hin as [->|Hin]; [by vm_compute|]).
    by apply elem_of_nil in Hin.
Qed.

Lemma index_ok_snd (m : gmap string string) (k : string) :
  snd (index_ok (Some m) k) = true ↔ is_Some (m !! k).
Proof.
  simpl. destruct (m !! k) as [v|]; simpl.
  - split; [by eauto | done].
  - split; [done | by intros [? ?]].
Qed.

(** The nil guard of [ValidatePatchSecurity]. *)
Lemma ValidatePatchSecurity_nil :
  overrides.ValidatePatchSecurity None = Some (errorString "object is nil").
Proof. reflexivity. Qed.

Lemma ValidatePatchSecurity_error_iff (obj : Unstructured) :
  (∃ err, overrides.ValidatePatchSecurity (Some obj) = Some err) ↔
  unstructured.GetKind obj ∈ elevenSensitiveKinds ∧
  hasAnnotation obj overrides.PatchAnnotation.
Proof.
  unfold overrides.ValidatePatchSecurity, hasAnnotation.
  destruct (default false (overrides.sensitiveKinds !! unstructured.GetKind obj))
    eqn:Hs.
  - apply sensitiveKinds_lookup in Hs.
    destruct (unstructured.GetAnnotations obj) as [a|] eqn:Ha.
    + pose proof (index_ok_snd a overrides.PatchAnnotation) as Hp.
      destruct (index_ok (Some a) overrides.PatchAnnotation) as [v [|]]; simpl in Hp.
      * split; [|by eauto]. intros _. split; [done|].
        exists a. split; [done|]. by apply Hp.
      * split; [by intros [? ?]|]. intros (_ & a' & [= <-] & Hsome).
        apply Hp in Hsome. discriminate.
    + split; [by intros [? ?]|]. by intros (_ & a' & ? & _).
  - split; [by intros [? ?]|]. intros [Hin _].
    apply sensitiveKinds_lookup in Hin. congruence.
Qed.

(** C3. For an object, [ValidatePatchSecurity] returns an error if and only if
    the kind is one of the eleven sensitive kinds and the patch annotation is
    present; an object with no patch annotation, in particular one that carries
    only the ignore-fields or the mode annotation, gets nil whatever its
    kind. *)
Theorem ValidatePatchSecurity_sensitive_patch_only (obj : Unstructured) :
  ((∃ err, overrides.ValidatePatchSecurity (Some obj) = Some err) ↔
   unstructured.GetKind obj ∈ elevenSensitiveKinds ∧
   hasAnnotation obj overrides.PatchAnnotation) ∧
  (¬ hasAnnotation obj overrides.PatchAnnotation →
   overrides.ValidatePatchSecurity (Some obj) = None) ∧
  (∀ annotations,
     unstructured.GetAnnotations obj = Some annotations →
     (∀ key, is_Some (annotations !! key) →
             key = overrides.AnnotationIgnoreFields ∨ key = overrides.AnnotationMode) →
     overrides.ValidatePatchSecurity (Some obj) = None).
Proof.
  pose proof (ValidatePatchSecurity_error_iff obj) as Hiff.
  assert (Hnone : ¬ hasAnnotation obj overrides.PatchAnnotation →
                  overrides.ValidatePatchSecurity (Some obj) = None).
  { intros Hno.
    destruct (overrides.ValidatePatchSecurity (Some obj)) as [err|] eqn:Hv; [|done].
    exfalso. apply Hno. apply Hiff. by exists err. }
  split; [exact Hiff|]. split; [exact Hnone|].
  intros a Ha Honly. apply Hnone. intros (a' & Ha' & Hsome).
  rewrite Ha in Ha'. injection Ha' as <-.
  destruct (Honly _ Hsome) as [Hk|Hk]; vm_compute in Hk; discriminate.
Qed.

(** A patch on a MachineConfig is refused; the same object with only
    ignore-fields and unmanaged mode is accepted, and so is a patched
    ConfigMap. *)
Example ValidatePatchSecurity_cases :
  overrides.ValidatePatchSecurity
    (Some (fixtures.newObject "machineconfiguration.openshift.io/v1" "MachineConfig" ""
             "50-swap-enable" None
             (Some [("platform.kubevirt.io/patch", "[]")])))
  = Some (errorString
            "JSON patches are not allowed on sensitive resource kind: MachineConfig") ∧
  overrides.ValidatePatchSecurity
    (Some (fixtures.newObject "machineconfiguration.openshift.io/v1" "MachineConfig" ""
             "50-swap-enable" None
             (Some [("platform.kubevirt.io/ignore-fields", "/spec/config");
                    ("platform.kubevirt.io/mode", "unmanaged")])))
  = None ∧
  overrides.ValidatePatchSecurity
    (Some (fixtures.newObject "v1" "ConfigMap" "default" "cfg" None
             (Some [("platform.kubevirt.io/patch", "[]")])))
  = None.
Proof. vm_compute. repeat split; reflexivity. Qed.

(** ** Root exclusion: [ParseDisabledResources] and [IsResourceExcluded] *)

Section Exclusion.
Import exclusion.

Lemma addPair_allTrue (m : gmap string bool) (pair : string) :
  allTrue m → allTrue (addPair m pair).
Proof.
  intros Hm. unfold addPair.
  destruct (negb (String.eqb (strings.TrimSpace pair) "")); [|done].
  intros k b. rewrite lookup_insert. case_decide; [congruence|apply Hm].
Qed.

Lemma fold_addPair_allTrue (pairs : list string) (m : gmap string bool) :
  allTrue m → allTrue (fold_left addPair pairs m).
Proof.
  revert m. induction pairs as [|pair pairs IH]; intros m Hm; simpl; [done|].
  apply IH. by apply addPair_allTrue.
Qed.

Lemma ParseDisabledResources_allTrue (annotation : string) :
  allTrue (ParseDisabledResources annotation).
Proof.
  unfold ParseDisabledResources.
  assert (He : allTrue (∅ : gmap string bool)).
  { intros k b Hk. by rewrite lookup_empty in Hk. }
  destruct (String.eqb annotation ""); [done|].
  by apply fold_addPair_allTrue.
Qed.

Lemma IsResourceExcluded_allTrue (kind name : string) (m : gmap string bool) :
  allTrue m →
  IsResourceExcluded kind name m = true ↔ is_Some (m !! resourceKey kind name).
Proof.
  intros Hm. unfold IsResourceExcluded, lookupBool.
  destruct (Z.of_nat (size m) =? 0) eqn:Hsz.
  - apply Z.eqb_eq in Hsz.
    assert (m = ∅) as -> by (apply map_size_empty_iff; lia).
    rewrite lookup_empty. split; [done|by intros [? ?]].
  - destruct (m !! resourceKey kind name) as [b|] eqn:Hk; simpl.
    + rewrite (Hm _ _ Hk). split; [by eauto|done].
    + split; [done|by intros [? ?]].
Qed.

(** C2. On the map [ParseDisabledResources] produces, [IsResourceExcluded kind
    name] is true exactly when ["kind/name"] is a key of the map.  The
    comparison is case-sensitive: a kind and name whose key differs from a
    listed entry only in letter case, and is not spelled like any listed
    entry, is not excluded. *)
Theorem IsResourceExcluded_exact_key (annotation kind name : string) :
  let disabled := ParseDisabledResources annotation in
  (IsResourceExcluded kind name disabled = true ↔
   is_Some (disabled !! resourceKey kind name)) ∧
  (∀ entry,
     is_Some (disabled !! entry) →
     EqualFold (resourceKey kind name) entry →
     (∀ listed, is_Some (disabled !! listed) → resourceKey kind name ≠ listed) →
     IsResourceExcluded kind name disabled = false).
Proof.
  intros disabled.
  pose proof (IsResourceExcluded_allTrue kind name disabled
                (ParseDisabledResources_allTrue annotation)) as Hiff.
  split; [exact Hiff|].
  intros entry _ _ Hne.
  apply not_true_is_false. intros Hx.
  apply Hiff in Hx. by apply (Hne _ Hx).
Qed.

End Exclusion.

(** The cases of the unit tests: white space and empty entries are dropped,
    the listed resource is excluded, and neither [configmap/test] nor
    [ConfigMap/Test] is. *)
Example IsResourceExcluded_cases :
  map_to_list (exclusion.ParseDisabledResources "ConfigMap/foo,  , Secret/bar,")
  = [("Secret/bar", true); ("ConfigMap/foo", true)] ∧
  exclusion.IsResourceExcluded "ConfigMap" "test"
    (exclusion.ParseDisabledResources "ConfigMap/test") = true ∧
  exclusion.IsResourceExcluded "ConfigMap" "other"
    (exclusion.ParseDisabledResources "ConfigMap/test") = false ∧
  EqualFold (exclusion.resourceKey "configmap" "test") "ConfigMap/test" ∧
  exclusion.IsResourceExcluded "configmap" "test"
    (exclusion.ParseDisabledResources "ConfigMap/test") = false ∧
  exclusion.IsResourceExcluded "ConfigMap" "Test"
    (exclusion.ParseDisabledResources "ConfigMap/test") = false ∧
  exclusion.IsResourceExcluded "ConfigMap" "test" ∅ = false.
Proof. vm_compute. repeat split; reflexivity. Qed.

(** ** Asset conditions: [CheckConditions] *)

Section Conditions.
Import render.

Lemma CheckConditions_checkLoop (assetMeta : AssetMetadata) (renderCtx : RenderContext) :
  CheckConditions assetMeta renderCtx = checkLoop renderCtx (Conditions assetMeta).
Proof.
  unfold CheckConditions. destruct (Conditions assetMeta) as [|c rest]; reflexivity.
Qed.

Lemma conditionSatisfied_checkLoop (renderCtx : RenderContext) (c : AssetCondition) :
  conditionSatisfied renderCtx c = checkLoop renderCtx [c].
Proof. unfold conditionSatisfied. by rewrite CheckConditions_checkLoop. Qed.

(** One turn of the loop: the head condition alone, and then the rest. *)
Lemma checkLoop_cons (renderCtx : RenderContext) (c : AssetCondition)
    (rest : list AssetCondition) :
  checkLoop renderCtx (c :: rest) =
  conditionSatisfied renderCtx c && checkLoop renderCtx rest.
Proof.
  rewrite conditionSatisfied_checkLoop. simpl.
  repeat match goal with
         | |- context [if ?b then _ else _] => destruct b
         end; reflexivity.
Qed.

Lemma checkLoop_forallb (renderCtx : RenderContext) (conditions : list AssetCondition) :
  checkLoop renderCtx conditions = forallb (conditionSatisfied renderCtx) conditions.
Proof.
  induction conditions as [|c rest IH]; [reflexivity|].
  rewrite checkLoop_cons, IH. reflexivity.
Qed.


End Conditions.

(** The cases of the render tests: no conditions, an annotation that matches,
    one that is missing, hardware detection, and a failing condition after a
    satisfied one. *)
Example CheckConditions_cases :
  let ctx := mkRenderContext
               (fixtures.newObject "hco.kubevirt.io/v1beta1" "HyperConverged" "ns" "hco"
                  None (Some [("platform.kubevirt.io/enable-metallb", "true")])) in
  let metallb := mkAssetCondition "annotation" "platform.kubevirt.io/enable-metallb" "true" "" in
  let aaq := mkAssetCondition "annotation" "platform.kubevirt.io/enable-aaq" "true" "" in
  let gpu := mkAssetCondition "hardware-detection" "" "" "gpuPresent" in
  render.CheckConditions (mkAssetMetadata "test" "" "" []) ctx = true ∧
  render.CheckConditions (mkAssetMetadata "test" "" "" [metallb]) ctx = true ∧
  render.CheckConditions (mkAssetMetadata "test" "" "" [aaq]) ctx = false ∧
  render.CheckConditions (mkAssetMetadata "test" "" "" [gpu]) ctx = false ∧
  render.CheckConditions (mkAssetMetadata "test" "" "" [metallb; aaq]) ctx = false.
Proof. vm_compute. repeat split; reflexivity. Qed.

(** An annotation condition whose value the HCO annotation equals is
    satisfied. *)
Lemma annotation_condition_equal (renderCtx : RenderContext) (key value detector : string) :
  index (unstructured.GetAnnotations (HCO renderCtx)) key = value →
  conditionSatisfied renderCtx (mkAssetCondition ConditionTypeAnnotation key value detector)
  = true.
Proof.
  intros Heq. unfold conditionSatisfied, render.CheckConditions. simpl.
  rewrite Heq, String.eqb_refl. reflexivity.
Qed.

(** C6. The annotation [enable-gpu] is present on the HCO, with the value
    ["anything"]; the annotation condition on that key with an empty value
    is nevertheless not satisfied by [CheckConditions], which compares the
    annotation with the empty string. *)
Theorem CheckConditions_annotation_presence :
  let hco := fixtures.newObject "hco.kubevirt.io/v1beta1" "HyperConverged" "ns" "hco"
               None (Some [("enable-gpu", "anything")]) in
  let condition := mkAssetCondition ConditionTypeAnnotation "enable-gpu" "" "" in
  hasAnnotation hco "enable-gpu" ∧
  index (unstructured.GetAnnotations hco) "enable-gpu" = "anything" ∧
  render.CheckConditions (mkAssetMetadata "gpu" "" "" [condition]) (mkRenderContext hco)
  = false.
Proof.
  split; [|split]; [|by vm_compute..].
  exists {[ "enable-gpu" := "anything" ]}. split; [by vm_compute|].
  rewrite lookup_singleton_eq. by eexists.
Qed.

(** The condition evaluator of the asset registry answers true on the same
    annotations and condition (its "existence check" test). *)
Example EvaluateAnnotationCondition_presence :
  EvaluateAnnotationCondition {[ "enable-gpu" := "anything" ]}
    (mkAssetCondition ConditionTypeAnnotation "enable-gpu" "" "") = Ok true ∧
  EvaluateAnnotationCondition {[ "enable-gpu" := "true" ]}
    (mkAssetCondition ConditionTypeAnnotation "enable-gpu" "true" "") = Ok true ∧
  EvaluateAnnotationCondition {[ "enable-gpu" := "false" ]}
    (mkAssetCondition ConditionTypeAnnotation "enable-gpu" "true" "") = Ok false ∧
  EvaluateAnnotationCondition ∅
    (mkAssetCondition ConditionTypeAnnotation "missing-key" "" "") = Ok false.
Proof. vm_compute. repeat split; reflexivity. Qed.

(** ** Size and depth guards: [ParseYAML] and [ParseMultiYAML] *)

Lemma maxStep_max (maxDepth depth : Z) : assets.maxStep maxDepth depth = Z.max maxDepth depth.
Proof. unfold assets.maxStep. destruct (Z.gtb_spec depth maxDepth); lia. Qed.

(** Go ranges over a map in no fixed order; the running maximum does not
    depend on it, so keeping a map as the list of its entries loses
    nothing for [calculateDepth]. *)
Lemma maxDepth_order {A : Type} (depthOf : A → Z) (entries entries' : list A) (start : Z) :
  Permutation entries entries' →
  fold_left (λ maxDepth entry, assets.maxStep maxDepth (depthOf entry)) entries start
  = fold_left (λ maxDepth entry, assets.maxStep maxDepth (depthOf entry)) entries' start.
Proof.
  intros Hperm. revert start.
  induction Hperm as [|x l l' _ IH|x y l|l l' l'' _ IH1 _ IH2]; intros start; simpl.
  - reflexivity.
  - apply IH.
  - f_equal. rewrite !maxStep_max. lia.
  - by rewrite IH1, IH2.
Qed.

Lemma calculateDepth_map_order (entries entries' : list (string * Any)) :
  Permutation entries entries' →
  assets.calculateDepth (VMap entries) = assets.calculateDepth (VMap entries').
Proof.
  intros Hperm. simpl. f_equal.
  apply (maxDepth_order (λ entry, assets.calculateDepth (snd entry))), Hperm.
Qed.

Lemma calculateDepth_positive (obj : Any) : 1 ≤ assets.calculateDepth obj.
Proof.
  assert (Hfold : ∀ (A : Type) (depthOf : A → Z) (l : list A) (start : Z),
            0 ≤ start →
            0 ≤ fold_left (λ maxDepth entry, assets.maxStep maxDepth (depthOf entry)) l start).
  { intros A depthOf l. induction l as [|x l IH]; intros start Hs; simpl; [done|].
    apply IH. rewrite maxStep_max. lia. }
  destruct obj; simpl; try lia.
  - pose proof (Hfold _ (λ entry : string * Any, assets.calculateDepth (snd entry))
                  entries 0 ltac:(lia)). lia.
  - pose proof (Hfold _ assets.calculateDepth items 0 ltac:(lia)). lia.
Qed.

Section Guards.
Import assets.
Context `{YAML}.

Lemma ParseYAML_too_large (data : string) :
  MaxYAMLSize < Z.of_nat (String.length data) → ∃ err, ParseYAML data = Err err.
Proof.
  intros Hlen. unfold ParseYAML.
  destruct (Z.gtb_spec (Z.of_nat (String.length data)) MaxYAMLSize); [|lia].
  by eexists.
Qed.

Lemma ParseMultiYAML_too_large (data : string) :
  MaxYAMLSize < Z.of_nat (String.length data) → ∃ err, ParseMultiYAML data = Err err.
Proof.
  intros Hlen. unfold ParseMultiYAML.
  destruct (Z.gtb_spec (Z.of_nat (String.length data)) MaxYAMLSize); [|lia].
  by eexists.
Qed.

Lemma ParseYAML_too_deep (data : string) (obj : Unstructured) :
  Unmarshal data = Ok obj →
  MaxYAMLDepth < calculateDepth (VMap (Object obj)) →
  ∃ err, ParseYAML data = Err err.
Proof.
  intros Hobj Hdepth. unfold ParseYAML.
  destruct (Z.of_nat (String.length data) >? MaxYAMLSize); [by eexists|].
  rewrite Hobj.
  destruct (Z.gtb_spec (calculateDepth (VMap (Object obj))) MaxYAMLDepth); [|lia].
  by eexists.
Qed.

Lemma ParseYAML_Ok (data : string) (obj : Unstructured) :
  ParseYAML data = Ok obj →
  Z.of_nat (String.length data) ≤ MaxYAMLSize ∧
  calculateDepth (VMap (Object obj)) ≤ MaxYAMLDepth ∧
  Unmarshal data = Ok obj.
Proof.
  unfold ParseYAML.
  destruct (Z.gtb_spec (Z.of_nat (String.length data)) MaxYAMLSize); [discriminate|].
  destruct (Unmarshal data) as [o|err]; [|discriminate].
  destruct (Z.gtb_spec (calculateDepth (VMap (Object o))) MaxYAMLDepth); [discriminate|].
  intros [= ->]. repeat split; [lia|lia].
Qed.

Lemma ParseYAML_withinBounds (data : string) (obj : Unstructured) :
  ParseYAML data = Ok obj → withinBounds obj.
Proof.
  intros (Hlen & Hdepth & Hobj)%ParseYAML_Ok. split; [done|]. by exists data.
Qed.

Lemma parseDocs_withinBounds (docs : list string) (i : Z)
    (objects result_ : list Unstructured) :
  Forall withinBounds objects →
  parseDocs docs i objects = Ok result_ →
  Forall withinBounds result_.
Proof.
  revert i objects. induction docs as [|doc rest IH]; intros i objects Hobjs; simpl.
  - by intros [= <-].
  - destruct (String.eqb (strings.TrimSpace doc) ""); [by apply IH|].
    destruct (ParseYAML (strings.TrimSpace doc)) as [obj|err] eqn:Hp; [|discriminate].
    apply IH. apply Forall_app. split; [done|].
    apply Forall_singleton. by eapply ParseYAML_withinBounds.
Qed.

(** C10. An input longer than [MaxYAMLSize] bytes makes both [ParseYAML] and
    [ParseMultiYAML] return an error and no object; a decoded structure deeper
    than [MaxYAMLDepth] makes [ParseYAML] return an error; so every object
    either of them returns is within both bounds. *)
Theorem ParseYAML_size_and_depth_guards :
  MaxYAMLSize = 10485760 ∧ MaxYAMLDepth = 100 ∧
  (∀ data, MaxYAMLSize < Z.of_nat (String.length data) →
           (∃ err, ParseYAML data = Err err) ∧
           (∃ err, ParseMultiYAML data = Err err)) ∧
  (∀ data obj, Unmarshal data = Ok obj →
               MaxYAMLDepth < calculateDepth (VMap (Object obj)) →
               ∃ err, ParseYAML data = Err err) ∧
  (∀ data obj, ParseYAML data = Ok obj →
               Z.of_nat (String.length data) ≤ MaxYAMLSize ∧
               calculateDepth (VMap (Object obj)) ≤ MaxYAMLDepth) ∧
  (∀ data objects, ParseMultiYAML data = Ok objects →
                   Z.of_nat (String.length data) ≤ MaxYAMLSize ∧
                   Forall withinBounds objects).
Proof.
  split; [reflexivity|]. split; [reflexivity|].
  split; [|split; [|split]].
  - intros data Hlen. split.
    + by apply ParseYAML_too_large.
    + by apply ParseMultiYAML_too_large.
  - intros data obj. apply ParseYAML_too_deep.
  - intros data obj (Hlen & Hdepth & _)%ParseYAML_Ok. done.
  - intros data objects. unfold ParseMultiYAML.
    destruct (Z.gtb_spec (Z.of_nat (String.length data)) MaxYAMLSize); [discriminate|].
    intros Hdocs. split; [lia|].
    eapply parseDocs_withinBounds; [|exact Hdocs]. constructor.
Qed.

End Guards.

Lemma padding_length (n : nat) : String.length (fixtures.padding n) = n.
Proof. induction n as [|n IH]; simpl; [reflexivity|]. by rewrite IH. Qed.

(** A document one byte over the limit is refused by both parsers, whatever
    the decoder. *)
Example ParseYAML_oversized `{YAML} :
  (∃ err, assets.ParseYAML (fixtures.padding (N.to_nat 10485761)) = Err err) ∧
  (∃ err, assets.ParseMultiYAML (fixtures.padding (N.to_nat 10485761)) = Err err).
Proof.
  assert (Hlen : assets.MaxYAMLSize
                 < Z.of_nat (String.length (fixtures.padding (N.to_nat 10485761)))).
  { rewrite padding_length. unfold assets.MaxYAMLSize. lia. }
  split; [by apply ParseYAML_too_large | by apply ParseMultiYAML_too_large].
Qed.

(** A document that decodes to a structure of depth 101 is refused; one of
    depth 100 is returned. *)
Example ParseYAML_depth_cases :
  let deep := mkUnstructured (fixtures.nested 100) in
  let fine := mkUnstructured (fixtures.nested 99) in
  let yaml := fixtures.tableYAML [("deep", deep); ("fine", fine)] in
  assets.calculateDepth (VMap (Object deep)) = 101 ∧
  assets.ParseYAML "deep"
  = Err (errorString "YAML structure exceeds maximum nesting depth of 100 (got 101)") ∧
  assets.ParseYAML "fine" = Ok fine ∧
  assets.ParseMultiYAML ("fine" +:+ String "010" "---" +:+ String "010" "fine")
  = Ok [fine; fine] ∧
  (∃ err, assets.ParseMultiYAML ("fine" +:+ String "010" "---" +:+ String "010" "deep")
          = Err err).
Proof. vm_compute. repeat split; try reflexivity. by eexists. Qed.

(** ** Tombstone declarations: [validateTombstone] and [LoadTombstones] *)

Section Tombstones.
Import assets.
Context `{YAML}.

Lemma validateTombstone_None_iff (obj : Unstructured) (path : string) :
  validateTombstone obj path = None ↔ wellFormedTombstone obj.
Proof.
  unfold validateTombstone, wellFormedTombstone.
  destruct (String.eqb_spec (unstructured.GetKind obj) "") as [Hk|Hk];
    [split; [discriminate|by intros [? _]]|].
  destruct (String.eqb_spec (unstructured.GetAPIVersion obj) "") as [Hv|Hv];
    [split; [discriminate|by intros (_ & ? & _)]|].
  destruct (String.eqb_spec (unstructured.GetName obj) "") as [Hn|Hn];
    [split; [discriminate|by intros (_ & _ & ? & _)]|].
  destruct (unstructured.GetLabels obj) as [labels|];
    [|split; [discriminate|by intros (_ & _ & _ & ? & ? & _)]].
  rewrite index_Some.
  destruct (String.eqb_spec (default "" (labels !! TombstoneLabel)) TombstoneLabelValue)
    as [Hl|Hl]; simpl.
  - split; [|done]. intros _. repeat split; try done.
    exists labels. split; [done|].
    destruct (labels !! TombstoneLabel) as [v|]; simpl in Hl; [by subst|].
    vm_compute in Hl. discriminate.
  - split; [discriminate|]. intros (_ & _ & _ & labels' & [= <-] & Hv').
    rewrite Hv' in Hl. by simpl in Hl.
Qed.

Lemma validateTombstone_rejects (obj : Unstructured) (path : string) :
  ¬ wellFormedTombstone obj → ∃ err, validateTombstone obj path = Some err.
Proof.
  intros Hbad. destruct (validateTombstone obj path) as [err|] eqn:Hv; [by eexists|].
  by apply validateTombstone_None_iff in Hv.
Qed.


(** The first declaration that fails validation stops the file with its
    error. *)
Lemma processObjects_first_invalid (path : string) (valid rest : list Unstructured)
    (obj : Unstructured) (err : error) (tombstones : list TombstoneMetadata) :
  Forall wellFormedTombstone valid →
  validateTombstone obj path = Some err →
  processObjects path (valid ++ obj :: rest) tombstones
  = (tombstones ++ map (metadataOf path) valid, Some err).
Proof.
  revert tombstones. induction valid as [|v valid IH]; intros tombstones Hall Herr; simpl.
  - by rewrite Herr, app_nil_r.
  - apply Forall_cons in Hall as [Hv Hvalid].
    apply (validateTombstone_None_iff v path) in Hv. rewrite Hv.
    rewrite IH by done. by rewrite <- app_assoc.
Qed.

Lemma processObjects_invalid (path : string) (objects : list Unstructured)
    (obj : Unstructured) (tombstones : list TombstoneMetadata) :
  obj ∈ objects → ¬ wellFormedTombstone obj →
  ∃ err, snd (processObjects path objects tombstones) = Some err.
Proof.
  revert tombstones. induction objects as [|o rest IH]; intros tombstones Hin Hbad.
  - by apply elem_of_nil in Hin.
  - simpl. destruct (validateTombstone o path) as [err|] eqn:Hv; [by eexists|].
    apply elem_of_cons in Hin as [->|Hin].
    + by apply validateTombstone_None_iff in Hv.
    + by apply IH.
Qed.

Lemma processObjects_None (path : string) (objects : list Unstructured)
    (tombstones tombstones' : list TombstoneMetadata) :
  processObjects path objects tombstones = (tombstones', None) →
  Forall (λ ts, wellFormedTombstone (TsObject ts)) tombstones →
  Forall (λ ts, wellFormedTombstone (TsObject ts)) tombstones'.
Proof.
  revert tombstones. induction objects as [|o rest IH]; intros tombstones; simpl.
  - by intros [= <-].
  - destruct (validateTombstone o path) as [err|] eqn:Hv; [discriminate|].
    intros Hp Hall. eapply IH; [exact Hp|].
    apply Forall_app. split; [done|]. apply Forall_singleton. simpl.
    by apply validateTombstone_None_iff in Hv.
Qed.

Lemma walkFn_file (l : Loader) (path data : string) (objects : list Unstructured)
    (tombstones : list TombstoneMetadata) :
  isTombstoneFile path →
  ReadFile (fs l) path = Ok data →
  ParseMultiYAML data = Ok objects →
  walkFn l tombstones (WalkFile path) = processObjects path objects tombstones.
Proof.
  intros Hsuffix Hread Hparse. unfold walkFn.
  destruct Hsuffix as [Hs|Hs]; rewrite Hs, ?andb_false_r; simpl;
    by rewrite Hread, Hparse.
Qed.

Lemma walkFn_None (l : Loader) (entry : WalkEntry)
    (tombstones tombstones' : list TombstoneMetadata) :
  walkFn l tombstones entry = (tombstones', None) →
  Forall (λ ts, wellFormedTombstone (TsObject ts)) tombstones →
  Forall (λ ts, wellFormedTombstone (TsObject ts)) tombstones'.
Proof.
  destruct entry as [path err|path|path]; simpl.
  - destruct (_ || _); [by intros [= <-]|discriminate].
  - by intros [= <-].
  - destruct (_ && _); [by intros [= <-]|].
    destruct (ReadFile (fs l) path) as [data|err]; [|discriminate].
    destruct (ParseMultiYAML data) as [objects|err]; [|discriminate].
    apply processObjects_None.
Qed.

Lemma WalkDir_cons {A : Type} (entry : WalkEntry) (rest : list WalkEntry)
    (fn : A → WalkEntry → A * option error) (acc : A) :
  WalkDir (entry :: rest) fn acc
  = match fn acc entry with
    | (acc', Some err) => (acc', Some err)
    | (acc', None) => WalkDir rest fn acc'
    end.
Proof. reflexivity. Qed.

Lemma WalkDir_app {A : Type} (pre post : list WalkEntry)
    (fn : A → WalkEntry → A * option error) (acc acc' : A) :
  WalkDir pre fn acc = (acc', None) →
  WalkDir (pre ++ post) fn acc = WalkDir post fn acc'.
Proof.
  revert acc. induction pre as [|entry pre IH]; intros acc; simpl.
  - by intros [= <-].
  - destruct (fn acc entry) as [acc1 [err|]]; [discriminate|]. apply IH.
Qed.

(** An entry on which the callback fails whatever came before makes the walk
    fail. *)
Lemma WalkDir_fails {A : Type} (entries : list WalkEntry) (entry : WalkEntry)
    (fn : A → WalkEntry → A * option error) (acc : A) :
  entry ∈ entries →
  (∀ a, ∃ err, snd (fn a entry) = Some err) →
  ∃ err, snd (WalkDir entries fn acc) = Some err.
Proof.
  revert acc. induction entries as [|e rest IH]; intros acc Hin Hfail.
  - by apply elem_of_nil in Hin.
  - simpl. destruct (fn acc e) as [acc1 [err|]] eqn:Hfn; [by eexists|].
    apply elem_of_cons in Hin as [->|Hin].
    + destruct (Hfail acc) as [err Herr]. rewrite Hfn in Herr. discriminate.
    + by apply IH.
Qed.

Lemma WalkDir_walkFn_None (l : Loader) (entries : list WalkEntry)
    (tombstones tombstones' : list TombstoneMetadata) :
  WalkDir entries (walkFn l) tombstones = (tombstones', None) →
  Forall (λ ts, wellFormedTombstone (TsObject ts)) tombstones →
  Forall (λ ts, wellFormedTombstone (TsObject ts)) tombstones'.
Proof.
  revert tombstones. induction entries as [|e rest IH]; intros tombstones; simpl.
  - by intros [= <-].
  - destruct (walkFn l tombstones e) as [acc1 [err|]] eqn:Hfn; [discriminate|].
    intros Hw Hall. eapply IH; [exact Hw|]. by eapply walkFn_None.
Qed.

(** C7. [validateTombstone] accepts a declaration exactly when its kind,
    apiVersion and metadata.name are non-empty and its labels hold the
    ownership label with the expected value, and returns an error otherwise.
    [LoadTombstones] propagates that error: the first invalid declaration of
    a walk that went well so far is returned wrapped, any invalid declaration
    in a tombstone file makes the load fail, and every [TombstoneMetadata] of
    a successful load comes from a valid declaration. *)
Theorem validateTombstone_exact_and_propagated :
  (∀ obj path, validateTombstone obj path = None ↔ wellFormedTombstone obj) ∧
  (∀ obj path, ¬ wellFormedTombstone obj → ∃ err, validateTombstone obj path = Some err) ∧
  (∀ l pre post path data valid obj rest tombstones err,
     Walk (fs l) TombstonesDir = pre ++ WalkFile path :: post →
     WalkDir pre (walkFn l) [] = (tombstones, None) →
     isTombstoneFile path →
     ReadFile (fs l) path = Ok data →
     ParseMultiYAML data = Ok (valid ++ obj :: rest) →
     Forall wellFormedTombstone valid →
     validateTombstone obj path = Some err →
     LoadTombstones l = Err (fmt.Errorf "failed to load tombstones: %w" [ArgW err])) ∧
  (∀ l path data objects obj,
     WalkFile path ∈ Walk (fs l) TombstonesDir →
     isTombstoneFile path →
     ReadFile (fs l) path = Ok data →
     ParseMultiYAML data = Ok objects →
     obj ∈ objects →
     ¬ wellFormedTombstone obj →
     ∃ err, LoadTombstones l = Err err) ∧
  (∀ l tombstones,
     LoadTombstones l = Ok tombstones →
     Forall (λ ts, wellFormedTombstone (TsObject ts)) tombstones).
Proof.
  split; [apply validateTombstone_None_iff|].
  split; [apply validateTombstone_rejects|].
  split; [|split].
  - intros l pre post path data valid obj rest tombstones err
           Hwalk Hpre Hsuffix Hread Hparse Hvalid Herr.
    unfold LoadTombstones. rewrite Hwalk, (WalkDir_app _ _ _ _ _ Hpre), WalkDir_cons.
    rewrite (walkFn_file _ _ _ _ _ Hsuffix Hread Hparse).
    by rewrite (processObjects_first_invalid _ _ _ _ _ _ Hvalid Herr).
  - intros l path data objects obj Hin Hsuffix Hread Hparse Hobj Hbad.
    unfold LoadTombstones.
    destruct (WalkDir_fails (Walk (fs l) TombstonesDir) (WalkFile path) (walkFn l) []
                Hin) as [err Herr].
    { intros a. rewrite (walkFn_file _ _ _ _ _ Hsuffix Hread Hparse).
      by eapply processObjects_invalid. }
    destruct (WalkDir _ _ _) as [acc [e|]]; simpl in Herr; [by eexists|discriminate].
  - intros l tombstones. unfold LoadTombstones.
    destruct (WalkDir _ _ _) as [acc [e|]] eqn:Hw; [discriminate|].
    intros [= <-]. eapply WalkDir_walkFn_None; [exact Hw|constructor].
Qed.

End Tombstones.

(** ** Tombstone reconciliation: [reconcileTombstone] *)

Section Reconcile.
Import assets engine.
Context {St : Type} `{Client St}.

(** The safety check of [reconcileTombstone] fires exactly on the live objects
    that do not carry the ownership label with the expected value. *)
Lemma label_check (live : Unstructured) :
  match unstructured.GetLabels live with None => true | Some _ => false end
  || negb (String.eqb (index (unstructured.GetLabels live) TombstoneLabel)
                      TombstoneLabelValue) = false
  ↔ ownedByAutopilot live.
Proof.
  unfold ownedByAutopilot.
  destruct (unstructured.GetLabels live) as [labels|]; simpl;
    [|split; [discriminate|by intros (? & ? & _)]].
  destruct (String.eqb_spec (default "" (labels !! TombstoneLabel)) TombstoneLabelValue)
    as [Hl|Hl]; simpl.
  - split; [|done]. intros _. exists labels. split; [done|].
    destruct (labels !! TombstoneLabel) as [v|]; simpl in Hl; [by subst|].
    vm_compute in Hl. discriminate.
  - split; [discriminate|]. intros (labels' & [= <-] & Hv).
    rewrite Hv in Hl. by simpl in Hl.
Qed.

(** C1. When the live object of a tombstone exists but its labels miss the
    ownership key or map it to another value, [reconcileTombstone] returns
    [(false, nil)]: it made the [Get] call and no [Delete] call, the server is
    as it was, so the live object is still there, and the status written is
    Skipped. *)
Theorem reconcileTombstone_label_mismatch (r : TombstoneReconciler)
    (ts : TombstoneMetadata) (hco live : Unstructured) (w : World St) :
  Get (server w) (GVK ts) (keyOf ts) = Ok live →
  (∀ labels, unstructured.GetLabels live = Some labels →
             labels !! TombstoneLabel ≠ Some TombstoneLabelValue) →
  ∃ w',
    reconcileTombstone r ts hco w = ((false, None), w') ∧
    w' = afterSkip r ts hco w ∧
    server w' = server w ∧
    calls w' = calls w ++ [CallGet (GVK ts) (keyOf ts)] ∧
    deleteCalls (calls w') = deleteCalls (calls w) ∧
    Get (server w') (GVK ts) (keyOf ts) = Ok live.
Proof.
  intros Hget Hlabel.
  assert (Hcheck :
    match unstructured.GetLabels live with None => true | Some _ => false end
    || negb (String.eqb (index (unstructured.GetLabels live) TombstoneLabel)
                        TombstoneLabelValue) = true).
  { apply not_false_is_true. intros Hc. apply label_check in Hc as (labels & Hl & Hv).
    by apply (Hlabel labels). }
  exists (afterSkip r ts hco w).
  assert (Hrun : reconcileTombstone r ts hco w = ((false, None), afterSkip r ts hco w)).
  { unfold reconcileTombstone, bind, clientGet, afterSkip, keyOf in *.
    rewrite Hget, Hcheck. unfold SetTombstoneStatus, record, ret. simpl.
    destruct (eventRecorder r); simpl; [reflexivity|].
    by rewrite app_nil_r. }
  repeat split; try done.
  simpl. unfold deleteCalls. rewrite List.filter_app. simpl. by rewrite app_nil_r.
Qed.

(** C8. When the fetch of the live object returns NotFound,
    [reconcileTombstone] succeeds: it records the status Deleted, makes no
    [Delete] call, leaves the server as it was and returns no error; run again
    on the resulting world it does the same. *)
Theorem reconcileTombstone_not_found (r : TombstoneReconciler)
    (ts : TombstoneMetadata) (hco : Unstructured) (w : World St) (err : error) :
  Get (server w) (GVK ts) (keyOf ts) = Err err →
  IsNotFound err = true →
  reconcileTombstone r ts hco w = ((false, None), afterNotFound ts w) ∧
  metrics (afterNotFound ts w) = metrics w ++ [(TsObject ts, TombstoneDeleted)] ∧
  deleteCalls (calls (afterNotFound ts w)) = deleteCalls (calls w) ∧
  server (afterNotFound ts w) = server w ∧
  reconcileTombstone r ts hco (afterNotFound ts w)
  = ((false, None), afterNotFound ts (afterNotFound ts w)).
Proof.
  intros Hget Hnf.
  assert (Hrun : ∀ w0, server w0 = server w →
            reconcileTombstone r ts hco w0 = ((false, None), afterNotFound ts w0)).
  { intros w0 Hs. unfold reconcileTombstone, bind, clientGet, afterNotFound, keyOf in *.
    rewrite Hs, Hget, Hnf. reflexivity. }
  repeat split.
  - by apply Hrun.
  - simpl. unfold deleteCalls. rewrite List.filter_app. simpl. by rewrite app_nil_r.
  - by apply Hrun.
Qed.

(** ** The batch: [ReconcileTombstones] *)

Lemma errorsOf_length (outcomes : list (bool * option error)) :
  Z.of_nat (length (errorsOf outcomes)) = countFailed outcomes.
Proof.
  unfold countFailed.
  induction outcomes as [|[deleted [err|]] rest IH]; [reflexivity| |exact IH].
  change (Z.of_nat (S (length (errorsOf rest)))
          = Z.of_nat (S (length (List.filter isFailed rest)))).
  lia.
Qed.

Lemma countDeleted_cons (o : bool * option error) (rest : list (bool * option error)) :
  countDeleted (o :: rest) = (if isDeleted o then 1 else 0) + countDeleted rest.
Proof.
  unfold countDeleted. cbn [List.filter].
  destruct (isDeleted o); cbn [length]; lia.
Qed.

Lemma reconcileEach_length (r : TombstoneReconciler) (hco : Unstructured)
    (tombstones : list TombstoneMetadata) (w : World St) :
  length (fst (reconcileEach r hco tombstones w)) = length tombstones.
Proof.
  revert w. induction tombstones as [|ts rest IH]; intros w; [reflexivity|].
  simpl. unfold bind.
  destruct (reconcileTombstone r ts hco w) as [o w1].
  specialize (IH w1). destruct (reconcileEach r hco rest w1) as [os w2].
  simpl in *. by rewrite IH.
Qed.

(** The loop with its two variables computes what reconciling each tombstone
    in turn gives: nothing is skipped after a failure. *)
Lemma processTombstones_reconcileEach (r : TombstoneReconciler) (hco : Unstructured)
    (tombstones : list TombstoneMetadata) (deletedCount : Z)
    (aggregatedErrors : list error) (w : World St) :
  processTombstones r hco tombstones deletedCount aggregatedErrors w
  = ((deletedCount + countDeleted (fst (reconcileEach r hco tombstones w)),
      aggregatedErrors ++ errorsOf (fst (reconcileEach r hco tombstones w))),
     snd (reconcileEach r hco tombstones w)).
Proof.
  revert deletedCount aggregatedErrors w.
  induction tombstones as [|ts rest IH]; intros deletedCount aggregatedErrors w.
  - simpl. unfold ret. simpl. rewrite app_nil_r. f_equal. f_equal.
    unfold countDeleted. simpl. lia.
  - simpl. unfold bind.
    destruct (reconcileTombstone r ts hco w) as [[deleted err] w1].
    destruct err as [err|]; [|destruct deleted]; rewrite IH;
      destruct (reconcileEach r hco rest w1) as [os w2]; unfold ret;
      cbn [fst snd errorsOf]; rewrite countDeleted_cons.
    + rewrite <- app_assoc. destruct deleted; reflexivity.
    + cbn [isDeleted]. f_equal. f_equal. lia.
    + reflexivity.
Qed.

End Reconcile.

Section Batch.
Import assets engine.
Context {St : Type} `{Client St} `{YAML}.

(** C9. [ReconcileTombstones] reconciles every loaded tombstone in turn,
    whether or not earlier ones failed: the count it returns is the number of
    tombstones that were deleted, the error is the one aggregated error for
    the failures, and nil when there was none. *)
Theorem ReconcileTombstones_best_effort (r : TombstoneReconciler) (hco : Unstructured)
    (tombstones : list TombstoneMetadata) (w : World St) :
  LoadTombstones (loader r) = Ok tombstones →
  let outcomes := fst (reconcileEach r hco tombstones w) in
  ReconcileTombstones r hco w
  = ((countDeleted outcomes, aggregated (countFailed outcomes)),
     snd (reconcileEach r hco tombstones w)) ∧
  length outcomes = length tombstones ∧
  (countFailed outcomes = 0 → snd (fst (ReconcileTombstones r hco w)) = None) ∧
  (0 < countFailed outcomes →
   snd (fst (ReconcileTombstones r hco w))
   = Some (errorString
             ("tombstone processing completed with " +:+ pretty (countFailed outcomes)
              +:+ " errors (see logs for details)"))).
Proof.
  intros Hload outcomes.
  assert (Hrun : ReconcileTombstones r hco w
                 = ((countDeleted outcomes, aggregated (countFailed outcomes)),
                    snd (reconcileEach r hco tombstones w))).
  { unfold ReconcileTombstones. rewrite Hload.
    destruct tombstones as [|ts rest]; [reflexivity|].
    change (Z.of_nat (length (ts :: rest)) =? 0) with false. cbv iota.
    unfold bind. rewrite processTombstones_reconcileEach.
    fold outcomes. rewrite app_nil_l, errorsOf_length, Z.add_0_l.
    unfold aggregated, ret. by destruct (countFailed outcomes >? 0). }
  split; [exact Hrun|]. split; [apply reconcileEach_length|].
  rewrite Hrun. unfold aggregated. simpl.
  split; intros Hn.
  - by rewrite Hn.
  - destruct (Z.gtb_spec (countFailed outcomes) 0); [reflexivity|lia].
Qed.

End Batch.

(** ** The unit tests of the reconciler, on the fake client *)

(** The live ConfigMap has no labels: the tombstone is skipped and the
    ConfigMap is still there. *)
Lemma reconcileTombstone_label_mismatch_unlabeled :
  ∃ w',
    engine.reconcileTombstone (fixtures.reconciler fixtures.noFiles) fixtures.tombstone
      fixtures.hco (fixtures.emptyWorld (fixtures.mkFakeServer [fixtures.unlabeled] []))
    = ((false, None), w') ∧
    w' = afterSkip (fixtures.reconciler fixtures.noFiles) fixtures.tombstone fixtures.hco
           (fixtures.emptyWorld (fixtures.mkFakeServer [fixtures.unlabeled] [])) ∧
    server w' = fixtures.mkFakeServer [fixtures.unlabeled] [] ∧
    calls w' = [] ++ [CallGet (mkGVK "" "v1" "ConfigMap") (mkObjectKey "default" "test-config")] ∧
    deleteCalls (calls w') = deleteCalls [] ∧
    Get (server w') (mkGVK "" "v1" "ConfigMap") (mkObjectKey "default" "test-config")
    = Ok fixtures.unlabeled.
Proof.
  apply (reconcileTombstone_label_mismatch
           (fixtures.reconciler fixtures.noFiles) fixtures.tombstone fixtures.hco
           fixtures.unlabeled
           (fixtures.emptyWorld (fixtures.mkFakeServer [fixtures.unlabeled] []))).
  - vm_compute. reflexivity.
  - intros labels Hl. vm_compute in Hl. discriminate.
Defined.

(** The same with a foreign value of the ownership label, and the deletion of
    an owned ConfigMap, by evaluation. *)
Example reconcileTombstone_cases :
  let r := fixtures.reconciler fixtures.noFiles in
  let get := CallGet (mkGVK "" "v1" "ConfigMap") (mkObjectKey "default" "test-config") in
  let skipped := EventTombstoneSkipped "ConfigMap" "default" "test-config"
                   "Label mismatch - resource not managed by virt-platform-autopilot" in
  engine.reconcileTombstone r fixtures.tombstone fixtures.hco
    (fixtures.emptyWorld (fixtures.mkFakeServer [fixtures.foreign] []))
  = ((false, None),
     mkWorld (fixtures.mkFakeServer [fixtures.foreign] []) [get]
       [(assets.TsObject fixtures.tombstone, TombstoneSkipped)]
       [(fixtures.hco, skipped)]) ∧
  engine.reconcileTombstone r fixtures.tombstone fixtures.hco
    (fixtures.emptyWorld (fixtures.mkFakeServer [fixtures.owned "test-config"] []))
  = ((true, None),
     mkWorld (fixtures.mkFakeServer [] []) [get; CallDelete (fixtures.owned "test-config")]
       [(assets.TsObject fixtures.tombstone, TombstoneDeleted)]
       [(fixtures.hco,
         EventTombstoneDeleted "ConfigMap" "default" "test-config" "test.yaml")]).
Proof. vm_compute. split; reflexivity. Qed.

(** Nothing is stored under the key of the tombstone: the fetch is NotFound
    and the reconciliation succeeds without a [Delete]. *)
Lemma reconcileTombstone_not_found_empty_server :
  let r := fixtures.reconciler fixtures.noFiles in
  let w := fixtures.emptyWorld (fixtures.mkFakeServer [] []) in
  engine.reconcileTombstone r fixtures.tombstone fixtures.hco w
  = ((false, None), afterNotFound fixtures.tombstone w) ∧
  metrics (afterNotFound fixtures.tombstone w)
  = metrics w ++ [(assets.TsObject fixtures.tombstone, TombstoneDeleted)] ∧
  deleteCalls (calls (afterNotFound fixtures.tombstone w)) = deleteCalls (calls w) ∧
  server (afterNotFound fixtures.tombstone w) = server w ∧
  engine.reconcileTombstone r fixtures.tombstone fixtures.hco
    (afterNotFound fixtures.tombstone w)
  = ((false, None), afterNotFound fixtures.tombstone (afterNotFound fixtures.tombstone w)).
Proof.
  intros r w.
  apply (reconcileTombstone_not_found r fixtures.tombstone fixtures.hco w
           (StatusError StatusReasonNotFound "not found")).
  - vm_compute. reflexivity.
  - reflexivity.
Defined.

(** Two tombstones; the server refuses to delete the first ConfigMap and
    deletes the second: the batch goes on after the failure, counts one
    deletion and reports one aggregated error. *)
Lemma ReconcileTombstones_best_effort_two :
  let yaml := fixtures.twoDocs in
  let r := fixtures.reconciler fixtures.twoFiles in
  let tombstones :=
    [metadataOf "tombstones/first.yaml" (fixtures.owned "first");
     metadataOf "tombstones/second.yaml" (fixtures.owned "second")] in
  let w := fixtures.emptyWorld
             (fixtures.mkFakeServer [fixtures.owned "first"; fixtures.owned "second"]
                                    ["first"]) in
  let outcomes := fst (reconcileEach r fixtures.hco tombstones w) in
  engine.ReconcileTombstones r fixtures.hco w
  = ((countDeleted outcomes, aggregated (countFailed outcomes)),
     snd (reconcileEach r fixtures.hco tombstones w)) ∧
  length outcomes = length tombstones ∧
  (countFailed outcomes = 0 →
   snd (fst (engine.ReconcileTombstones r fixtures.hco w)) = None) ∧
  (0 < countFailed outcomes →
   snd (fst (engine.ReconcileTombstones r fixtures.hco w))
   = Some (errorString
             ("tombstone processing completed with " +:+ pretty (countFailed outcomes)
              +:+ " errors (see logs for details)"))).
Proof.
  intros yaml r tombstones w.
  apply (ReconcileTombstones_best_effort r fixtures.hco tombstones w).
  vm_compute. reflexivity.
Defined.

Example ReconcileTombstones_two_result :
  let yaml := fixtures.twoDocs in
  let w := fixtures.emptyWorld
             (fixtures.mkFakeServer [fixtures.owned "first"; fixtures.owned "second"]
                                    ["first"]) in
  let '(result_, w') :=
    engine.ReconcileTombstones (fixtures.reconciler fixtures.twoFiles) fixtures.hco w in
  result_ = (1, Some (errorString
                        "tombstone processing completed with 1 errors (see logs for details)")) ∧
  server w' = fixtures.mkFakeServer [fixtures.owned "first"] ["first"] ∧
  deleteCalls (calls w')
  = [CallDelete (fixtures.owned "first"); CallDelete (fixtures.owned "second")] ∧
  map snd (metrics w') = [TombstoneError; TombstoneDeleted].
Proof. vm_compute. repeat split; reflexivity. Qed.

(** ** The unit tests of the tombstone loader *)

(** The declarations of the tests: the valid one, and the ones missing the
    kind, the apiVersion, the name, the label, or carrying a wrong label
    value. *)
Example validateTombstone_cases :
  let label := Some [(assets.TombstoneLabel, assets.TombstoneLabelValue)] in
  assets.validateTombstone
    (fixtures.newObject "v1" "ConfigMap" "" "test-config" label None) "test.yaml" = None ∧
  assets.validateTombstone
    (fixtures.newObject "v1" "" "" "test-config" label None) "test.yaml"
  = Some (errorString "tombstone test.yaml missing required field: kind") ∧
  assets.validateTombstone
    (fixtures.newObject "" "ConfigMap" "" "test-config" label None) "test.yaml"
  = Some (errorString "tombstone test.yaml missing required field: apiVersion") ∧
  assets.validateTombstone
    (fixtures.newObject "v1" "ConfigMap" "" "" label None) "test.yaml"
  = Some (errorString "tombstone test.yaml missing required field: metadata.name") ∧
  assets.validateTombstone
    (fixtures.newObject "v1" "ConfigMap" "" "test-config" None None) "test.yaml"
  = Some (errorString
            "tombstone test.yaml missing required label platform.kubevirt.io/managed-by=virt-platform-autopilot (safety check)") ∧
  assets.validateTombstone fixtures.foreign "test.yaml"
  = Some (errorString
            "tombstone test.yaml has incorrect label value for platform.kubevirt.io/managed-by: expected virt-platform-autopilot, got wrong-value (safety check)").
Proof. vm_compute. repeat split; reflexivity. Qed.

(** Loading: a missing tombstones directory gives the empty list; two valid
    files give their metadata; a file whose declaration lacks the label makes
    the whole load fail with the validation error wrapped, and no metadata. *)
Example LoadTombstones_cases :
  let yaml := fixtures.tableYAML
                [("first", fixtures.owned "first"); ("second", fixtures.owned "second");
                 ("bad", fixtures.unlabeled)] in
  let missing :=
    mkLoader (mkFS (λ root, [WalkErr root (errorString "open tombstones: file does not exist")])
                   (λ _, Err (errorString "file does not exist"))) in
  let mixed :=
    mkLoader (fixtures.filesFS [("tombstones/.gitkeep", "");
                                ("tombstones/first.yaml", "first");
                                ("tombstones/second.yaml", "bad")]) in
  assets.LoadTombstones missing = Ok [] ∧
  assets.LoadTombstones fixtures.twoFiles
  = Ok [metadataOf "tombstones/first.yaml" (fixtures.owned "first");
        metadataOf "tombstones/second.yaml" (fixtures.owned "second")] ∧
  assets.LoadTombstones mixed
  = Err (wrapError
           "failed to load tombstones: tombstone tombstones/second.yaml missing required label platform.kubevirt.io/managed-by=virt-platform-autopilot (safety check)"
           (errorString
              "tombstone tombstones/second.yaml missing required label platform.kubevirt.io/managed-by=virt-platform-autopilot (safety check)")).
Proof. vm_compute. repeat split; reflexivity. Qed.

(** * Further properties *)

(** ** Root exclusion: the parsed keys and the filter *)

Section ExclusionMore.
Import exclusion.

Lemma addPair_lookup (m : gmap string bool) (pair key : string) :
  is_Some (addPair m pair !! key) ↔
  is_Some (m !! key) ∨ (key ≠ "" ∧ strings.TrimSpace pair = key).
Proof.
  unfold addPair.
  destruct (String.eqb_spec (strings.TrimSpace pair) "") as [He|He]; simpl.
  - split; [by left|]. intros [Hm|[Hne Heq]]; [done|]. congruence.
  - rewrite lookup_insert. case_decide as Hk.
    + split; [|by eauto]. intros _. right. split; [congruence|done].
    + split; [by left|]. intros [Hm|[_ Heq]]; [done|congruence].
Qed.

Lemma fold_addPair_lookup (pairs : list string) (m : gmap string bool) (key : string) :
  is_Some (fold_left addPair pairs m !! key) ↔
  is_Some (m !! key) ∨
  (key ≠ "" ∧ ∃ pair, pair ∈ pairs ∧ strings.TrimSpace pair = key).
Proof.
  revert m. induction pairs as [|pair pairs IH]; intros m; simpl.
  - split; [by left|]. intros [Hm|(_ & pair & Hin & _)]; [done|].
    by apply elem_of_nil in Hin.
  - rewrite IH, addPair_lookup. split.
    + intros [[Hm|[Hne Heq]]|(Hne & p & Hin & Heq)].
      * by left.
      * right. split; [done|]. exists pair. split; [apply elem_of_cons; by left|done].
      * right. split; [done|]. exists p. split; [apply elem_of_cons; by right|done].
    + intros [Hm|(Hne & p & Hin & Heq)]; [by left; left|].
      apply elem_of_cons in Hin as [->|Hin].
      * left. right. done.
      * right. split; [done|]. by exists p.
Qed.

Lemma ParseDisabledResources_fold (annotation : string) :
  ParseDisabledResources annotation
  = fold_left addPair (strings.Split annotation ",") ∅.
Proof.
  unfold ParseDisabledResources.
  destruct (String.eqb_spec annotation "") as [->|Hne]; reflexivity.
Qed.


Lemma lookupBool_size_zero (m : gmap string bool) (key : string) :
  (Z.of_nat (size m) =? 0) = true → lookupBool m key = false.
Proof.
  intros Hsz%Z.eqb_eq. assert (m = ∅) as -> by (apply map_size_empty_iff; lia).
  unfold lookupBool. by rewrite lookup_empty.
Qed.

Lemma IsResourceExcluded_lookupBool (kind name : string) (m : gmap string bool) :
  IsResourceExcluded kind name m = lookupBool m (resourceKey kind name).
Proof.
  unfold IsResourceExcluded.
  destruct (Z.of_nat (size m) =? 0) eqn:Hsz; [|reflexivity].
  by rewrite lookupBool_size_zero.
Qed.

(** X2. [FilterExcludedAssets] keeps exactly the assets that
    [IsResourceExcluded] does not exclude, in their order, for every map. *)
Theorem FilterExcludedAssets_keeps_not_excluded (assets : list Unstructured)
    (disabledMap : gmap string bool) :
  FilterExcludedAssets assets disabledMap
  = List.filter
      (λ asset, negb (IsResourceExcluded (unstructured.GetKind asset)
                                         (unstructured.GetName asset) disabledMap))
      assets.
Proof.
  unfold FilterExcludedAssets.
  destruct (Z.of_nat (size disabledMap) =? 0) eqn:Hsz.
  - induction assets as [|a rest IH]; [reflexivity|]. simpl.
    rewrite IsResourceExcluded_lookupBool, (lookupBool_size_zero _ _ Hsz). simpl.
    by rewrite <- IH.
  - induction assets as [|a rest IH]; [reflexivity|].
    rewrite filter_cons. cbn [List.filter].
    rewrite IsResourceExcluded_lookupBool, <- IH.
    case_decide as Hl; rewrite Hl || (apply not_false_is_true in Hl; rewrite Hl);
      reflexivity.
Qed.

End ExclusionMore.

Section ExclusionOrder.
Import exclusion.

Lemma append_cons (c : ascii) (s t : string) : String c s +:+ t = String c (s +:+ t).
Proof. reflexivity. Qed.

Lemma append_empty_l (t : string) : "" +:+ t = t.
Proof. reflexivity. Qed.

Lemma HasPrefix_empty (s : string) : strings.HasPrefix s "" = true.
Proof. destruct s; reflexivity. Qed.

Lemma splitGo_comma_cons (c : ascii) (s cur : string) :
  strings.splitGo "," (String c s) 0 cur
  = if Ascii.eqb c ","
    then String.rev cur :: strings.splitGo "," s 0 ""
    else strings.splitGo "," s 0 (String c cur).
Proof.
  cbn [strings.splitGo strings.HasPrefix]. rewrite HasPrefix_empty.
  destruct (Ascii.eqb c ","); reflexivity.
Qed.

(** Splitting at commas distributes over joining two lists with a comma. *)
Lemma splitGo_comma_join (a b cur : string) :
  strings.splitGo "," (a +:+ String "," b) 0 cur
  = strings.splitGo "," a 0 cur ++ strings.splitGo "," b 0 "".
Proof.
  revert cur. induction a as [|c a IH]; intros cur.
  - rewrite append_empty_l, splitGo_comma_cons. reflexivity.
  - rewrite append_cons, !splitGo_comma_cons.
    destruct (Ascii.eqb c ","); by rewrite IH.
Qed.

Lemma Split_comma_join (a b : string) :
  strings.Split (a +:+ "," +:+ b) "," = strings.Split a "," ++ strings.Split b ",".
Proof. apply splitGo_comma_join. Qed.

Lemma ParseDisabledResources_join_keys (a b key : string) :
  is_Some (ParseDisabledResources (a +:+ "," +:+ b) !! key) ↔
  is_Some (ParseDisabledResources a !! key) ∨ is_Some (ParseDisabledResources b !! key).
Proof.
  rewrite !ParseDisabledResources_fold, Split_comma_join.
  rewrite (fold_addPair_lookup (strings.Split a "," ++ strings.Split b ",")),
    (fold_addPair_lookup (strings.Split a ",")),
    (fold_addPair_lookup (strings.Split b ",")), lookup_empty.
  split.
  - intros [[? Hn]|(Hne & pair & [Hin|Hin]%elem_of_app & Heq)]; [discriminate|..];
      [left|right]; right; eauto.
  - intros [[[? Hn]|(Hne & pair & Hin & Heq)]|[[? Hn]|(Hne & pair & Hin & Heq)]];
      try discriminate; right; (split; [done|]); exists pair; (split; [|done]);
      apply elem_of_app; eauto.
Qed.

Lemma allTrue_eq (m1 m2 : gmap string bool) :
  allTrue m1 → allTrue m2 →
  (∀ key, is_Some (m1 !! key) ↔ is_Some (m2 !! key)) →
  m1 = m2.
Proof.
  intros H1 H2 Hdom. apply map_eq. intros key.
  destruct (m1 !! key) as [b1|] eqn:E1, (m2 !! key) as [b2|] eqn:E2.
  - by rewrite (H1 _ _ E1), (H2 _ _ E2).
  - destruct (proj1 (Hdom key)) as [? ?]; [by rewrite E1|congruence].
  - destruct (proj2 (Hdom key)) as [? ?]; [by rewrite E2|congruence].
  - reflexivity.
Qed.

(** X3. The order of the entries of the annotation does not matter: joining
    two lists with a comma gives the keys of both, and swapping them gives
    the same map. *)
Theorem ParseDisabledResources_order (a b : string) :
  (∀ key, is_Some (ParseDisabledResources (a +:+ "," +:+ b) !! key) ↔
          is_Some (ParseDisabledResources a !! key) ∨
          is_Some (ParseDisabledResources b !! key)) ∧
  ParseDisabledResources (a +:+ "," +:+ b) = ParseDisabledResources (b +:+ "," +:+ a).
Proof.
  split; [intros key; apply ParseDisabledResources_join_keys|].
  apply allTrue_eq; try apply ParseDisabledResources_allTrue.
  intros key. rewrite !ParseDisabledResources_join_keys. tauto.
Qed.

End ExclusionOrder.

(** ** Override annotations: [ValidateAnnotations] *)

Section Annotations.
Import overrides annotations.
Context `{AnnotationSyntax}.

Lemma index_ok_absent (m : gmap string string) (key : string) :
  m !! key = None → index_ok (Some m) key = ("", false).
Proof. intros Hk. simpl. by rewrite Hk. Qed.

Lemma index_ok_present (m : gmap string string) (key value : string) :
  m !! key = Some value → index_ok (Some m) key = (value, true).
Proof. intros Hk. simpl. by rewrite Hk. Qed.

Lemma validateMode_None (m : gmap string string) :
  validateMode (Some m) = None ↔
  m !! AnnotationMode = None ∨ m !! AnnotationMode = Some "" ∨
  m !! AnnotationMode = Some ModeUnmanaged.
Proof.
  unfold validateMode.
  destruct (m !! AnnotationMode) as [mode|] eqn:Hm.
  - rewrite (index_ok_present _ _ _ Hm).
    destruct (String.eqb_spec mode ModeUnmanaged) as [->|Hu]; simpl.
    + split; [by right; right|done].
    + destruct (String.eqb_spec mode "") as [->|He]; simpl.
      * split; [by right; left|done].
      * split; [discriminate|]. intros [?|[[= ?]|[= ?]]]; congruence.
  - rewrite (index_ok_absent _ _ Hm). split; [by left|done].
Qed.

(** X4. What acceptance by [ValidateAnnotations] guarantees: the object
    passes [ValidatePatchSecurity], so it carries no patch on a sensitive
    kind; a patch or ignore-fields annotation it carries passed its syntax
    check; and its mode annotation is absent, empty or [unmanaged]. *)
Theorem ValidateAnnotations_accepted (obj : Unstructured)
    (annotations : gmap string string) :
  unstructured.GetAnnotations obj = Some annotations →
  ValidateAnnotations (Some obj) = None →
  ValidatePatchSecurity (Some obj) = None ∧
  (∀ patch, annotations !! PatchAnnotation = Some patch →
            ValidateJSONPatch patch = None) ∧
  (∀ pointers, annotations !! AnnotationIgnoreFields = Some pointers →
               ValidatePointers pointers = None) ∧
  (annotations !! AnnotationMode = None ∨ annotations !! AnnotationMode = Some "" ∨
   annotations !! AnnotationMode = Some ModeUnmanaged).
Proof.
  intros Ha. unfold ValidateAnnotations. rewrite Ha.
  destruct (validatePatch obj (Some annotations)) as [e|] eqn:Hp; [discriminate|].
  destruct (validateIgnoreFields (Some annotations)) as [e|] eqn:Hi; [discriminate|].
  intros Hm. apply validateMode_None in Hm.
  split; [|split; [|split; [|exact Hm]]].
  - unfold validatePatch in Hp.
    destruct (annotations !! PatchAnnotation) as [patch|] eqn:Hk.
    + rewrite (index_ok_present _ _ _ Hk) in Hp.
      destruct (ValidateJSONPatch patch); [discriminate|].
      by destruct (ValidatePatchSecurity (Some obj)).
    + destruct (ValidatePatchSecurity (Some obj)) as [e|] eqn:Hs; [|done].
      assert (Hex : ∃ err, ValidatePatchSecurity (Some obj) = Some err) by eauto.
      apply ValidatePatchSecurity_error_iff in Hex as (_ & a & Ha' & [v Hv]).
      congruence.
  - intros patch Hk. unfold validatePatch in Hp.
    rewrite (index_ok_present _ _ _ Hk) in Hp.
    by destruct (ValidateJSONPatch patch).
  - intros pointers Hk. unfold validateIgnoreFields in Hi.
    rewrite (index_ok_present _ _ _ Hk) in Hi.
    by destruct (ValidatePointers pointers).
Qed.

(** X5. A patch annotation on one of the sensitive kinds is always refused
    by [ValidateAnnotations], whatever the syntax checks answer and whatever
    else the object carries. *)
Theorem ValidateAnnotations_sensitive_patch (obj : Unstructured) :
  unstructured.GetKind obj ∈ elevenSensitiveKinds →
  hasAnnotation obj PatchAnnotation →
  ∃ err, ValidateAnnotations (Some obj) = Some err.
Proof.
  intros Hkind Hpatch.
  destruct (ValidateAnnotations (Some obj)) as [err|] eqn:Hv; [by eexists|].
  destruct Hpatch as (a & Ha & Hsome).
  assert (Hsec : ∃ err, ValidatePatchSecurity (Some obj) = Some err).
  { apply ValidatePatchSecurity_error_iff. split; [done|]. by exists a. }
  unfold ValidateAnnotations in Hv. rewrite Ha in Hv.
  destruct Hsome as [patch Hk]. unfold validatePatch in Hv.
  rewrite (index_ok_present _ _ _ Hk) in Hv.
  destruct (ValidateJSONPatch patch); [discriminate|].
  destruct Hsec as [e He]. rewrite He in Hv. discriminate.
Qed.

(** X6. An object that carries none of the three override annotations is
    accepted, whatever other annotations it has and whatever the syntax
    checks would answer. *)
Theorem ValidateAnnotations_no_overrides (obj : Unstructured) :
  ¬ hasAnnotation obj PatchAnnotation →
  ¬ hasAnnotation obj AnnotationIgnoreFields →
  ¬ hasAnnotation obj AnnotationMode →
  ValidateAnnotations (Some obj) = None.
Proof.
  intros Hp Hi Hm. unfold ValidateAnnotations.
  destruct (unstructured.GetAnnotations obj) as [a|] eqn:Ha; [|reflexivity].
  assert (Hnone : ∀ key, ¬ hasAnnotation obj key → a !! key = None).
  { intros key Hno. destruct (a !! key) as [v|] eqn:Hk; [|done].
    exfalso. apply Hno. exists a. split; [done|]. by eexists. }
  unfold validatePatch, validateIgnoreFields, validateMode.
  by rewrite (index_ok_absent _ _ (Hnone _ Hp)), (index_ok_absent _ _ (Hnone _ Hi)),
       (index_ok_absent _ _ (Hnone _ Hm)).
Qed.

End Annotations.

(** ** Depth of a decoded structure *)

Lemma maxDepth_bounds {A : Type} (depthOf : A → Z) (entries : list A) (start : Z) :
  start ≤ fold_left (λ maxDepth entry, assets.maxStep maxDepth (depthOf entry))
            entries start ∧
  ∀ entry, entry ∈ entries →
    depthOf entry ≤ fold_left (λ maxDepth entry, assets.maxStep maxDepth (depthOf entry))
                      entries start.
Proof.
  revert start. induction entries as [|x rest IH]; intros start; simpl.
  - split; [lia|]. intros entry Hin. by apply elem_of_nil in Hin.
  - destruct (IH (assets.maxStep start (depthOf x))) as [Hstart Hall].
    rewrite maxStep_max in *. split; [lia|].
    intros entry [->|Hin]%elem_of_cons; [lia|by apply Hall].
Qed.

Lemma maxDepth_attained {A : Type} (depthOf : A → Z) (entries : list A) (start : Z) :
  fold_left (λ maxDepth entry, assets.maxStep maxDepth (depthOf entry)) entries start
  = start ∨
  ∃ entry, entry ∈ entries ∧
    fold_left (λ maxDepth entry, assets.maxStep maxDepth (depthOf entry)) entries start
    = depthOf entry.
Proof.
  revert start. induction entries as [|x rest IH]; intros start; simpl; [by left|].
  destruct (IH (assets.maxStep start (depthOf x))) as [Heq|(entry & Hin & Heq)].
  - rewrite Heq, maxStep_max.
    destruct (Z.max_spec start (depthOf x)) as [[_ ->]|[_ ->]]; [right|by left].
    exists x. split; [apply elem_of_cons; by left|done].
  - right. exists entry. split; [apply elem_of_cons; by right|done].
Qed.

(** X7. A container is exactly one level deeper than its deepest child: an
    empty map or slice has depth 1, every child is strictly shallower than
    its parent, and a non-empty container has a child one level below it. *)
Theorem calculateDepth_children :
  assets.calculateDepth (VMap []) = 1 ∧
  assets.calculateDepth (VSlice []) = 1 ∧
  (∀ entries key child, (key, child) ∈ entries →
     assets.calculateDepth child < assets.calculateDepth (VMap entries)) ∧
  (∀ items child, child ∈ items →
     assets.calculateDepth child < assets.calculateDepth (VSlice items)) ∧
  (∀ entries, entries ≠ [] →
     ∃ key child, (key, child) ∈ entries ∧
       assets.calculateDepth (VMap entries) = 1 + assets.calculateDepth child) ∧
  (∀ items, items ≠ [] →
     ∃ child, child ∈ items ∧
       assets.calculateDepth (VSlice items) = 1 + assets.calculateDepth child).
Proof.
  split; [reflexivity|]. split; [reflexivity|].
  split; [|split; [|split]].
  - intros entries key child Hin. simpl.
    pose proof (proj2 (maxDepth_bounds (λ e : string * Any, assets.calculateDepth (snd e))
                         entries 0) _ Hin) as Hle.
    simpl in Hle. lia.
  - intros items child Hin. simpl.
    pose proof (proj2 (maxDepth_bounds assets.calculateDepth items 0) _ Hin). lia.
  - intros entries Hne. simpl.
    destruct (maxDepth_attained (λ e : string * Any, assets.calculateDepth (snd e))
                entries 0) as [Hz|([key child] & Hin & Heq)].
    + destruct entries as [|[key child] rest]; [done|].
      pose proof (proj2 (maxDepth_bounds
                           (λ e : string * Any, assets.calculateDepth (snd e))
                           ((key, child) :: rest) 0) (key, child)
                        ltac:(apply elem_of_cons; by left)) as Hle.
      pose proof (calculateDepth_positive child). simpl in Hle, Hz. lia.
    + exists key, child. split; [done|]. by rewrite Heq.
  - intros items Hne. simpl.
    destruct (maxDepth_attained assets.calculateDepth items 0)
      as [Hz|(child & Hin & Heq)].
    + destruct items as [|child rest]; [done|].
      pose proof (proj2 (maxDepth_bounds assets.calculateDepth (child :: rest) 0) child
                        ltac:(apply elem_of_cons; by left)) as Hle.
      pose proof (calculateDepth_positive child). simpl in Hle, Hz. lia.
    + exists child. split; [done|]. by rewrite Heq.
Qed.

(** ** Parsing documents *)

Section Parsing.
Import assets.
Context `{YAML}.

(** X8. [ParseYAML] accepts exactly the documents of at most [MaxYAMLSize]
    bytes that the decoder accepts with a structure of depth at most
    [MaxYAMLDepth], both bounds included, and returns the decoder's object as
    it is. *)
Theorem ParseYAML_accepts_exactly (data : string) (obj : Unstructured) :
  ParseYAML data = Ok obj ↔
  Z.of_nat (String.length data) ≤ 10485760 ∧
  Unmarshal data = Ok obj ∧
  calculateDepth (VMap (Object obj)) ≤ 100.
Proof.
  split.
  - intros (Hlen & Hdepth & Hobj)%ParseYAML_Ok. done.
  - intros (Hlen & Hobj & Hdepth). unfold ParseYAML.
    destruct (Z.gtb_spec (Z.of_nat (String.length data)) MaxYAMLSize) as [Hgt|_];
      [unfold MaxYAMLSize in Hgt; lia|].
    rewrite Hobj.
    destruct (Z.gtb_spec (calculateDepth (VMap (Object obj))) MaxYAMLDepth) as [Hgt|_];
      [unfold MaxYAMLDepth in Hgt; lia|].
    reflexivity.
Qed.

Lemma nonBlank_cons (doc : string) (docs : list string) :
  nonBlank (doc :: docs)
  = if String.eqb (strings.TrimSpace doc) "" then nonBlank docs else doc :: nonBlank docs.
Proof. unfold nonBlank. simpl. by destruct (String.eqb (strings.TrimSpace doc) ""). Qed.

Lemma parseDocs_Ok (docs : list string) (i : Z) (objects parsed : list Unstructured) :
  parseDocs docs i objects = Ok parsed ↔
  ∃ more, parsed = objects ++ more ∧
          Forall2 (λ doc obj, ParseYAML (strings.TrimSpace doc) = Ok obj)
                  (nonBlank docs) more.
Proof.
  revert i objects. induction docs as [|doc rest IH]; intros i objects.
  - simpl. split.
    + intros [= <-]. exists []. split; [by rewrite app_nil_r|constructor].
    + intros (more & -> & Hall). apply Forall2_nil_inv_l in Hall as ->.
      by rewrite app_nil_r.
  - cbn [parseDocs]. rewrite nonBlank_cons.
    destruct (String.eqb (strings.TrimSpace doc) ""); [apply IH|].
    destruct (ParseYAML (strings.TrimSpace doc)) as [obj|err] eqn:Hp.
    + rewrite IH. split.
      * intros (more & -> & Hall). exists (obj :: more).
        split; [by rewrite <- app_assoc|]. by constructor.
      * intros (more & -> & Hall).
        apply Forall2_cons_inv_l in Hall as (obj' & more' & Hobj & Hall & ->).
        rewrite Hp in Hobj. injection Hobj as <-.
        exists more'. split; [by rewrite <- app_assoc|done].
    + split; [discriminate|]. intros (more & _ & Hall).
      apply Forall2_cons_inv_l in Hall as (obj' & more' & Hobj & _ & _).
      rewrite Hp in Hobj. discriminate.
Qed.

(** X9. [ParseMultiYAML] succeeds exactly when the input is within the size
    bound and every document that is not blank parses; the objects are then
    those of the non-blank documents, one each and in order, so a blank
    document is skipped and one bad document fails the whole input. *)
Theorem ParseMultiYAML_documents (data : string) (objects : list Unstructured) :
  ParseMultiYAML data = Ok objects ↔
  Z.of_nat (String.length data) ≤ MaxYAMLSize ∧
  Forall2 (λ doc obj, ParseYAML (strings.TrimSpace doc) = Ok obj)
          (nonBlank (strings.Split data documentSeparator)) objects.
Proof.
  unfold ParseMultiYAML. fold documentSeparator.
  destruct (Z.gtb_spec (Z.of_nat (String.length data)) MaxYAMLSize) as [Hgt|Hle].
  - split; [discriminate|]. intros [Hlen _]. lia.
  - rewrite parseDocs_Ok. split.
    + intros (more & -> & Hall). done.
    + intros [_ Hall]. by exists objects.
Qed.

Lemma parseDocs_first_error (pre rest : list string) (doc : string) (i : Z)
    (objects parsed : list Unstructured) (err : error) :
  Forall2 (λ doc obj, ParseYAML (strings.TrimSpace doc) = Ok obj) (nonBlank pre) parsed →
  strings.TrimSpace doc ≠ "" →
  ParseYAML (strings.TrimSpace doc) = Err err →
  parseDocs (pre ++ doc :: rest) i objects
  = Err (fmt.Errorf "failed to parse document %d: %w"
                    [ArgD (i + Z.of_nat (length pre)); ArgW err]).
Proof.
  revert i objects parsed. induction pre as [|d pre IH]; intros i objects parsed Hpre Hne Herr.
  - cbn [app parseDocs length]. apply String.eqb_neq in Hne. rewrite Hne, Herr.
    by rewrite Z.add_0_r.
  - cbn [app parseDocs]. rewrite nonBlank_cons in Hpre.
    replace (i + Z.of_nat (length (d :: pre))) with ((i + 1) + Z.of_nat (length pre))
      by (cbn [length]; lia).
    destruct (String.eqb (strings.TrimSpace d) ""); [by eapply IH|].
    apply Forall2_cons_inv_l in Hpre as (obj & parsed' & Hobj & Hpre & ->).
    rewrite Hobj. by eapply IH.
Qed.

(** X10. The error of [ParseMultiYAML] names the first document that fails by
    its position among all the documents of the input, the blank ones
    included, starting at 0, and wraps the error of [ParseYAML]. *)
Theorem ParseMultiYAML_error_index (data doc : string) (pre rest : list string)
    (parsed : list Unstructured) (err : error) :
  Z.of_nat (String.length data) ≤ MaxYAMLSize →
  strings.Split data documentSeparator = pre ++ doc :: rest →
  Forall2 (λ doc obj, ParseYAML (strings.TrimSpace doc) = Ok obj) (nonBlank pre) parsed →
  strings.TrimSpace doc ≠ "" →
  ParseYAML (strings.TrimSpace doc) = Err err →
  ParseMultiYAML data
  = Err (fmt.Errorf "failed to parse document %d: %w"
                    [ArgD (Z.of_nat (length pre)); ArgW err]).
Proof.
  intros Hlen Hsplit Hpre Hne Herr. unfold ParseMultiYAML. fold documentSeparator.
  destruct (Z.gtb_spec (Z.of_nat (String.length data)) MaxYAMLSize) as [Hgt|_]; [lia|].
  rewrite Hsplit, (parseDocs_first_error _ _ _ _ _ _ _ Hpre Hne Herr).
  by rewrite Z.add_0_l.
Qed.

End Parsing.

(** ** Loading tombstones *)

Section Loading.
Import assets.
Context `{YAML}.

Lemma walkFn_passedOver (l : Loader) (entry : WalkEntry)
    (tombstones : list TombstoneMetadata) :
  passedOver entry = true → walkFn l tombstones entry = (tombstones, None).
Proof.
  destruct entry as [path err|path|path]; simpl; intros Hp; by rewrite ?Hp.
Qed.

Lemma WalkDir_passedOver (l : Loader) (entries : list WalkEntry)
    (tombstones : list TombstoneMetadata) :
  WalkDir entries (walkFn l) tombstones
  = WalkDir (List.filter (λ entry, negb (passedOver entry)) entries) (walkFn l) tombstones.
Proof.
  revert tombstones. induction entries as [|entry rest IH]; intros tombstones;
    [reflexivity|].
  cbn [List.filter]. destruct (passedOver entry) eqn:Hp; cbn [negb].
  - rewrite WalkDir_cons, (walkFn_passedOver _ _ _ Hp). apply IH.
  - rewrite !WalkDir_cons. destruct (walkFn l tombstones entry) as [acc [err|]];
      [reflexivity|apply IH].
Qed.

(** X11. Directories, files that are neither [.yaml] nor [.yaml.tpl], and
    walk errors saying that the path does not exist have no effect on what
    [LoadTombstones] returns: the result is the one for the walk without
    them.  In particular a missing tombstones directory gives the empty list
    and no error. *)
Theorem LoadTombstones_passes_over (walk : string → list WalkEntry)
    (read : string → result string) :
  LoadTombstones (mkLoader (mkFS walk read))
  = LoadTombstones
      (mkLoader (mkFS (λ root, List.filter (λ entry, negb (passedOver entry)) (walk root))
                      read)) ∧
  ((∀ entry, entry ∈ walk TombstonesDir → passedOver entry = true) →
   LoadTombstones (mkLoader (mkFS walk read)) = Ok []).
Proof.
  split.
  - unfold LoadTombstones. cbn [fs Walk].
    rewrite (WalkDir_passedOver (mkLoader (mkFS walk read))).
    reflexivity.
  - intros Hall. unfold LoadTombstones. cbn [fs Walk].
    rewrite (WalkDir_passedOver (mkLoader (mkFS walk read))).
    assert (List.filter (λ entry, negb (passedOver entry)) (walk TombstonesDir) = [])
      as ->; [|reflexivity].
    induction (walk TombstonesDir) as [|entry rest IH]; [reflexivity|].
    cbn [List.filter]. rewrite (Hall entry) by (apply elem_of_cons; by left).
    apply IH. intros e He. apply Hall. apply elem_of_cons. by right.
Qed.




Lemma LoadTombstones_fails (l : Loader) (entry : WalkEntry) :
  entry ∈ Walk (fs l) TombstonesDir →
  (∀ tombstones, ∃ err, snd (walkFn l tombstones entry) = Some err) →
  ∃ err, LoadTombstones l = Err err.
Proof.
  intros Hin Hfail. unfold LoadTombstones.
  destruct (WalkDir_fails (Walk (fs l) TombstonesDir) entry (walkFn l) [] Hin Hfail)
    as [err Herr].
  destruct (WalkDir _ _ _) as [acc [e|]]; simpl in Herr; [by eexists|discriminate].
Qed.

(** X13. The load is all or nothing: a walk error that does not say the path
    is missing, a tombstone file that cannot be read, and a tombstone file
    that cannot be parsed each make [LoadTombstones] return an error, wherever
    they come in the walk and whatever the other files hold. *)
Theorem LoadTombstones_all_or_nothing (l : Loader) :
  (∀ path err, WalkErr path err ∈ Walk (fs l) TombstonesDir →
               passedOver (WalkErr path err) = false →
               ∃ err', LoadTombstones l = Err err') ∧
  (∀ path err, WalkFile path ∈ Walk (fs l) TombstonesDir →
               isTombstoneFile path →
               ReadFile (fs l) path = Err err →
               ∃ err', LoadTombstones l = Err err') ∧
  (∀ path data err, WalkFile path ∈ Walk (fs l) TombstonesDir →
                    isTombstoneFile path →
                    ReadFile (fs l) path = Ok data →
                    ParseMultiYAML data = Err err →
                    ∃ err', LoadTombstones l = Err err').
Proof.
  assert (Hfile : ∀ path, isTombstoneFile path →
            negb (strings.HasSuffix path ".yaml") && negb (strings.HasSuffix path ".yaml.tpl")
            = false).
  { intros path [Hs|Hs]; rewrite Hs; [reflexivity|apply andb_false_r]. }
  split; [|split].
  - intros path err Hin Hp. apply (LoadTombstones_fails l _ Hin).
    intros tombstones. cbn [walkFn]. cbn [passedOver] in Hp. rewrite Hp. by eexists.
  - intros path err Hin Hsuffix Hread. apply (LoadTombstones_fails l _ Hin).
    intros tombstones. cbn [walkFn]. rewrite (Hfile _ Hsuffix), Hread. by eexists.
  - intros path data err Hin Hsuffix Hread Hparse. apply (LoadTombstones_fails l _ Hin).
    intros tombstones. cbn [walkFn]. rewrite (Hfile _ Hsuffix), Hread, Hparse.
    by eexists.
Qed.

End Loading.

(** ** The other outcomes of [reconcileTombstone] *)

Section Outcomes.
Import assets engine.
Context {St : Type} `{Client St}.

Lemma label_check_owned (live : Unstructured) :
  ownedByAutopilot live →
  match unstructured.GetLabels live with None => true | Some _ => false end
  || negb (String.eqb (index (unstructured.GetLabels live) TombstoneLabel)
                      TombstoneLabelValue) = false.
Proof. apply label_check. Qed.

Lemma record_run (r : TombstoneReconciler) (hco : Unstructured) (e : Event) (w : World St) :
  record r hco e w
  = (tt, mkWorld (server w) (calls w) (metrics w) (events w ++ recorded r hco e)).
Proof.
  unfold record, recorded. destruct (eventRecorder r); [reflexivity|].
  rewrite app_nil_r. by destruct w.
Qed.

(** X14. When the live object carries the ownership label and the server
    accepts the deletion, [reconcileTombstone] returns [(true, nil)] after
    one [Get] and one [Delete] of that object; the server is the one the
    deletion left, the status written is Deleted and the event is
    TombstoneDeleted. *)
Theorem reconcileTombstone_deletes (r : TombstoneReconciler) (ts : TombstoneMetadata)
    (hco live : Unstructured) (w : World St) (s' : St) :
  Get (server w) (GVK ts) (keyOf ts) = Ok live →
  ownedByAutopilot live →
  Delete (server w) live = (s', None) →
  reconcileTombstone r ts hco w
  = ((true, None),
     mkWorld s'
       (calls w ++ [CallGet (GVK ts) (keyOf ts); CallDelete live])
       (metrics w ++ [(TsObject ts, TombstoneDeleted)])
       (events w ++
        recorded r hco
          (EventTombstoneDeleted (Kind (GVK ts)) (Namespace ts) (Name ts) (Path ts)))).
Proof.
  intros Hget Howned Hdel.
  unfold reconcileTombstone, bind, clientGet, clientDelete, keyOf in *.
  rewrite Hget, (label_check_owned _ Howned). cbn [server]. rewrite Hdel.
  unfold SetTombstoneStatus, ret. rewrite record_run. cbn.
  by rewrite <- app_assoc.
Qed.

(** X15. When the fetch fails with anything but NotFound,
    [reconcileTombstone] returns that error wrapped and [false], writes the
    status Error, records TombstoneFailed and makes no [Delete] call: the
    server is as it was. *)
Theorem reconcileTombstone_get_error (r : TombstoneReconciler) (ts : TombstoneMetadata)
    (hco : Unstructured) (w : World St) (err : error) :
  Get (server w) (GVK ts) (keyOf ts) = Err err →
  IsNotFound err = false →
  reconcileTombstone r ts hco w
  = ((false, Some (fmt.Errorf "failed to get resource: %w" [ArgW err])),
     mkWorld (server w)
       (calls w ++ [CallGet (GVK ts) (keyOf ts)])
       (metrics w ++ [(TsObject ts, TombstoneError)])
       (events w ++
        recorded r hco
          (EventTombstoneFailed (Kind (GVK ts)) (Namespace ts) (Name ts)
             (fmt.Sprintf "Failed to get resource: %v" [ArgV err])))).
Proof.
  intros Hget Hnf.
  unfold reconcileTombstone, bind, clientGet, keyOf in *.
  rewrite Hget, Hnf. unfold SetTombstoneStatus, ret. rewrite record_run. reflexivity.
Qed.

(** X16. When the server refuses the deletion of an owned live object,
    [reconcileTombstone] returns that error wrapped and [false], never
    [true], and writes the status Error. *)
Theorem reconcileTombstone_delete_error (r : TombstoneReconciler)
    (ts : TombstoneMetadata) (hco live : Unstructured) (w : World St) (s' : St)
    (err : error) :
  Get (server w) (GVK ts) (keyOf ts) = Ok live →
  ownedByAutopilot live →
  Delete (server w) live = (s', Some err) →
  reconcileTombstone r ts hco w
  = ((false, Some (fmt.Errorf "failed to delete resource: %w" [ArgW err])),
     mkWorld s'
       (calls w ++ [CallGet (GVK ts) (keyOf ts); CallDelete live])
       (metrics w ++ [(TsObject ts, TombstoneError)])
       (events w ++
        recorded r hco
          (EventTombstoneFailed (Kind (GVK ts)) (Namespace ts) (Name ts)
             (fmt.Sprintf "Failed to delete: %v" [ArgV err])))).
Proof.
  intros Hget Howned Hdel.
  unfold reconcileTombstone, bind, clientGet, clientDelete, keyOf in *.
  rewrite Hget, (label_check_owned _ Howned). cbn [server]. rewrite Hdel.
  unfold SetTombstoneStatus, ret. rewrite record_run. cbn.
  by rewrite <- app_assoc.
Qed.

End Outcomes.

(** ** What a reconciliation never does *)

Section Invariants.
Import assets engine.
Context {St : Type} `{Client St}.

(** X17. Whatever the server answers, reconciling one tombstone makes exactly
    one [Get], writes exactly one status and records at most one event.  It
    makes at most one [Delete], and only on the object the [Get] returned and
    only if that object carries the ownership label; without a [Delete] the
    server is as it was.  It returns [true] only after a [Delete] that
    succeeded, never together with an error, and the status is Error exactly
    when an error is returned. *)
Theorem reconcileTombstone_invariant (r : TombstoneReconciler) (ts : TombstoneMetadata)
    (hco : Unstructured) (w : World St) :
  let outcome := fst (reconcileTombstone r ts hco w) in
  let w' := snd (reconcileTombstone r ts hco w) in
  ∃ dels status evs,
    calls w' = calls w ++ CallGet (GVK ts) (keyOf ts) :: dels ∧
    metrics w' = metrics w ++ [(TsObject ts, status)] ∧
    events w' = events w ++ evs ∧
    (length evs ≤ 1)%nat ∧
    ((dels = [] ∧ server w' = server w) ∨
     (∃ live, dels = [CallDelete live] ∧
              Get (server w) (GVK ts) (keyOf ts) = Ok live ∧
              ownedByAutopilot live ∧
              server w' = fst (Delete (server w) live))) ∧
    (fst outcome = true →
     snd outcome = None ∧ status = TombstoneDeleted ∧
     ∃ live, dels = [CallDelete live] ∧ snd (Delete (server w) live) = None) ∧
    (is_Some (snd outcome) ↔ status = TombstoneError).
Proof.
  intros outcome w'. subst outcome w'.
  assert (Hrec : ∀ e, (length (recorded r hco e) ≤ 1)%nat).
  { intros e. unfold recorded. destruct (eventRecorder r); simpl; lia. }
  unfold reconcileTombstone, bind, clientGet, clientDelete, keyOf in *.
  destruct (Get (server w) (GVK ts) (mkObjectKey (Namespace ts) (Name ts)))
    as [live|err] eqn:Hget.
  - destruct (match unstructured.GetLabels live with None => true | Some _ => false end
              || negb (String.eqb (index (unstructured.GetLabels live) TombstoneLabel)
                                  TombstoneLabelValue)) eqn:Hcheck.
    + unfold SetTombstoneStatus, ret. rewrite record_run. cbn.
      eexists [], TombstoneSkipped, _.
      split_and!; first [done | apply Hrec | by left | by intros [? ?]].
    + apply label_check in Hcheck. cbn [server].
      destruct (Delete (server w) live) as [s' [err|]] eqn:Hdel.
      * unfold SetTombstoneStatus, ret. rewrite record_run. cbn.
        eexists [CallDelete live], TombstoneError, _.
        split_and!;
          first [done | by rewrite <- app_assoc | apply Hrec
                | right; exists live; by rewrite Hdel | by eexists].
      * unfold SetTombstoneStatus, ret. rewrite record_run. cbn.
        eexists [CallDelete live], TombstoneDeleted, _.
        split_and!;
          first [done | by rewrite <- app_assoc | apply Hrec
                | right; exists live; by rewrite Hdel | by intros [? ?] | idtac].
        intros _. split_and!; try done. exists live. by rewrite Hdel.
  - destruct (IsNotFound err) eqn:Hnf.
    + cbn. eexists [], TombstoneDeleted, [].
      split_and!;
        first [done | by rewrite app_nil_r | simpl; lia | by left | by intros [? ?]].
    + unfold SetTombstoneStatus, ret. rewrite record_run. cbn.
      eexists [], TombstoneError, _.
      split_and!; first [done | apply Hrec | by left | by eexists].
Qed.

End Invariants.

(** ** What a batch never does *)

Section BatchInvariants.
Import assets engine.
Context {St : Type} `{Client St}.

(** What one step contributes to the batch. *)
Lemma reconcileTombstone_step (r : TombstoneReconciler) (ts : TombstoneMetadata)
    (hco : Unstructured) (w : World St) :
  ∃ dels,
    calls (snd (reconcileTombstone r ts hco w))
    = calls w ++ CallGet (GVK ts) (keyOf ts) :: dels ∧
    (dels = [] ∨ ∃ live, dels = [CallDelete live] ∧ ownedByAutopilot live) ∧
    (dels = [] → server (snd (reconcileTombstone r ts hco w)) = server w) ∧
    length (metrics (snd (reconcileTombstone r ts hco w))) = S (length (metrics w)) ∧
    (isDeleted (fst (reconcileTombstone r ts hco w)) = true → dels ≠ []) ∧
    (isDeleted (fst (reconcileTombstone r ts hco w)) = true →
     isFailed (fst (reconcileTombstone r ts hco w)) = false).
Proof.
  unfold reconcileTombstone, bind, clientGet, clientDelete, keyOf in *.
  destruct (Get (server w) (GVK ts) (mkObjectKey (Namespace ts) (Name ts)))
    as [live|err] eqn:Hget.
  - destruct (match unstructured.GetLabels live with None => true | Some _ => false end
              || negb (String.eqb (index (unstructured.GetLabels live) TombstoneLabel)
                                  TombstoneLabelValue)) eqn:Hcheck.
    + unfold SetTombstoneStatus, ret. rewrite record_run. cbn.
      exists []. rewrite length_app. cbn.
      split_and!; first [done | by left | lia].
    + apply label_check in Hcheck. cbn [server].
      destruct (Delete (server w) live) as [s' [err|]] eqn:Hdel;
        unfold SetTombstoneStatus, ret; rewrite record_run; cbn;
        exists [CallDelete live]; rewrite length_app; cbn;
        (split_and!;
           first [done | by rewrite <- app_assoc | right; by exists live | lia]).
  - destruct (IsNotFound err) eqn:Hnf.
    + cbn. exists []. rewrite length_app. cbn.
      split_and!; first [done | by left | lia].
    + unfold SetTombstoneStatus, ret. rewrite record_run. cbn.
      exists []. rewrite length_app. cbn.
      split_and!; first [done | by left | lia].
Qed.

Lemma deleteCalls_app (a b : list Call) : deleteCalls (a ++ b) = deleteCalls a ++ deleteCalls b.
Proof. apply List.filter_app. Qed.

Lemma getCalls_app (a b : list Call) : getCalls (a ++ b) = getCalls a ++ getCalls b.
Proof. apply List.filter_app. Qed.

(** The invariants of the run over all the tombstones. *)
Lemma reconcileEach_invariant (r : TombstoneReconciler) (hco : Unstructured)
    (tombstones : list TombstoneMetadata) (w : World St) :
  ∃ made,
    calls (snd (reconcileEach r hco tombstones w)) = calls w ++ made ∧
    deletesOnlyOwned made ∧
    (deleteCalls made = [] → server (snd (reconcileEach r hco tombstones w)) = server w) ∧
    length (getCalls made) = length tombstones ∧
    (length (deleteCalls made) ≤ length tombstones)%nat ∧
    length (metrics (snd (reconcileEach r hco tombstones w)))
    = (length (metrics w) + length tombstones)%nat ∧
    countDeleted (fst (reconcileEach r hco tombstones w))
    ≤ Z.of_nat (length (deleteCalls made)) ∧
    countDeleted (fst (reconcileEach r hco tombstones w))
    + countFailed (fst (reconcileEach r hco tombstones w))
    ≤ Z.of_nat (length tombstones).
Proof.
  revert w. induction tombstones as [|ts rest IH]; intros w.
  - exists []. cbn. rewrite app_nil_r. unfold deletesOnlyOwned.
    split_and!; first [done | lia | idtac].
    intros live Hin. by apply elem_of_nil in Hin.
  - cbn [reconcileEach]. unfold bind.
    destruct (reconcileTombstone_step r ts hco w)
      as (dels & Hcalls & Hdels & Hsrv & Hmet & Hdel & Hnf).
    destruct (reconcileTombstone r ts hco w) as [o w1]. cbn [fst snd] in *.
    destruct (IH w1) as (made & Hc & Hown & Hs & Hg & Hd & Hm & Hcount & Hsum).
    destruct (reconcileEach r hco rest w1) as [os w2]. cbn [fst snd ret] in *.
    exists (CallGet (GVK ts) (keyOf ts) :: dels ++ made).
    assert (Hdc : deleteCalls (CallGet (GVK ts) (keyOf ts) :: dels ++ made)
                  = dels ++ deleteCalls made).
    { change (deleteCalls (dels ++ made) = dels ++ deleteCalls made).
      rewrite deleteCalls_app. f_equal.
      by destruct Hdels as [->|(live & -> & _)]. }
    assert (Hgc : getCalls (CallGet (GVK ts) (keyOf ts) :: dels ++ made)
                  = CallGet (GVK ts) (keyOf ts) :: getCalls made).
    { change (CallGet (GVK ts) (keyOf ts) :: getCalls (dels ++ made)
              = CallGet (GVK ts) (keyOf ts) :: getCalls made).
      rewrite getCalls_app. f_equal.
      by destruct Hdels as [->|(live & -> & _)]. }
    assert (Hlen : (length dels ≤ 1)%nat).
    { destruct Hdels as [->|(live & -> & _)]; simpl; lia. }
    assert (Hone : isDeleted o = true → length dels = 1%nat).
    { intros Ho. destruct Hdels as [->|(live & -> & _)]; [by apply Hdel in Ho|done]. }
    rewrite Hdc, Hgc, countDeleted_cons.
    unfold countFailed in *. cbn [List.filter length].
    split_and!.
    + rewrite Hc, Hcalls, <- app_assoc. reflexivity.
    + intros live [Hin|[Hin|Hin]%elem_of_app]%elem_of_cons; [discriminate| |by apply Hown].
      destruct Hdels as [->|(live' & -> & Ho)]; [by apply elem_of_nil in Hin|].
      apply list_elem_of_singleton in Hin. by injection Hin as ->.
    + intros [Hd0 Hm0]%app_eq_nil. rewrite (Hs Hm0). by apply Hsrv.
    + by rewrite Hg.
    + rewrite length_app. lia.
    + rewrite Hm, Hmet. lia.
    + rewrite length_app. destruct (isDeleted o) eqn:Ho; [rewrite (Hone eq_refl)|]; lia.
    + destruct (isDeleted o) eqn:Ho.
      * rewrite (Hnf eq_refl). cbn [length]. lia.
      * destruct (isFailed o); cbn [length]; lia.
Qed.

End BatchInvariants.

Section BatchProperties.
Import assets engine.
Context {St : Type} `{Client St} `{YAML}.

Lemma ReconcileTombstones_run (r : TombstoneReconciler) (hco : Unstructured)
    (tombstones : list TombstoneMetadata) (w : World St) :
  LoadTombstones (loader r) = Ok tombstones →
  ReconcileTombstones r hco w
  = ((countDeleted (fst (reconcileEach r hco tombstones w)),
      aggregated (countFailed (fst (reconcileEach r hco tombstones w)))),
     snd (reconcileEach r hco tombstones w)).
Proof.
  intros Hload. unfold ReconcileTombstones. rewrite Hload.
  destruct tombstones as [|ts rest]; [reflexivity|].
  change (Z.of_nat (length (ts :: rest)) =? 0) with false. cbv iota.
  unfold bind. rewrite processTombstones_reconcileEach.
  rewrite app_nil_l, errorsOf_length, Z.add_0_l.
  unfold aggregated, ret.
  by destruct (countFailed (fst (reconcileEach r hco (ts :: rest) w)) >? 0).
Qed.

(** X18. Whatever the tombstones and whatever the server answers, every
    [Delete] that [ReconcileTombstones] issues is on a live object that
    carries the ownership label with the expected value; and if it issues no
    [Delete], the server is left as it was. *)
Theorem ReconcileTombstones_deletes_only_owned (r : TombstoneReconciler)
    (hco : Unstructured) (w : World St) :
  ∃ made,
    calls (snd (ReconcileTombstones r hco w)) = calls w ++ made ∧
    deletesOnlyOwned made ∧
    (deleteCalls made = [] → server (snd (ReconcileTombstones r hco w)) = server w).
Proof.
  destruct (LoadTombstones (loader r)) as [tombstones|err] eqn:Hload.
  - rewrite (ReconcileTombstones_run _ _ _ _ Hload). cbn [snd].
    destruct (reconcileEach_invariant r hco tombstones w)
      as (made & Hc & Hown & Hs & _).
    exists made. done.
  - unfold ReconcileTombstones. rewrite Hload. exists []. cbn.
    rewrite app_nil_r. split_and!; try done.
    intros live Hin. by apply elem_of_nil in Hin.
Qed.

(** X19. The accounting of a batch over the loaded tombstones: one [Get] and
    one status write per tombstone, at most one [Delete] per tombstone, and a
    deleted-count between 0 and the number of [Delete] calls; deletions and
    failures together never exceed the number of tombstones. *)
Theorem ReconcileTombstones_accounting (r : TombstoneReconciler) (hco : Unstructured)
    (tombstones : list TombstoneMetadata) (w : World St) :
  LoadTombstones (loader r) = Ok tombstones →
  ∃ made,
    calls (snd (ReconcileTombstones r hco w)) = calls w ++ made ∧
    length (getCalls made) = length tombstones ∧
    (length (deleteCalls made) ≤ length tombstones)%nat ∧
    length (metrics (snd (ReconcileTombstones r hco w)))
    = (length (metrics w) + length tombstones)%nat ∧
    0 ≤ fst (fst (ReconcileTombstones r hco w)) ≤ Z.of_nat (length (deleteCalls made)) ∧
    fst (fst (ReconcileTombstones r hco w))
    + countFailed (fst (reconcileEach r hco tombstones w))
    ≤ Z.of_nat (length tombstones).
Proof.
  intros Hload. rewrite (ReconcileTombstones_run _ _ _ _ Hload). cbn [fst snd].
  destruct (reconcileEach_invariant r hco tombstones w)
    as (made & Hc & _ & _ & Hg & Hd & Hm & Hcount & Hsum).
  exists made. split_and!; try done.
  unfold countDeleted. lia.
Qed.

(** X20. When there is nothing to reconcile the cluster is not contacted: if
    the load fails, [ReconcileTombstones] returns 0 and the error wrapped, and
    if the walk only holds entries that are passed over (a missing tombstones
    directory, directories, other files) it returns 0 and nil; in both cases
    the world is unchanged. *)
Theorem ReconcileTombstones_nothing_to_do (walk : string → list WalkEntry)
    (read : string → result string) (recorder : bool) (hco : Unstructured)
    (w : World St) :
  let r := mkReconciler (mkLoader (mkFS walk read)) recorder in
  (∀ err, LoadTombstones (loader r) = Err err →
          ReconcileTombstones r hco w
          = ((0, Some (fmt.Errorf "failed to load tombstones: %w" [ArgW err])), w)) ∧
  ((∀ entry, entry ∈ walk TombstonesDir → passedOver entry = true) →
   ReconcileTombstones r hco w = ((0, None), w)).
Proof.
  intros r. split.
  - intros err Hload. unfold ReconcileTombstones. by rewrite Hload.
  - intros Hall. unfold ReconcileTombstones.
    assert (LoadTombstones (loader r) = Ok []) as ->; [|reflexivity].
    unfold LoadTombstones. cbn [r loader fs Walk].
    rewrite (WalkDir_passedOver (mkLoader (mkFS walk read))).
    assert (List.filter (λ entry, negb (passedOver entry)) (walk TombstonesDir) = [])
      as ->; [|reflexivity].
    induction (walk TombstonesDir) as [|entry rest IH]; [reflexivity|].
    cbn [List.filter]. rewrite (Hall entry) by (apply elem_of_cons; by left).
    apply IH. intros e He. apply Hall. apply elem_of_cons. by right.
Qed.

End BatchProperties.

(** ** The event recorder is optional *)

Section Recorder.
Import assets engine.
Context {St : Type} `{Client St}.

Lemma reconcileTombstone_recorder (r : TombstoneReconciler) (ts : TombstoneMetadata)
    (hco : Unstructured) (w1 w2 : World St) :
  sameCluster w1 w2 →
  fst (reconcileTombstone r ts hco w1)
  = fst (reconcileTombstone (withoutRecorder r) ts hco w2) ∧
  sameCluster (snd (reconcileTombstone r ts hco w1))
              (snd (reconcileTombstone (withoutRecorder r) ts hco w2)) ∧
  events (snd (reconcileTombstone (withoutRecorder r) ts hco w2)) = events w2.
Proof.
  destruct w1 as [s1 c1 m1 e1], w2 as [s2 c2 m2 e2].
  intros (Hs & Hc & Hm). cbn in Hs, Hc, Hm. subst s2 c2 m2.
  unfold reconcileTombstone, bind, clientGet, clientDelete, sameCluster. cbn [server].
  destruct (Get s1 (GVK ts) (mkObjectKey (Namespace ts) (Name ts))) as [live|err].
  - destruct (_ || _).
    + unfold SetTombstoneStatus, ret. rewrite !record_run. cbn.
      by rewrite app_nil_r.
    + cbn [server]. destruct (Delete s1 live) as [s' [err|]];
        unfold SetTombstoneStatus, ret; rewrite !record_run; cbn;
        by rewrite app_nil_r.
  - destruct (IsNotFound err).
    + cbn. done.
    + unfold SetTombstoneStatus, ret. rewrite !record_run. cbn.
      by rewrite app_nil_r.
Qed.

Lemma reconcileEach_recorder (r : TombstoneReconciler) (hco : Unstructured)
    (tombstones : list TombstoneMetadata) (w1 w2 : World St) :
  sameCluster w1 w2 →
  fst (reconcileEach r hco tombstones w1)
  = fst (reconcileEach (withoutRecorder r) hco tombstones w2) ∧
  sameCluster (snd (reconcileEach r hco tombstones w1))
              (snd (reconcileEach (withoutRecorder r) hco tombstones w2)) ∧
  events (snd (reconcileEach (withoutRecorder r) hco tombstones w2)) = events w2.
Proof.
  revert w1 w2. induction tombstones as [|ts rest IH]; intros w1 w2 Hsame; [done|].
  cbn [reconcileEach]. unfold bind.
  destruct (reconcileTombstone_recorder r ts hco w1 w2 Hsame) as (Ho & Hsame' & Hev).
  destruct (reconcileTombstone r ts hco w1) as [o1 w1'].
  destruct (reconcileTombstone (withoutRecorder r) ts hco w2) as [o2 w2'].
  cbn [fst snd] in *. subst o2.
  destruct (IH w1' w2' Hsame') as (Hos & Hsame'' & Hev').
  destruct (reconcileEach r hco rest w1') as [os1 w1''].
  destruct (reconcileEach (withoutRecorder r) hco rest w2') as [os2 w2''].
  cbn [fst snd ret] in *. subst os2. split_and!; try done. congruence.
Qed.

End Recorder.

Section RecorderBatch.
Import assets engine.
Context {St : Type} `{Client St} `{YAML}.

(** X21. The event recorder is optional: without one, [ReconcileTombstones]
    returns the same count and the same error, makes the same client calls,
    writes the same statuses and leaves the server in the same state, and it
    records no event. *)
Theorem ReconcileTombstones_without_recorder (r : TombstoneReconciler)
    (hco : Unstructured) (w : World St) :
  fst (ReconcileTombstones r hco w) = fst (ReconcileTombstones (withoutRecorder r) hco w) ∧
  sameCluster (snd (ReconcileTombstones r hco w))
              (snd (ReconcileTombstones (withoutRecorder r) hco w)) ∧
  events (snd (ReconcileTombstones (withoutRecorder r) hco w)) = events w.
Proof.
  destruct (LoadTombstones (loader r)) as [tombstones|err] eqn:Hload.
  - rewrite (ReconcileTombstones_run r hco tombstones w Hload).
    rewrite (ReconcileTombstones_run (withoutRecorder r) hco tombstones w Hload).
    cbn [fst snd].
    destruct (reconcileEach_recorder r hco tombstones w w) as (Hos & Hsame & Hev);
      [done|].
    rewrite Hos. done.
  - unfold ReconcileTombstones. cbn [withoutRecorder loader]. rewrite Hload. done.
Qed.

End RecorderBatch.

(** ** Reconciling again after a deletion *)

Section Again.
Import assets engine.
Context {St : Type} `{Client St}.

(** X22. Reconciling a tombstone is idempotent across a deletion: once the
    owned live object has been deleted and the server answers NotFound for
    it, reconciling the same tombstone again returns [(false, nil)], issues
    no further [Delete], leaves the server as the deletion left it and writes
    the status Deleted again. *)
Theorem reconcileTombstone_again (r : TombstoneReconciler) (ts : TombstoneMetadata)
    (hco live : Unstructured) (w : World St) (s' : St) (err : error) :
  Get (server w) (GVK ts) (keyOf ts) = Ok live →
  ownedByAutopilot live →
  Delete (server w) live = (s', None) →
  Get s' (GVK ts) (keyOf ts) = Err err →
  IsNotFound err = true →
  let first := reconcileTombstone r ts hco w in
  let second := reconcileTombstone r ts hco (snd first) in
  fst first = (true, None) ∧
  fst second = (false, None) ∧
  server (snd second) = s' ∧
  deleteCalls (calls (snd second)) = deleteCalls (calls w) ++ [CallDelete live] ∧
  map snd (metrics (snd second))
  = map snd (metrics w) ++ [TombstoneDeleted; TombstoneDeleted].
Proof.
  intros Hget Howned Hdel Hgone Hnf first second. subst first second.
  assert (Hfirst : reconcileTombstone r ts hco w
    = ((true, None),
       mkWorld s' (calls w ++ [CallGet (GVK ts) (keyOf ts); CallDelete live])
         (metrics w ++ [(TsObject ts, TombstoneDeleted)])
         (events w ++
          recorded r hco
            (EventTombstoneDeleted (Kind (GVK ts)) (Namespace ts) (Name ts) (Path ts))))).
  { unfold reconcileTombstone, bind, clientGet, clientDelete, keyOf in *.
    rewrite Hget, (label_check_owned _ Howned). cbn [server]. rewrite Hdel.
    unfold SetTombstoneStatus, ret. rewrite record_run. cbn.
    by rewrite <- app_assoc. }
  rewrite Hfirst. cbn [fst snd].
  assert (Hsecond : ∀ w1 : World St, server w1 = s' →
            reconcileTombstone r ts hco w1 = ((false, None), afterNotFound ts w1)).
  { intros w1 Hs. unfold reconcileTombstone, bind, clientGet, afterNotFound, keyOf in *.
    by rewrite Hs, Hgone, Hnf. }
  rewrite Hsecond by reflexivity. cbn [fst snd afterNotFound server calls metrics].
  split_and!; try done.
  - unfold deleteCalls. rewrite !List.filter_app. cbn. by rewrite app_nil_r.
  - rewrite !map_app. cbn. by rewrite <- app_assoc.
Qed.

End Again.

(** ** More on [CheckConditions] *)

Section ConditionsMore.
Import render.

Lemma conditionSatisfied_hardware (renderCtx : RenderContext) (c : AssetCondition) :
  CondType c = ConditionTypeHardwareDetection → conditionSatisfied renderCtx c = false.
Proof.
  intros Ht. rewrite conditionSatisfied_checkLoop. cbn [checkLoop]. rewrite Ht.
  reflexivity.
Qed.

Lemma conditionSatisfied_unknown (renderCtx : RenderContext) (c : AssetCondition) :
  knownType c = false → conditionSatisfied renderCtx c = true.
Proof.
  unfold knownType. intros Hk. rewrite conditionSatisfied_checkLoop. cbn [checkLoop].
  destruct (String.eqb (CondType c) ConditionTypeAnnotation); [discriminate|].
  destruct (String.eqb (CondType c) ConditionTypeFeatureGate); [discriminate|].
  destruct (String.eqb (CondType c) ConditionTypeHardwareDetection); [discriminate|].
  reflexivity.
Qed.

(** X23. An asset with a hardware-detection condition never passes
    [CheckConditions], wherever the condition stands in the list and
    whatever the HCO holds. *)
Theorem CheckConditions_hardware_detection (assetMeta : AssetMetadata)
    (renderCtx : RenderContext) (c : AssetCondition) :
  c ∈ Conditions assetMeta →
  CondType c = ConditionTypeHardwareDetection →
  CheckConditions assetMeta renderCtx = false.
Proof.
  intros Hin Ht. rewrite CheckConditions_checkLoop, checkLoop_forallb.
  apply not_true_is_false. intros Hall.
  rewrite forallb_forall in Hall. apply list_elem_of_In in Hin.
  specialize (Hall c Hin).
  rewrite (conditionSatisfied_hardware renderCtx c Ht) in Hall. discriminate.
Qed.

Lemma forallb_filter_true {A : Type} (f keep : A → bool) (l : list A) :
  (∀ x, keep x = false → f x = true) →
  forallb f (List.filter keep l) = forallb f l.
Proof.
  intros Hk. induction l as [|x l IH]; [reflexivity|]. cbn [List.filter forallb].
  destruct (keep x) eqn:Hx; cbn [forallb]; rewrite IH; [reflexivity|].
  by rewrite (Hk x Hx).
Qed.

Lemma forallb_Permutation {A : Type} (f : A → bool) (l l' : list A) :
  Permutation l l' → forallb f l = forallb f l'.
Proof.
  induction 1 as [|x l l' _ IH|x y l|l l' l'' _ IH1 _ IH2]; cbn [forallb].
  - reflexivity.
  - by rewrite IH.
  - by destruct (f x), (f y).
  - by rewrite IH1.
Qed.

(** X24. The result of [CheckConditions] depends neither on the order of the
    conditions nor on conditions of a type the switch has no case for: such
    conditions count as satisfied, and dropping them changes nothing. *)
Theorem CheckConditions_order_and_unknown (name path component : string)
    (conditions : list AssetCondition) (renderCtx : RenderContext) :
  (∀ conditions', Permutation conditions conditions' →
     CheckConditions (mkAssetMetadata name path component conditions) renderCtx
     = CheckConditions (mkAssetMetadata name path component conditions') renderCtx) ∧
  CheckConditions (mkAssetMetadata name path component conditions) renderCtx
  = CheckConditions
      (mkAssetMetadata name path component (List.filter knownType conditions)) renderCtx.
Proof.
  split.
  - intros conditions' Hperm. rewrite !CheckConditions_checkLoop, !checkLoop_forallb.
    by apply forallb_Permutation.
  - rewrite !CheckConditions_checkLoop, !checkLoop_forallb. cbn [Conditions].
    symmetry. apply forallb_filter_true. apply conditionSatisfied_unknown.
Qed.

End ConditionsMore.

(** ** Building the render outputs *)

Section Outputs.
Import pkgrender.
Context `{Renderer} `{ExclusionRules}.

Lemma buildLoop_omap (rules : list ExclusionRule) (renderCtx : RenderContext)
    (showExcluded : bool) (assetList : list AssetMetadata) (outputs : list RenderOutput) :
  buildLoop rules renderCtx showExcluded assetList outputs
  = outputs ++ omap (buildOutput rules renderCtx showExcluded) assetList.
Proof.
  revert outputs. induction assetList as [|a rest IH]; intros outputs; cbn.
  - by rewrite app_nil_r.
  - destruct (buildOutput rules renderCtx showExcluded a) as [o|]; rewrite IH;
      [by rewrite <- app_assoc|reflexivity].
Qed.

(** With [showExcluded] every asset gets an output. *)
Lemma buildOutput_shown (rules : list ExclusionRule) (renderCtx : RenderContext)
    (a : AssetMetadata) :
  ∃ o, buildOutput rules renderCtx true a = Some o ∧
       buildOutput rules renderCtx false a = if onlyOnRequest o then None else Some o.
Proof.
  unfold buildOutput.
  destruct (negb (render.CheckConditions a renderCtx)); [by eexists|].
  destruct (RenderAsset a renderCtx) as [[obj|]|err]; [|by eexists..].
  destruct (RuleExcluded _ _ _ rules); by eexists.
Qed.

(** X25. Without [showExcluded], [BuildOutputs] returns the outputs it
    returns with [showExcluded] minus the EXCLUDED and FILTERED ones, in the
    same order: the flag only hides entries, and ERROR and INCLUDED outputs
    are always returned. *)
Theorem BuildOutputs_showExcluded (assetList : list AssetMetadata)
    (renderCtx : RenderContext) :
  BuildOutputs assetList renderCtx false
  = List.filter (λ output, negb (onlyOnRequest output))
                (BuildOutputs assetList renderCtx true).
Proof.
  unfold BuildOutputs. rewrite !buildLoop_omap, !app_nil_l.
  induction assetList as [|a rest IH]; [reflexivity|]. cbn [omap list_omap].
  destruct (buildOutput_shown (parseExclusionRules renderCtx) renderCtx a)
    as (o & Ht & Hf).
  change (omap ?f (a :: rest)) with
    (match f a with Some y => y :: omap f rest | None => omap f rest end).
  rewrite Ht, Hf. cbn [List.filter].
  destruct (onlyOnRequest o); cbn [negb]; by rewrite IH.
Qed.

(** What the output for one asset says. *)
Lemma buildOutput_sound (rules : list ExclusionRule) (renderCtx : RenderContext)
    (showExcluded : bool) (a : AssetMetadata) (o : RenderOutput) :
  buildOutput rules renderCtx showExcluded a = Some o →
  describes o a ∧
  (Status o = "INCLUDED" ∨ Status o = "EXCLUDED" ∨ Status o = "FILTERED" ∨
   Status o = "ERROR") ∧
  (Status o = "INCLUDED" ↔ is_Some (OutObject o)) ∧
  (∀ obj, OutObject o = Some obj →
     render.CheckConditions a renderCtx = true ∧
     RenderAsset a renderCtx = Ok (Some obj) ∧
     RuleExcluded (unstructured.GetKind obj) (unstructured.GetNamespace obj)
                  (unstructured.GetName obj) rules = false).
Proof.
  unfold buildOutput, describes.
  destruct (render.CheckConditions a renderCtx) eqn:Hc; cbn [negb];
    [destruct (RenderAsset a renderCtx) as [[obj|]|err] eqn:Hr;
       [destruct (RuleExcluded _ _ _ rules) eqn:Hx|..]|];
    try (destruct showExcluded; [|discriminate]);
    intros [= <-]; cbn;
    (split_and!;
       first [ done | by left | by right; left | by right; right; left
             | by right; right; right
             | split; [done | by intros [? ?]]
             | split; [by eauto | done]
             | by intros obj' [= <-] ]).
Qed.

(** X26. With [showExcluded], [BuildOutputs] returns exactly one output per
    asset, in the order of the assets, carrying the name, path, component and
    conditions of its asset and one of the four statuses.  An object is
    attached exactly to the INCLUDED outputs; it is the object the renderer
    returned for an asset whose conditions hold, and it is not excluded by
    the rules parsed from the HCO. *)
Theorem BuildOutputs_one_per_asset (assetList : list AssetMetadata)
    (renderCtx : RenderContext) :
  Forall2
    (λ output assetMeta,
       describes output assetMeta ∧
       (Status output = "INCLUDED" ∨ Status output = "EXCLUDED" ∨
        Status output = "FILTERED" ∨ Status output = "ERROR") ∧
       (Status output = "INCLUDED" ↔ is_Some (OutObject output)) ∧
       (∀ obj, OutObject output = Some obj →
          render.CheckConditions assetMeta renderCtx = true ∧
          RenderAsset assetMeta renderCtx = Ok (Some obj) ∧
          RuleExcluded (unstructured.GetKind obj) (unstructured.GetNamespace obj)
                       (unstructured.GetName obj) (parseExclusionRules renderCtx)
          = false))
    (BuildOutputs assetList renderCtx true) assetList.
Proof.
  unfold BuildOutputs. rewrite buildLoop_omap, app_nil_l.
  induction assetList as [|a rest IH]; [constructor|].
  destruct (buildOutput_shown (parseExclusionRules renderCtx) renderCtx a)
    as (o & Ht & _).
  change (omap ?f (a :: rest)) with
    (match f a with Some y => y :: omap f rest | None => omap f rest end).
  rewrite Ht. constructor; [|exact IH].
  by apply (buildOutput_sound _ _ true).
Qed.

End Outputs.

(** ** The render command *)

Section Command.
Import pkgrender cmdrender.

Lemma countStatus_total (acc : Summary) (o : RenderOutput) :
  (Status o = "INCLUDED" ∨ Status o = "EXCLUDED" ∨ Status o = "FILTERED" ∨
   Status o = "ERROR") →
  total (countStatus acc o) = total acc + 1 ∧
  included (countStatus acc o)
  = included acc + (if String.eqb (Status o) "INCLUDED" then 1 else 0).
Proof.
  unfold countStatus, total.
  intros [Hs|[Hs|[Hs|Hs]]]; rewrite Hs; cbn; lia.
Qed.

Lemma summarize_total (outputs : list RenderOutput) (acc : Summary) :
  Forall (λ o, Status o = "INCLUDED" ∨ Status o = "EXCLUDED" ∨ Status o = "FILTERED" ∨
               Status o = "ERROR") outputs →
  total (fold_left countStatus outputs acc) = total acc + Z.of_nat (length outputs) ∧
  included (fold_left countStatus outputs acc)
  = included acc
    + Z.of_nat (length (List.filter (λ o, String.eqb (Status o) "INCLUDED") outputs)).
Proof.
  revert acc. induction outputs as [|o rest IH]; intros acc Hall.
  - cbn. lia.
  - apply Forall_cons in Hall as [Ho Hrest]. cbn [fold_left].
    destruct (IH (countStatus acc o) Hrest) as [Ht Hi].
    destruct (countStatus_total acc o Ho) as [Ht' Hi'].
    rewrite Ht, Hi, Ht', Hi'. cbn [List.filter length].
    destruct (String.eqb (Status o) "INCLUDED"); cbn [length]; lia.
Qed.

End Command.

Section CommandOutputs.
Import pkgrender cmdrender.
Context `{Renderer} `{ExclusionRules}.

(** X27. The summary line of the status table accounts for every output of
    [BuildOutputs]: the four counters add up to the number of outputs, and
    the included counter is the number of outputs that carry an object. *)
Theorem summarize_BuildOutputs (assetList : list AssetMetadata)
    (renderCtx : RenderContext) (showExcluded : bool) :
  let outputs := BuildOutputs assetList renderCtx showExcluded in
  let s := summarize outputs in
  included s + excluded s + filtered s + errors s = Z.of_nat (length outputs) ∧
  included s
  = Z.of_nat (length (List.filter (λ o, match OutObject o with Some _ => true | None => false end)
                                  outputs)).
Proof.
  intros outputs s.
  assert (Hall : Forall (λ o, (Status o = "INCLUDED" ∨ Status o = "EXCLUDED" ∨
                               Status o = "FILTERED" ∨ Status o = "ERROR") ∧
                              (Status o = "INCLUDED" ↔ is_Some (OutObject o))) outputs).
  { subst outputs. unfold BuildOutputs. rewrite buildLoop_omap, app_nil_l.
    apply Forall_forall. intros o Hin.
    apply list_elem_of_omap in Hin as (a & _ & Ho).
    by apply buildOutput_sound in Ho as (_ & Hs & Hobj & _). }
  destruct (summarize_total outputs (mkSummary 0 0 0 0)) as [Ht Hi].
  { eapply Forall_impl; [exact Hall|]. by intros o [Hs _]. }
  fold (summarize outputs) in Ht, Hi. fold s in Ht, Hi.
  split; [exact Ht|]. rewrite Hi. cbn [included]. rewrite Z.add_0_l.
  do 2 f_equal.
  clear -Hall. induction outputs as [|o rest IH]; [reflexivity|].
  apply Forall_cons in Hall as [[_ Ho] Hrest]. cbn [List.filter].
  rewrite (IH Hrest).
  destruct (String.eqb_spec (Status o) "INCLUDED") as [Hs|Hs].
  - apply Ho in Hs as [obj ->]. reflexivity.
  - destruct (OutObject o) as [obj|] eqn:Hobj; [|reflexivity].
    exfalso. apply Hs, Ho. by eexists.
Qed.

End CommandOutputs.

Section Truncate.
Import cmdrender.

Lemma length_append (s t : string) :
  String.length (s +:+ t) = (String.length s + String.length t)%nat.
Proof.
  induction s as [|c s IH]; [reflexivity|].
  rewrite append_cons. cbn [String.length]. by rewrite IH.
Qed.

Lemma length_substring_0 (n : nat) (s : string) :
  (n ≤ String.length s)%nat → String.length (String.substring 0 n s) = n.
Proof.
  revert s. induction n as [|n IH]; intros s Hn.
  - by destruct s.
  - destruct s as [|c s]; cbn in *; [lia|]. rewrite IH; lia.
Qed.

(** X28. For a limit of at least 3, [truncate] does not panic and returns a
    string of at most [maxLen] bytes: the string itself when it fits, and
    otherwise its first [maxLen - 3] bytes followed by three dots, which is
    exactly [maxLen] bytes long.  Truncating the result again changes
    nothing. *)
Theorem truncate_bounded (s : string) (maxLen : Z) :
  3 ≤ maxLen →
  ∃ t, truncate s maxLen = Some t ∧
       Z.of_nat (String.length t) ≤ maxLen ∧
       (Z.of_nat (String.length s) ≤ maxLen → t = s) ∧
       (maxLen < Z.of_nat (String.length s) →
        t = slicePrefix s (maxLen - 3) +:+ "..." ∧ Z.of_nat (String.length t) = maxLen) ∧
       truncate t maxLen = Some t.
Proof.
  intros Hmax. unfold truncate.
  destruct (Z.leb_spec (Z.of_nat (String.length s)) maxLen) as [Hfit|Hlong].
  - exists s. split_and!; try done; [lia|].
    destruct (Z.leb_spec (Z.of_nat (String.length s)) maxLen); [done|lia].
  - destruct (Z.ltb_spec (maxLen - 3) 0) as [Hneg|_]; [lia|].
    assert (Hlen : Z.of_nat (String.length (slicePrefix s (maxLen - 3) +:+ "..."))
                   = maxLen).
    { unfold slicePrefix. rewrite length_append, length_substring_0 by lia.
      cbn [String.length]. lia. }
    eexists. split_and!; try done; [lia|lia|].
    rewrite Hlen. destruct (Z.leb_spec maxLen maxLen); [done|lia].
Qed.

End Truncate.

(** ** The debug endpoints agree with [BuildOutputs] *)

Section Debug.
Import pkgrender debug.
Context `{Renderer} `{ExclusionRules}.

Lemma renderOne_buildOutput (assetMeta : AssetMetadata) (renderCtx : RenderContext) :
  (∀ kind namespace name, RuleExcluded kind namespace name [] = false) →
  buildOutput (parseExclusionRules renderCtx) renderCtx true assetMeta
  = Some (renderOne assetMeta renderCtx).
Proof.
  intros Hnil. unfold buildOutput, renderOne, parseExclusionRules.
  destruct (negb (render.CheckConditions assetMeta renderCtx)); [reflexivity|].
  destruct (RenderAsset assetMeta renderCtx) as [[obj|]|err]; [|reflexivity..].
  destruct (negb (String.eqb _ "")); cbn [andb].
  - destruct (ParseRules _) as [rules|e].
    + by destruct (RuleExcluded _ _ _ rules).
    + by rewrite Hnil.
  - by rewrite Hnil.
Qed.

(** X29. Provided that an empty rule list excludes nothing, the single-asset
    endpoint answers for an asset what [BuildOutputs] with [showExcluded]
    returns for the list holding only that asset: whenever
    [handleRenderAsset] writes outputs, they are the outputs of
    [BuildOutputs] for the asset the registry found under the name in the
    path, in the first HCO of the cluster. *)
Theorem handleRenderAsset_agrees (s : Server) (r : Request)
    (outputs : list RenderOutput) (format : string) :
  (∀ kind namespace name, RuleExcluded kind namespace name [] = false) →
  handleRenderAsset s r = RenderResponse outputs format →
  ∃ assetMeta renderCtx,
    GetAsset s (strings.TrimSpace (TrimPrefix (URLPath r) "/debug/render/"))
    = Ok assetMeta ∧
    getRenderContext s = Ok renderCtx ∧
    outputs = BuildOutputs [assetMeta] renderCtx true ∧
    format = (if String.eqb (QueryGet r "format") "" then "yaml" else QueryGet r "format").
Proof.
  intros Hnil. unfold handleRenderAsset.
  destruct (negb (String.eqb (Method r) "GET")); [discriminate|].
  destruct (String.eqb (strings.TrimSpace _) ""); [discriminate|].
  destruct (GetAsset s _) as [assetMeta|err]; [|discriminate].
  destruct (getRenderContext s) as [renderCtx|err]; [|discriminate].
  intros [= <- <-]. exists assetMeta, renderCtx. split_and!; try done.
  unfold BuildOutputs. cbn [buildLoop].
  by rewrite (renderOne_buildOutput _ _ Hnil).
Qed.

Lemma exclusionsLoop_omap (renderCtx : RenderContext) (assetList : list AssetMetadata)
    (exclusions : list ExclusionInfo) :
  exclusionsLoop renderCtx assetList exclusions
  = exclusions ++ omap (exclusionOf renderCtx) assetList.
Proof.
  revert exclusions. induction assetList as [|a rest IH]; intros exclusions; cbn.
  - by rewrite app_nil_r.
  - destruct (exclusionOf renderCtx a) as [info|]; rewrite IH;
      [by rewrite <- app_assoc|reflexivity].
Qed.

(** One asset: listed as an exclusion exactly when its output is not
    INCLUDED. *)
Lemma exclusionOf_renderOne (renderCtx : RenderContext) (a : AssetMetadata) :
  match exclusionOf renderCtx a with
  | Some info =>
      Status (renderOne a renderCtx) ≠ "INCLUDED" ∧
      ExAsset info = Asset (renderOne a renderCtx) ∧
      ExPath info = OutPath (renderOne a renderCtx) ∧
      ExComponent info = OutComponent (renderOne a renderCtx)
  | None => Status (renderOne a renderCtx) = "INCLUDED"
  end.
Proof.
  unfold exclusionOf, renderOne.
  destruct (negb (render.CheckConditions a renderCtx)); [done|].
  destruct (RenderAsset a renderCtx) as [[obj|]|err]; [|done..].
  destruct (negb (String.eqb _ "")); cbn [andb]; [|done].
  destruct (ParseRules _) as [rules|e]; [|done].
  by destruct (RuleExcluded _ _ _ rules).
Qed.

(** X30. Provided that an empty rule list excludes nothing, the exclusions
    endpoint lists exactly the assets whose output from [BuildOutputs] is
    not INCLUDED, in the same order and under the same names. *)
Theorem handleExclusions_agrees (s : Server) (r : Request)
    (exclusions : list ExclusionInfo) (format : string) :
  (∀ kind namespace name, RuleExcluded kind namespace name [] = false) →
  handleExclusions s r = DataResponse exclusions format →
  ∃ renderCtx,
    getRenderContext s = Ok renderCtx ∧
    map ExAsset exclusions
    = map Asset
        (List.filter (λ output, negb (String.eqb (Status output) "INCLUDED"))
           (BuildOutputs (ListAssetsByReconcileOrder s) renderCtx true)).
Proof.
  intros Hnil. unfold handleExclusions.
  destruct (negb (String.eqb (Method r) "GET")); [discriminate|].
  destruct (getRenderContext s) as [renderCtx|err]; [|discriminate].
  intros [= <- <-]. exists renderCtx. split; [done|].
  unfold BuildOutputs. rewrite exclusionsLoop_omap, buildLoop_omap, !app_nil_l.
  induction (ListAssetsByReconcileOrder s) as [|a rest IH]; [reflexivity|].
  change (omap ?f (a :: rest)) with
    (match f a with Some y => y :: omap f rest | None => omap f rest end).
  rewrite (renderOne_buildOutput _ _ Hnil). cbn [List.filter].
  pose proof (exclusionOf_renderOne renderCtx a) as Ha.
  destruct (exclusionOf renderCtx a) as [info|].
  - destruct Ha as (Hs & Hn & _). apply String.eqb_neq in Hs. rewrite Hs.
    cbn [negb map]. by rewrite Hn, IH.
  - rewrite Ha. cbn [negb String.eqb]. exact IH.
Qed.

End Debug.


(** ** The further properties on the fixtures *)

(** The three override annotations of [samples.customized] pass the syntax
    checks, so the object is accepted, with what acceptance guarantees. *)
Lemma ValidateAnnotations_accepted_customized :
  let syntax := samples.syntax in
  let annotations : gmap string string :=
    list_to_map [("platform.kubevirt.io/patch", "[]");
                 ("platform.kubevirt.io/ignore-fields", "/data/a");
                 ("platform.kubevirt.io/mode", "unmanaged")] in
  overrides.ValidatePatchSecurity (Some samples.customized) = None ∧
  (∀ patch, annotations !! overrides.PatchAnnotation = Some patch →
            ValidateJSONPatch patch = None) ∧
  (∀ pointers, annotations !! overrides.AnnotationIgnoreFields = Some pointers →
               ValidatePointers pointers = None) ∧
  (annotations !! overrides.AnnotationMode = None ∨
   annotations !! overrides.AnnotationMode = Some "" ∨
   annotations !! overrides.AnnotationMode = Some overrides.ModeUnmanaged).
Proof.
  intros syntax annotations.
  apply (ValidateAnnotations_accepted samples.customized annotations).
  - vm_compute. reflexivity.
  - vm_compute. reflexivity.
Defined.

Lemma ValidateAnnotations_sensitive_patch_MachineConfig :
  ∃ err, @annotations.ValidateAnnotations samples.syntax (Some samples.patchedMachineConfig)
         = Some err.
Proof.
  apply (@ValidateAnnotations_sensitive_patch samples.syntax samples.patchedMachineConfig).
  - vm_compute. set_solver.
  - eexists. split; [reflexivity|]. vm_compute. by eexists.
Defined.

Lemma ValidateAnnotations_no_overrides_plain :
  @annotations.ValidateAnnotations samples.syntax (Some samples.plain) = None.
Proof.
  assert (Hno : ∀ key, key ≠ "example.com/owner" → ¬ hasAnnotation samples.plain key).
  { intros key Hne (a & Ha & [v Hv]).
    change (Some ({[ "example.com/owner" := "team-a" ]} : gmap string string) = Some a)
      in Ha.
    injection Ha as <-.
    rewrite lookup_singleton_ne in Hv by done. discriminate. }
  apply (@ValidateAnnotations_no_overrides samples.syntax samples.plain);
    apply Hno; by vm_compute.
Defined.

(** Three documents, the second one blank and the third one rejected by the
    decoder: the error names document 2. *)
Lemma ParseMultiYAML_error_index_third :
  let yaml := fixtures.tableYAML [("fine", fixtures.owned "first")] in
  let data := "fine" +:+ documentSeparator +:+ documentSeparator +:+ "broken" in
  assets.ParseMultiYAML data
  = Err (fmt.Errorf "failed to parse document %d: %w"
           [ArgD (Z.of_nat (length ["fine"; ""]));
            ArgW (fmt.Errorf "failed to parse YAML: %w"
                    [ArgW (errorString "yaml: unmarshal error")])]).
Proof.
  intros yaml data.
  apply (ParseMultiYAML_error_index data "broken" ["fine"; ""] [] [fixtures.owned "first"]).
  - vm_compute. discriminate.
  - vm_compute. reflexivity.
  - constructor; [vm_compute; reflexivity|constructor].
  - vm_compute. discriminate.
  - vm_compute. reflexivity.
Defined.

Example ParseMultiYAML_error_index_message :
  let yaml := fixtures.tableYAML [("fine", fixtures.owned "first")] in
  assets.ParseMultiYAML
    ("fine" +:+ documentSeparator +:+ documentSeparator +:+ "broken")
  = Err (wrapError
           "failed to parse document 2: failed to parse YAML: yaml: unmarshal error"
           (wrapError "failed to parse YAML: yaml: unmarshal error"
              (errorString "yaml: unmarshal error"))).
Proof. vm_compute. reflexivity. Qed.


(** The owned ConfigMap of the tests is deleted. *)
Lemma reconcileTombstone_deletes_owned :
  let r := fixtures.reconciler fixtures.noFiles in
  let live := fixtures.owned "test-config" in
  let w := fixtures.emptyWorld (fixtures.mkFakeServer [live] []) in
  engine.reconcileTombstone r fixtures.tombstone fixtures.hco w
  = ((true, None),
     mkWorld (fixtures.mkFakeServer [] [])
       (calls w ++ [CallGet (assets.GVK fixtures.tombstone) (keyOf fixtures.tombstone);
                    CallDelete live])
       (metrics w ++ [(assets.TsObject fixtures.tombstone, TombstoneDeleted)])
       (events w ++
        recorded r fixtures.hco
          (EventTombstoneDeleted (Kind (assets.GVK fixtures.tombstone))
             (assets.Namespace fixtures.tombstone) (assets.Name fixtures.tombstone)
             (assets.Path fixtures.tombstone)))).
Proof.
  intros r live w.
  apply (reconcileTombstone_deletes r fixtures.tombstone fixtures.hco live w
           (fixtures.mkFakeServer [] [])).
  - vm_compute. reflexivity.
  - eexists. split; [reflexivity|]. vm_compute. reflexivity.
  - vm_compute. reflexivity.
Defined.

(** The server is down: the fetch fails with an internal error. *)
Lemma reconcileTombstone_get_error_down :
  let r := fixtures.reconciler fixtures.noFiles in
  let err := StatusError StatusReasonInternalError "server is down" in
  let w := mkWorld samples.Down [] [] [] in
  engine.reconcileTombstone r fixtures.tombstone fixtures.hco w
  = ((false, Some (fmt.Errorf "failed to get resource: %w" [ArgW err])),
     mkWorld (server w)
       (calls w ++ [CallGet (assets.GVK fixtures.tombstone) (keyOf fixtures.tombstone)])
       (metrics w ++ [(assets.TsObject fixtures.tombstone, TombstoneError)])
       (events w ++
        recorded r fixtures.hco
          (EventTombstoneFailed (Kind (assets.GVK fixtures.tombstone))
             (assets.Namespace fixtures.tombstone) (assets.Name fixtures.tombstone)
             (fmt.Sprintf "Failed to get resource: %v" [ArgV err])))).
Proof.
  intros r err w.
  apply (reconcileTombstone_get_error r fixtures.tombstone fixtures.hco w err);
    reflexivity.
Defined.

(** The server refuses to delete the owned ConfigMap. *)
Lemma reconcileTombstone_delete_error_denied :
  let r := fixtures.reconciler fixtures.noFiles in
  let live := fixtures.owned "test-config" in
  let s := fixtures.mkFakeServer [live] ["test-config"] in
  let err := StatusError StatusReasonForbidden "forbidden" in
  let w := fixtures.emptyWorld s in
  engine.reconcileTombstone r fixtures.tombstone fixtures.hco w
  = ((false, Some (fmt.Errorf "failed to delete resource: %w" [ArgW err])),
     mkWorld s
       (calls w ++ [CallGet (assets.GVK fixtures.tombstone) (keyOf fixtures.tombstone);
                    CallDelete live])
       (metrics w ++ [(assets.TsObject fixtures.tombstone, TombstoneError)])
       (events w ++
        recorded r fixtures.hco
          (EventTombstoneFailed (Kind (assets.GVK fixtures.tombstone))
             (assets.Namespace fixtures.tombstone) (assets.Name fixtures.tombstone)
             (fmt.Sprintf "Failed to delete: %v" [ArgV err])))).
Proof.
  intros r live s err w.
  apply (reconcileTombstone_delete_error r fixtures.tombstone fixtures.hco live w s err).
  - vm_compute. reflexivity.
  - eexists. split; [reflexivity|]. vm_compute. reflexivity.
  - vm_compute. reflexivity.
Defined.

(** The batch of the two tombstone files, the first deletion refused. *)
Lemma ReconcileTombstones_accounting_two :
  let yaml := fixtures.twoDocs in
  let r := fixtures.reconciler fixtures.twoFiles in
  let tombstones :=
    [metadataOf "tombstones/first.yaml" (fixtures.owned "first");
     metadataOf "tombstones/second.yaml" (fixtures.owned "second")] in
  let w := fixtures.emptyWorld
             (fixtures.mkFakeServer [fixtures.owned "first"; fixtures.owned "second"]
                                    ["first"]) in
  ∃ made,
    calls (snd (engine.ReconcileTombstones r fixtures.hco w)) = calls w ++ made ∧
    length (getCalls made) = length tombstones ∧
    (length (deleteCalls made) ≤ length tombstones)%nat ∧
    length (metrics (snd (engine.ReconcileTombstones r fixtures.hco w)))
    = (length (metrics w) + length tombstones)%nat ∧
    0 ≤ fst (fst (engine.ReconcileTombstones r fixtures.hco w))
      ≤ Z.of_nat (length (deleteCalls made)) ∧
    fst (fst (engine.ReconcileTombstones r fixtures.hco w))
    + countFailed (fst (reconcileEach r fixtures.hco tombstones w))
    ≤ Z.of_nat (length tombstones).
Proof.
  intros yaml r tombstones w.
  apply (ReconcileTombstones_accounting r fixtures.hco tombstones w).
  vm_compute. reflexivity.
Defined.

(** Deleting the owned ConfigMap and reconciling its tombstone again. *)
Lemma reconcileTombstone_again_owned :
  let r := fixtures.reconciler fixtures.noFiles in
  let live := fixtures.owned "test-config" in
  let w := fixtures.emptyWorld (fixtures.mkFakeServer [live] []) in
  let first := engine.reconcileTombstone r fixtures.tombstone fixtures.hco w in
  let second := engine.reconcileTombstone r fixtures.tombstone fixtures.hco (snd first) in
  fst first = (true, None) ∧
  fst second = (false, None) ∧
  server (snd second) = fixtures.mkFakeServer [] [] ∧
  deleteCalls (calls (snd second)) = deleteCalls (calls w) ++ [CallDelete live] ∧
  map snd (metrics (snd second))
  = map snd (metrics w) ++ [TombstoneDeleted; TombstoneDeleted].
Proof.
  intros r live w.
  apply (reconcileTombstone_again r fixtures.tombstone fixtures.hco live w
           (fixtures.mkFakeServer [] []) (StatusError StatusReasonNotFound "not found")).
  - vm_compute. reflexivity.
  - eexists. split; [reflexivity|]. vm_compute. reflexivity.
  - vm_compute. reflexivity.
  - vm_compute. reflexivity.
  - reflexivity.
Defined.

(** The GPU asset has a hardware-detection condition after a satisfied
    annotation condition. *)
Lemma CheckConditions_hardware_detection_gpu :
  render.CheckConditions samples.gpuAsset samples.renderCtx = false.
Proof.
  apply (CheckConditions_hardware_detection samples.gpuAsset samples.renderCtx
           (mkAssetCondition "hardware-detection" "" "" "gpuPresent")).
  - vm_compute. set_solver.
  - reflexivity.
Defined.

(** The component column of the status table is 20 bytes wide. *)
Lemma truncate_bounded_component :
  ∃ t, cmdrender.truncate "ValidatingWebhookConfiguration" 20 = Some t ∧
       Z.of_nat (String.length t) ≤ 20 ∧
       (Z.of_nat (String.length "ValidatingWebhookConfiguration") ≤ 20 →
        t = "ValidatingWebhookConfiguration") ∧
       (20 < Z.of_nat (String.length "ValidatingWebhookConfiguration") →
        t = cmdrender.slicePrefix "ValidatingWebhookConfiguration" (20 - 3) +:+ "..." ∧
        Z.of_nat (String.length t) = 20) ∧
       cmdrender.truncate t 20 = Some t.
Proof. apply (truncate_bounded "ValidatingWebhookConfiguration" 20). lia. Defined.

Example truncate_cases :
  cmdrender.truncate "ValidatingWebhookConfiguration" 20 = Some "ValidatingWebhook..." ∧
  cmdrender.truncate "MetalLB" 20 = Some "MetalLB" ∧
  cmdrender.truncate "MetalLB" 2 = None.
Proof. vm_compute. repeat split; reflexivity. Qed.

(** The endpoints on the sample catalog. *)
Lemma handleRenderAsset_agrees_metallb :
  let renderer := samples.renderer in
  let rules := samples.keyRules in
  let r := mkRequest "GET" "/debug/render/metallb" ∅ in
  ∃ assetMeta renderCtx,
    GetAsset samples.server
      (strings.TrimSpace (debug.TrimPrefix (URLPath r) "/debug/render/")) = Ok assetMeta ∧
    debug.getRenderContext samples.server = Ok renderCtx ∧
    [debug.renderOne samples.metallbAsset samples.renderCtx]
    = pkgrender.BuildOutputs [assetMeta] renderCtx true ∧
    "yaml" = (if String.eqb (debug.QueryGet r "format") "" then "yaml"
              else debug.QueryGet r "format").
Proof.
  intros renderer rules r.
  apply (handleRenderAsset_agrees samples.server r
           [debug.renderOne samples.metallbAsset samples.renderCtx] "yaml").
  - reflexivity.
  - vm_compute. reflexivity.
Defined.

Lemma handleExclusions_agrees_catalog :
  let renderer := samples.renderer in
  let rules := samples.keyRules in
  let r := mkRequest "GET" "/debug/exclusions" ∅ in
  ∃ renderCtx,
    debug.getRenderContext samples.server = Ok renderCtx ∧
    map ExAsset (debug.exclusionsLoop samples.renderCtx samples.catalog [])
    = map pkgrender.Asset
        (List.filter (λ output, negb (String.eqb (pkgrender.Status output) "INCLUDED"))
           (pkgrender.BuildOutputs (ListAssetsByReconcileOrder samples.server)
              renderCtx true)).
Proof.
  intros renderer rules r.
  apply (handleExclusions_agrees samples.server r
           (debug.exclusionsLoop samples.renderCtx samples.catalog []) "yaml").
  - reflexivity.
  - reflexivity.
Defined.

Example debug_endpoints_cases :
  let renderer := samples.renderer in
  let rules := samples.keyRules in
  map pkgrender.Status (pkgrender.BuildOutputs samples.catalog samples.renderCtx true)
  = ["FILTERED"; "INCLUDED"; "EXCLUDED"; "ERROR"] ∧
  map pkgrender.Status (pkgrender.BuildOutputs samples.catalog samples.renderCtx false)
  = ["INCLUDED"; "ERROR"] ∧
  cmdrender.summarize (pkgrender.BuildOutputs samples.catalog samples.renderCtx true)
  = cmdrender.mkSummary 1 1 1 1 ∧
  map ExAsset (debug.exclusionsLoop samples.renderCtx samples.catalog [])
  = ["swap-enable"; "gpu"; "broken"] ∧
  debug.handleRenderAsset samples.server (mkRequest "POST" "/debug/render/metallb" ∅)
  = HTTPError "Method not allowed" 405 ∧
  debug.handleRenderAsset samples.server (mkRequest "GET" "/debug/render/" ∅)
  = HTTPError "Asset name required" 400 ∧
  debug.handleRenderAsset samples.server (mkRequest "GET" "/debug/render/nope" ∅)
  = HTTPError "Asset not found: asset nope not found" 404.
Proof. vm_compute. repeat split; reflexivity. Qed.
